(** * aeletsencrypt: Let's Encrypt certificates for AppEngine

    A shallow embedding of [acme.go] and [cron.go].

    The package is glue between external services: the ACME certificate
    authority, the AppEngine admin API (domain mappings and authorized
    certificates), memcache, the clock and the random source.  Each
    service is a method of the class [Platform] acting on an abstract
    world; every call is also recorded, with its arguments and its
    result, in the list of events a computation emits.  The functions of
    the package itself ([challengeHandler], [obtainCert], [authorize],
    [createUpdate], [addTip], [cronHandler]) are translated statement by
    statement into a monad with state, early [return] and panics.

    Go values are modelled as follows: [string] as [string], [[]byte] as
    [list byte], [error] as [option error] ([None] is [nil]), a
    [(value, err)] pair returned by a library as [result], a pointer
    that may be nil as [option], [time.Time] and [time.Duration] as
    nanosecond counts in [Z]. *)

From Stdlib Require Import List String Ascii ZArith Lia Bool Arith DecimalString.
From Stdlib.Strings Require Import Byte.
Import ListNotations.
Local Open Scope Z_scope.
Local Open Scope string_scope.
Local Open Scope list_scope.

Set Implicit Arguments.

(** ** Go base types *)

Definition bytes := list byte.

(** [string(b)] and [[]byte(s)]. *)
Definition string_of_bytes (b : bytes) : string := string_of_list_byte b.
Definition bytes_of_string (s : string) : bytes := list_byte_of_string s.

(** Values of the interface [error].  [memcache.ErrCacheMiss] is a
    sentinel compared by identity; every other error is known by its
    message only. *)
Inductive error : Type :=
| ErrCacheMiss
| ErrorString (msg : string).

(** [err.Error()] *)
Definition Error (e : error) : string :=
  match e with
  | ErrCacheMiss => "memcache: cache miss"
  | ErrorString msg => msg
  end.

(** What a library call returning [(value, err)] yields. *)
Inductive result (A : Type) : Type :=
| Ok (a : A)
| Err (e : error).
Arguments Ok {A} a.
Arguments Err {A} e.

(** ** encoding/base64 and encoding/pem *)

Module base64.

(** [encodeStd] *)
Definition encodeStd : bytes :=
  bytes_of_string
    "ABCDEFGHIJKLMNOPQRSTUVWXYZabcdefghijklmnopqrstuvwxyz0123456789+/".

(** [StdPadding] *)
Definition padChar : byte := "="%byte.

Definition uint (b : byte) : Z := Z.of_N (Byte.to_N b).

(** [enc.encode[i]] *)
Definition encode (i : Z) : byte := nth (Z.to_nat i) encodeStd padChar.

(** [Encoding.Encode] for [StdEncoding]: three source bytes become
    four characters, and the last one or two bytes are padded. *)
Fixpoint Encode (src : bytes) : bytes :=
  match src with
  | [] => []
  | [b0] =>
      let val := Z.shiftl (uint b0) 16 in
      [ encode (Z.land (Z.shiftr val 18) 63);
        encode (Z.land (Z.shiftr val 12) 63);
        padChar; padChar ]
  | [b0; b1] =>
      let val := Z.lor (Z.shiftl (uint b0) 16) (Z.shiftl (uint b1) 8) in
      [ encode (Z.land (Z.shiftr val 18) 63);
        encode (Z.land (Z.shiftr val 12) 63);
        encode (Z.land (Z.shiftr val 6) 63);
        padChar ]
  | b0 :: b1 :: b2 :: rest =>
      let val := Z.lor (Z.lor (Z.shiftl (uint b0) 16) (Z.shiftl (uint b1) 8))
                       (uint b2) in
      encode (Z.land (Z.shiftr val 18) 63)
        :: encode (Z.land (Z.shiftr val 12) 63)
        :: encode (Z.land (Z.shiftr val 6) 63)
        :: encode (Z.land val 63)
        :: Encode rest
  end.

(** [enc.decodeMap[c]]: the position of [c] in the alphabet. *)
Fixpoint index (c : byte) (alphabet : bytes) (i : Z) : option Z :=
  match alphabet with
  | [] => None
  | a :: alphabet' =>
      if Byte.eqb c a then Some i else index c alphabet' (i + 1)
  end.

Definition decodeMap (c : byte) : option Z := index c encodeStd 0.

(** [byte(v)]: the low eight bits. *)
Definition byte_of (v : Z) : byte :=
  match Byte.of_N (Z.to_N (Z.land v 255)) with
  | Some b => b
  | None => x00
  end.

(** Decoding of padded input without line breaks, a quantum of four
    characters at a time; padding is accepted in the last quantum
    only. *)
Fixpoint Decode (src : bytes) : option bytes :=
  match src with
  | [] => Some []
  | c0 :: c1 :: c2 :: c3 :: rest =>
      match decodeMap c0, decodeMap c1 with
      | Some d0, Some d1 =>
          match decodeMap c2, decodeMap c3 with
          | Some d2, Some d3 =>
              let val := Z.lor (Z.lor (Z.lor (Z.shiftl d0 18) (Z.shiftl d1 12))
                                      (Z.shiftl d2 6)) d3 in
              match Decode rest with
              | Some out =>
                  Some (byte_of (Z.shiftr val 16)
                          :: byte_of (Z.shiftr val 8)
                          :: byte_of val :: out)
              | None => None
              end
          | Some d2, None =>
              let val := Z.lor (Z.lor (Z.shiftl d0 18) (Z.shiftl d1 12))
                               (Z.shiftl d2 6) in
              if Byte.eqb c3 padChar then
                match rest with
                | [] => Some [byte_of (Z.shiftr val 16); byte_of (Z.shiftr val 8)]
                | _ :: _ => None
                end
              else None
          | None, _ =>
              let val := Z.lor (Z.shiftl d0 18) (Z.shiftl d1 12) in
              if Byte.eqb c2 padChar && Byte.eqb c3 padChar then
                match rest with
                | [] => Some [byte_of (Z.shiftr val 16)]
                | _ :: _ => None
                end
              else None
          end
      | _, _ => None
      end
  | _ => None
  end.

End base64.

Module pem.

(** [pem.Block]; the package never sets [Headers]. *)
Record Block : Type := mkBlock {
  Type_ : string;
  Bytes : bytes
}.

Definition pemLineLength : nat := 64%nat.

Definition nl : byte := x0a.

(** [lineBreaker]: the output is cut into lines of [pemLineLength]
    characters, each followed by a newline; [fuel] bounds the number of
    lines. *)
Fixpoint breakLines (fuel : nat) (b : bytes) : bytes :=
  match fuel with
  | O => []
  | S fuel' =>
      match b with
      | [] => []
      | _ :: _ =>
          firstn pemLineLength b ++ nl :: breakLines fuel' (skipn pemLineLength b)
      end
  end.

Definition lineBreaker (b : bytes) : bytes := breakLines (List.length b) b.

(** [pem.EncodeToMemory] of a block without headers. *)
Definition EncodeToMemory (b : Block) : bytes :=
  bytes_of_string ("-----BEGIN " ++ Type_ b ++ "-----")%string
    ++ nl :: lineBreaker (base64.Encode (Bytes b))
    ++ bytes_of_string ("-----END " ++ Type_ b ++ "-----")%string
    ++ [nl].

(** *** Reading the transport format back

    A strict reader of the blocks [EncodeToMemory] writes: a BEGIN
    line, lines of base64, the END line of the same type.  It stands
    for [pem.Decode] called until the input is used up. *)

Fixpoint bytes_eqb (a b : bytes) : bool :=
  match a, b with
  | [], [] => true
  | x :: a', y :: b' => Byte.eqb x y && bytes_eqb a' b'
  | _, _ => false
  end.

(** [bytes.HasPrefix] *)
Fixpoint HasPrefix (s prefix : bytes) : bool :=
  match prefix, s with
  | [], _ => true
  | p :: prefix', x :: s' => Byte.eqb x p && HasPrefix s' prefix'
  | _ :: _, [] => false
  end.

(** The lines of [data], each ended by a newline; a last line without
    its newline is kept in the second component. *)
Fixpoint lines (data : bytes) (cur : bytes) : list bytes * bytes :=
  match data with
  | [] => ([], rev cur)
  | c :: data' =>
      if Byte.eqb c nl
      then let (ls, last) := lines data' [] in (rev cur :: ls, last)
      else lines data' (c :: cur)
  end.

Definition pemStart : bytes := bytes_of_string "-----BEGIN ".
Definition pemEnd : bytes := bytes_of_string "-----END ".
Definition pemEndOfLine : bytes := bytes_of_string "-----".

(** The type named by a BEGIN line. *)
Definition beginType (line : bytes) : option bytes :=
  if HasPrefix line pemStart then
    let r := rev (skipn (List.length pemStart) line) in
    if HasPrefix r pemEndOfLine
    then Some (rev (skipn (List.length pemEndOfLine) r))
    else None
  else None.

(** [inside] is [None] between blocks and [Some (type, base64 so far)]
    within one. *)
Fixpoint decodeLines (ls : list bytes) (inside : option (bytes * bytes))
  : option (list Block) :=
  match ls with
  | [] =>
      match inside with
      | None => Some []
      | Some _ => None
      end
  | l :: ls' =>
      match inside with
      | None =>
          match beginType l with
          | Some ty => decodeLines ls' (Some (ty, []))
          | None => None
          end
      | Some (ty, acc) =>
          if HasPrefix l pemEnd then
            if bytes_eqb l (pemEnd ++ ty ++ pemEndOfLine) then
              match base64.Decode acc, decodeLines ls' None with
              | Some der, Some blocks =>
                  Some (mkBlock (string_of_bytes ty) der :: blocks)
              | _, _ => None
              end
            else None
          else decodeLines ls' (Some (ty, acc ++ l))
      end
  end.

Definition DecodeAll (data : bytes) : option (list Block) :=
  let (ls, last) := lines data [] in
  match last with
  | [] => decodeLines ls None
  | _ :: _ => None
  end.

End pem.

(** ** Notions used to read PEM text back *)

(** The lines [lineBreaker] cuts. *)
Fixpoint chunks (fuel : nat) (b : bytes) : list bytes :=
  match fuel with
  | O => []
  | S fuel' =>
      match b with
      | [] => []
      | _ :: _ =>
          firstn pem.pemLineLength b :: chunks fuel' (skipn pem.pemLineLength b)
      end
  end.

Definition notNewline (c : byte) : bool := negb (Byte.eqb c pem.nl).

(** A character that is neither a newline nor a dash. *)
Definition textual (c : byte) : bool :=
  negb (Byte.eqb c pem.nl) && negb (Byte.eqb c "-"%byte).

(** A block whose type fits on the BEGIN line. *)
Definition oneLine (b : pem.Block) : Prop :=
  forallb notNewline (bytes_of_string (pem.Type_ b)) = true.

(** ** Data of the libraries the package talks to *)

(** [rsa.PrivateKey] (without the precomputed values). *)
Record PrivateKey : Type := mkPrivateKey {
  key_N : Z;
  key_E : Z;
  key_D : Z;
  key_Primes : list Z
}.

(** [x509.CertificateRequest], the fields the package fills in:
    [Subject.CommonName] and [DNSNames]. *)
Record CertificateRequest : Type := mkCertificateRequest {
  Subject_CommonName : string;
  DNSNames : list string
}.

Module acme.

(** [acme.Client]; its [HTTPClient] is the world itself. *)
Record Client : Type := mkClient {
  Key : PrivateKey;
  DirectoryURL : string
}.

Record Account : Type := mkAccount {
  Contact : list string;
  AgreedTerms : string
}.

Record Challenge : Type := mkChallenge {
  Type_ : string;
  Challenge_URI : string;
  Token : string;
  Challenge_Status : string
}.

Record Authorization : Type := mkAuthorization {
  URI : string;
  Status : string;
  Challenges : list Challenge
}.

Definition StatusValid : string := "valid".

(** [acme.AcceptTOS] *)
Definition AcceptTOS (tosURL : string) : bool := true.

(** [(c *Client) HTTP01ChallengePath] *)
Definition HTTP01ChallengePath (token : string) : string :=
  ("/.well-known/acme-challenge/" ++ token)%string.

End acme.

Module memcache.

Record Item : Type := mkItem {
  Key : string;
  Value : bytes
}.

End memcache.

(** [google.golang.org/api/appengine/v1beta] *)
Module api.

Record SslSettings : Type := mkSslSettings {
  CertificateId : string
}.

Record DomainMapping : Type := mkDomainMapping {
  DomainMapping_Id : string;
  SslSettings_ : option SslSettings
}.

Record CertificateRawData : Type := mkCertificateRawData {
  PrivateKey_ : string;
  PublicCertificate : string
}.

Record AuthorizedCertificate : Type := mkAuthorizedCertificate {
  CertificateRawData_ : option CertificateRawData;
  DisplayName : string;
  DomainNames : list string;
  ExpireTime : string;
  Id : string
}.

Definition CloudPlatformScope : string :=
  "https://www.googleapis.com/auth/cloud-platform".

End api.

(** [time.Time] and [time.Duration], in nanoseconds. *)
Definition Time := Z.
Definition Duration := Z.

Module time.
Definition Nanosecond : Duration := 1.
Definition Second : Duration := 1000000000 * Nanosecond.
Definition Minute : Duration := 60 * Second.
Definition Hour : Duration := 60 * Minute.
Definition RFC3339 : string := "2006-01-02T15:04:05Z07:00".
(** [t.Add(d)] *)
Definition Add (t : Time) (d : Duration) : Time := t + d.
(** [t.Before(u)] *)
Definition Before (t u : Time) : bool := Z.ltb t u.
End time.

(** ** net/http: requests and response writers *)

Module http.

Definition StatusOK : Z := 200.
Definition StatusForbidden : Z := 403.
Definition StatusNotFound : Z := 404.
Definition StatusInternalServerError : Z := 500.

Record Request : Type := mkRequest {
  URL_Path : string;
  Request_Header : list (string * string)
}.

(** What a handler has done to its [http.ResponseWriter]. *)
Record ResponseWriter : Type := mkResponseWriter {
  Header : list (string * string);
  wroteHeader : bool;
  status : Z;
  body : string
}.

(** The writer a handler is given; a handler that writes nothing
    answers [StatusOK]. *)
Definition newResponseWriter : ResponseWriter :=
  mkResponseWriter [] false StatusOK "".

(** [h.Get(key)] on a header with canonical keys. *)
Fixpoint Header_Get (h : list (string * string)) (key : string) : string :=
  match h with
  | [] => ""
  | (k, v) :: h' => if String.eqb k key then v else Header_Get h' key
  end.

(** [h.Set(key, value)] *)
Fixpoint Header_Set (h : list (string * string)) (key value : string)
  : list (string * string) :=
  match h with
  | [] => [(key, value)]
  | (k, v) :: h' =>
      if String.eqb k key then (k, value) :: h'
      else (k, v) :: Header_Set h' key value
  end.

Definition SetHeader (w : ResponseWriter) (key value : string) : ResponseWriter :=
  mkResponseWriter (Header_Set (Header w) key value)
                   (wroteHeader w) (status w) (body w).

(** [w.WriteHeader(code)]: only the first call counts. *)
Definition WriteHeader (w : ResponseWriter) (code : Z) : ResponseWriter :=
  if wroteHeader w then w
  else mkResponseWriter (Header w) true code (body w).

(** [w.Write(data)]: sends [StatusOK] first when no header was
    written yet. *)
Definition Write (w : ResponseWriter) (data : string) : ResponseWriter :=
  let w' := WriteHeader w StatusOK in
  mkResponseWriter (Header w') (wroteHeader w') (status w') (body w' ++ data)%string.

(** [http.Error(w, error, code)] *)
Definition Error_ (w : ResponseWriter) (error : string) (code : Z)
  : ResponseWriter :=
  let w1 := SetHeader w "Content-Type" "text/plain; charset=utf-8" in
  let w2 := SetHeader w1 "X-Content-Type-Options" "nosniff" in
  let w3 := WriteHeader w2 code in
  Write w3 (error ++ String "010" "")%string.

(** [http.NotFound(w, r)] *)
Definition NotFound (w : ResponseWriter) : ResponseWriter :=
  Error_ w "404 page not found" StatusNotFound.

End http.

(** ** Events: the calls made to external services, with their results *)

Inductive Event : Type :=
| EvGenerateKey (bits : Z) (res : result PrivateKey)
| EvCreateCertificateRequest (template : CertificateRequest)
    (priv : PrivateKey) (res : result bytes)
| EvRegister (c : acme.Client) (a : acme.Account) (res : result acme.Account)
| EvAuthorize (c : acme.Client) (domain : string)
    (res : result acme.Authorization)
| EvAccept (c : acme.Client) (chal : acme.Challenge)
    (res : result acme.Challenge)
| EvWaitAuthorization (c : acme.Client) (uri : string)
    (res : result acme.Authorization)
| EvCreateCert (c : acme.Client) (csr : bytes) (exp : Duration) (bundle : bool)
    (res : result (list bytes * string))
| EvMemcacheGet (key : string) (res : result memcache.Item)
| EvMemcacheSet (item : memcache.Item) (res : option error)
| EvDefaultClient (scope : string) (res : result unit)
| EvApiNew (res : result unit)
| EvServiceAccount (res : result string)
| EvDomainMappingsList (appID : string) (res : result (list api.DomainMapping))
| EvDomainMappingsPatch (appID domain : string) (m : api.DomainMapping)
    (updateMask : string) (res : result unit)
| EvCertificatesList (appID : string)
    (res : result (list api.AuthorizedCertificate))
| EvCertificatesCreate (appID : string) (cert : api.AuthorizedCertificate)
    (res : result api.AuthorizedCertificate)
| EvCertificatesPatch (appID id : string) (cert : api.AuthorizedCertificate)
    (updateMask : string) (res : result api.AuthorizedCertificate).

(** ** The services, as an interface over an abstract world

    A method that performs a remote call or draws randomness takes the
    world and returns the next one; [AppID], [IsAdmin] and [Now] only
    read it; marshalling, the challenge response, parsing and printing
    of times are functions of their arguments; the directory URL is a
    constant. *)

Class Platform (World : Type) : Type := {
  rsa_GenerateKey : Z -> World -> result PrivateKey * World;
  x509_CreateCertificateRequest :
    CertificateRequest -> PrivateKey -> World -> result bytes * World;
  x509_MarshalPKCS1PrivateKey : PrivateKey -> bytes;

  (** the constant [acme.LetsEncryptURL] of the library *)
  acme_LetsEncryptURL : string;
  acme_Register :
    acme.Client -> acme.Account -> (string -> bool) -> World ->
    result acme.Account * World;
  acme_Authorize :
    acme.Client -> string -> World -> result acme.Authorization * World;
  acme_HTTP01ChallengeResponse : acme.Client -> string -> result string;
  acme_Accept :
    acme.Client -> acme.Challenge -> World -> result acme.Challenge * World;
  acme_WaitAuthorization :
    acme.Client -> string -> World -> result acme.Authorization * World;
  acme_CreateCert :
    acme.Client -> bytes -> Duration -> bool -> World ->
    result (list bytes * string) * World;

  memcache_Get : string -> World -> result memcache.Item * World;
  memcache_Set : memcache.Item -> World -> option error * World;

  appengine_AppID : World -> string;
  appengine_ServiceAccount : World -> result string * World;
  user_IsAdmin : World -> bool;
  google_DefaultClient : string -> World -> result unit * World;
  api_New : World -> result unit * World;

  DomainMappings_List : string -> World -> result (list api.DomainMapping) * World;
  DomainMappings_Patch :
    string -> string -> api.DomainMapping -> string -> World ->
    result unit * World;
  AuthorizedCertificates_List :
    string -> World -> result (list api.AuthorizedCertificate) * World;
  AuthorizedCertificates_Create :
    string -> api.AuthorizedCertificate -> World ->
    result api.AuthorizedCertificate * World;
  AuthorizedCertificates_Patch :
    string -> string -> api.AuthorizedCertificate -> string -> World ->
    result api.AuthorizedCertificate * World;

  time_Now : World -> Time;
  time_Parse : string -> string -> result Time;
  Time_String : Time -> string
}.

(** ** The monad of function bodies *)

(** How a statement ends: it yields a value and the body goes on, or it
    is a [return], or it panics. *)
Inductive Res (R A : Type) : Type :=
| Val (a : A)
| Return (r : R)
| Panic (msg : string).
Arguments Val {R A} a.
Arguments Return {R A} r.
Arguments Panic {R A} msg.

Section Monad.

Context {World : Type}.

(** The state of a run: the world and the response writer [w]. *)
Record St : Type := mkSt {
  world : World;
  resp : http.ResponseWriter
}.

Definition M (R A : Type) : Type := St -> Res R A * St * list Event.

Definition pure {R A} (a : A) : M R A := fun st => (Val a, st, []).

Definition ret {R A} (r : R) : M R A := fun st => (Return r, st, []).

Definition panic {R A} (msg : string) : M R A := fun st => (Panic msg, st, []).

Definition bind {R A B} (m : M R A) (k : A -> M R B) : M R B :=
  fun st =>
    match m st with
    | (Val a, st1, evs1) =>
        match k a st1 with
        | (r, st2, evs2) => (r, st2, evs1 ++ evs2)
        end
    | (Return r, st1, evs1) => (Return r, st1, evs1)
    | (Panic msg, st1, evs1) => (Panic msg, st1, evs1)
    end.

(** A call of an external service, recorded with its result. *)
Definition ext {R A} (ev : A -> Event) (f : World -> A * World) : M R A :=
  fun st =>
    let (a, w') := f (world st) in
    (Val a, mkSt w' (resp st), [ev a]).

(** Reading the world. *)
Definition ask {R A} (f : World -> A) : M R A :=
  fun st => (Val (f (world st)), st, []).

(** A call of a function of the package: its [return] is the value of
    the call. *)
Definition call {R R'} (f : M R R) : M R' R :=
  fun st =>
    match f st with
    | (Val r, st1, evs) => (Val r, st1, evs)
    | (Return r, st1, evs) => (Val r, st1, evs)
    | (Panic msg, st1, evs) => (Panic msg, st1, evs)
    end.

(** [v, err := f(); if err != nil { return h(err) }] *)
Definition orReturn {R A} (m : M R (result A)) (h : error -> R) : M R A :=
  bind m (fun r =>
    match r with
    | Ok a => pure a
    | Err err => ret (h err)
    end).

(** [if err := f(); err != nil { return h(err) }] *)
Definition ifErrReturn {R} (m : M R (option error)) (h : error -> R) : M R unit :=
  bind m (fun r =>
    match r with
    | None => pure tt
    | Some err => ret (h err)
    end).

(** [for _, x := range xs { body }] *)
Fixpoint forRange {R A} (xs : list A) (body : A -> M R unit) : M R unit :=
  match xs with
  | [] => pure tt
  | x :: xs' => bind (body x) (fun _ => forRange xs' body)
  end.

(** [fmt.Fprint(w, s)], and [Fprintf], [Fprintln] once formatted. *)
Definition Fprint {R} (s : string) : M R unit :=
  fun st => (Val tt, mkSt (world st) (http.Write (resp st) s), []).

(** [http.Error(w, msg, code)] *)
Definition http_Error {R} (msg : string) (code : Z) : M R unit :=
  fun st => (Val tt, mkSt (world st) (http.Error_ (resp st) msg code), []).

(** [http.NotFound(w, r)] *)
Definition http_NotFound {R} : M R unit :=
  fun st => (Val tt, mkSt (world st) (http.NotFound (resp st)), []).

(** [w.Header().Set(key, value)] *)
Definition Header_Set {R} (key value : string) : M R unit :=
  fun st => (Val tt, mkSt (world st) (http.SetHeader (resp st) key value), []).

End Monad.

Arguments St : clear implicits.
Arguments M : clear implicits.

Declare Scope go_scope.
Delimit Scope go_scope with go.
Notation "x <- m ;; k" := (bind m (fun x => k))
  (at level 61, m at next level, right associativity) : go_scope.
Notation "' pat <- m ;; k" := (bind m (fun x => match x with pat => k end))
  (at level 61, pat pattern, m at next level, right associativity) : go_scope.
Notation "m ;; k" := (bind m (fun _ => k))
  (at level 61, right associativity) : go_scope.

(** [fmt.Errorf] once its arguments are formatted. *)
Definition fmt_Errorf (msg : string) : error := ErrorString msg.

(** [%v] of an [int]. *)
Definition fmt_int (n : nat) : string :=
  DecimalString.NilEmpty.string_of_uint (Nat.to_uint n).

Definition newline : string := String "010" "".

(** [strings.Contains] *)
Fixpoint strings_Contains (s substr : string) : bool :=
  if String.prefix substr s then true
  else match s with
       | EmptyString => false
       | String _ s' => strings_Contains s' substr
       end.

Section Package.

Context {World : Type} {P : Platform World}.

Local Open Scope go_scope.
Local Notation "a +++ b" := (String.append a b)
  (at level 60, right associativity).

(** ** acme.go *)

(** [challengeHandler] responds to the http-01 challenge for domain
    validation. *)
Definition challengeHandler (r : http.Request) : M World unit unit :=
  res <- ext (EvMemcacheGet (http.URL_Path r)) (memcache_Get (http.URL_Path r));;
  match res with
  | Ok item => Fprint (string_of_bytes (memcache.Value item))
  | Err ErrCacheMiss => http_NotFound
  | Err err =>
      http_Error ("memcache get: " +++ Error err)
                 http.StatusInternalServerError
  end.

(** The result of [authorize]. *)
Definition AuthorizeResult : Type := option error.

(** [authorize] authorizes the client to issue certificates for this
    domain by going through the http-01 challenge. *)
Definition authorize (client : acme.Client) (domain : string)
  : M World AuthorizeResult AuthorizeResult :=
  authorization <-
    orReturn (ext (EvAuthorize client domain) (acme_Authorize client domain))
             (fun err => Some (fmt_Errorf ("authorize: " +++ Error err)));;
  if String.eqb (acme.Status authorization) acme.StatusValid then ret None
  else
    let challenge :=
      find (fun c => String.eqb (acme.Type_ c) "http-01")
           (acme.Challenges authorization) in
    match challenge with
    | None => ret (Some (fmt_Errorf "no http-01 challenge offered"))
    | Some challenge =>
        response <-
          orReturn (pure (acme_HTTP01ChallengeResponse client (acme.Token challenge)))
                   (fun err => Some (fmt_Errorf ("challenge response: " +++ Error err)));;
        let item :=
          memcache.mkItem (acme.HTTP01ChallengePath (acme.Token challenge))
                          (bytes_of_string response) in
        ifErrReturn (ext (EvMemcacheSet item) (memcache_Set item))
                    (fun err => Some (fmt_Errorf ("memcache set: " +++ Error err)));;
        _ <- orReturn (ext (EvAccept client challenge) (acme_Accept client challenge))
                      (fun err => Some (fmt_Errorf ("accept challenge: " +++ Error err)));;
        _ <- orReturn (ext (EvWaitAuthorization client (acme.URI authorization))
                           (acme_WaitAuthorization client (acme.URI authorization)))
                      (fun err => Some (fmt_Errorf ("authorization: " +++ Error err)));;
        ret None
    end.

(** The results [(cert, key string, err error)] of [obtainCert]. *)
Definition ObtainResult : Type := string * string * option error.

(** The loop of [obtainCert] over [certDER]. *)
Definition encodeChain (certDER : list bytes) : bytes :=
  fold_left
    (fun certPEM b =>
       certPEM ++ pem.EncodeToMemory (pem.mkBlock "CERTIFICATE" b))
    certDER [].

(** [obtainCert] creates a key and obtains a signed certificate.  It
    returns the signed certificate with chain and the key, both PEM
    encoded.  A temporary account key is created and domain validation
    done over http. *)
Definition obtainCert (domain : string) : M World ObtainResult ObtainResult :=
  certKey <-
    orReturn (ext (EvGenerateKey 2048) (rsa_GenerateKey 2048))
             (fun err => ("", "", Some (fmt_Errorf ("cert key: " +++ Error err))));;
  let req := mkCertificateRequest domain [domain] in
  csr <-
    orReturn (ext (EvCreateCertificateRequest req certKey)
                  (x509_CreateCertificateRequest req certKey))
             (fun err => ("", "", Some (fmt_Errorf ("csr: " +++ Error err))));;
  accountKey <-
    orReturn (ext (EvGenerateKey 2048) (rsa_GenerateKey 2048))
             (fun err => ("", "", Some (fmt_Errorf ("account key: " +++ Error err))));;
  let client := acme.mkClient accountKey acme_LetsEncryptURL in
  let account := acme.mkAccount [] "" in
  _ <- orReturn (ext (EvRegister client account)
                     (acme_Register client account acme.AcceptTOS))
                (fun err => ("", "", Some (fmt_Errorf ("register: " +++ Error err))));;
  ifErrReturn (call (authorize client domain))
              (fun err => ("", "", Some err));;
  let expiry := 90 * 24 * time.Hour in
  let bundle := true in
  '(certDER, _) <-
    orReturn (ext (EvCreateCert client csr expiry bundle)
                  (acme_CreateCert client csr expiry bundle))
             (fun err => ("", "", Some (fmt_Errorf ("create cert: " +++ Error err))));;
  let certPEM := encodeChain certDER in
  let certKeyPEM :=
    pem.EncodeToMemory
      (pem.mkBlock "RSA PRIVATE KEY" (x509_MarshalPKCS1PrivateKey certKey)) in
  ret (string_of_bytes certPEM, string_of_bytes certKeyPEM, None).

(** ** cron.go *)

(** [updateBefore] is the delay to update certificates before
    expiration. *)
Definition updateBefore : Duration := 30 * 24 * time.Hour.

Definition addTip (err : error) : M World error error :=
  appID <- ask appengine_AppID;;
  sa <- ext EvServiceAccount appengine_ServiceAccount;;
  let serviceAccount :=
    match sa with
    | Ok s => s
    | Err _ => "n/a"
    end in
  if strings_Contains (Error err) "Quota configuration not found"
     || strings_Contains (Error err) "Google App Engine Admin API has not been used"
  then
    ret (fmt_Errorf
           (Error err +++ newline
            +++ "Tip: enable Google App Engine Admin API on "
            +++ "https://console.cloud.google.com/apis/api/appengine.googleapis.com/overview?project="
            +++ appID))
  else if strings_Contains (Error err) "Operation not allowed, forbidden" then
    ret (fmt_Errorf
           (Error err +++ newline
            +++ "Tip: add AppEngine default service account (" +++ serviceAccount
            +++ ") to role App Engine Admin "
            +++ "https://console.cloud.google.com/iam-admin/iam/project?project="
            +++ appID))
  else if strings_Contains (Error err)
            "Caller is not authorized to administer this certificate" then
    ret (fmt_Errorf
           (Error err +++ newline
            +++ "Tip: add AppEngine default service account (" +++ serviceAccount
            +++ ") as verified owner for the domain"
            +++ "https://www.google.com/webmasters/verification/details"))
  else ret err.

(** [v, err := f(); if err != nil { return addTip(ctx, h(err)) }] *)
Definition orReturnTip {A} (m : M World (option error) (result A))
    (h : error -> error) : M World (option error) A :=
  r <- m;;
  match r with
  | Ok a => pure a
  | Err err => tipped <- call (addTip (h err));; ret (Some tipped)
  end.

(** The body of the loop of [createUpdate] over the domain mappings. *)
Definition createBody (appID : string) (e : api.DomainMapping)
  : M World (option error) unit :=
  let domain := api.DomainMapping_Id e in
  match api.SslSettings_ e with
  | Some _ =>
      Fprint (" - " +++ domain +++ ": has certificate, nothing to do" +++ newline)
  | None =>
      Fprint (" - " +++ domain +++ ": no certificate, creating" +++ newline);;
      '(cert, key, err) <- call (obtainCert domain);;
      match err with
      | Some err =>
          ret (Some (fmt_Errorf
                       ("obtain cert for " +++ domain +++ ": " +++ Error err)))
      | None =>
          let body :=
            api.mkAuthorizedCertificate
              (Some (api.mkCertificateRawData key cert)) domain [] "" "" in
          created <-
            orReturnTip
              (ext (EvCertificatesCreate appID body)
                   (AuthorizedCertificates_Create appID body))
              (fun err => fmt_Errorf
                            ("create cert for " +++ domain +++ ": " +++ Error err));;
          let mapping :=
            api.mkDomainMapping "" (Some (api.mkSslSettings (api.Id created))) in
          let mask := "ssl_settings.certificate_id" in
          _ <- orReturnTip
                 (ext (EvDomainMappingsPatch appID domain mapping mask)
                      (DomainMappings_Patch appID domain mapping mask))
                 (fun err => fmt_Errorf
                               ("update mapping for " +++ domain +++ ": " +++ Error err));;
          pure tt
      end
  end.

(** The body of the loop of [createUpdate] over the certificates. *)
Definition updateBody (appID : string) (c : api.AuthorizedCertificate)
  : M World (option error) unit :=
  domain <- match api.DomainNames c with
            | d :: _ => pure d
            | [] => panic "runtime error: index out of range"
            end;;
  expire <-
    orReturn (pure (time_Parse time.RFC3339 (api.ExpireTime c)))
             (fun err => Some (fmt_Errorf
                                 ("invalid expiry for " +++ domain +++ ": " +++ Error err)));;
  now <- ask time_Now;;
  if time.Before (time.Add now updateBefore) expire then
    Fprint (" - " +++ domain +++ ": expires on " +++ Time_String expire
            +++ ", nothing to do" +++ newline)
  else
    Fprint (" - " +++ domain +++ ": expires on " +++ Time_String expire
            +++ ", updating" +++ newline);;
    '(cert, key, err) <- call (obtainCert domain);;
    match err with
    | Some err =>
        ret (Some (fmt_Errorf
                     ("obtain cert for " +++ domain +++ ": " +++ Error err)))
    | None =>
        let body :=
          api.mkAuthorizedCertificate
            (Some (api.mkCertificateRawData key cert)) "" [] "" "" in
        let mask := "certificate_raw_data" in
        _ <- orReturnTip
               (ext (EvCertificatesPatch appID (api.Id c) body mask)
                    (AuthorizedCertificates_Patch appID (api.Id c) body mask))
               (fun err => fmt_Errorf
                             ("update cert for " +++ domain +++ ": " +++ Error err));;
        pure tt
    end.

(** [createUpdate] creates and updates certificates as needed.  It
    uses the AppEngine Admin API as the AppEngine default service
    account to list custom domains, creating certificates when
    missing, and to list certificates, updating them before they
    expire. *)
Definition createUpdate : M World (option error) (option error) :=
  appID <- ask appengine_AppID;;
  _ <- orReturn (ext (EvDefaultClient api.CloudPlatformScope)
                     (google_DefaultClient api.CloudPlatformScope))
                (fun err => Some (fmt_Errorf ("default client: " +++ Error err)));;
  _ <- orReturn (ext EvApiNew api_New)
                (fun err => Some (fmt_Errorf ("api client: " +++ Error err)));;
  dm <- orReturnTip (ext (EvDomainMappingsList appID) (DomainMappings_List appID))
                    (fun err => fmt_Errorf ("list domains: " +++ Error err));;
  Fprint ("Found " +++ fmt_int (List.length dm) +++ " custom domains:" +++ newline);;
  forRange dm (createBody appID);;
  Fprint newline;;
  ac <- orReturnTip (ext (EvCertificatesList appID) (AuthorizedCertificates_List appID))
                    (fun err => fmt_Errorf ("list certificates: " +++ Error err));;
  Fprint ("Found " +++ fmt_int (List.length ac) +++ " certificates:" +++ newline);;
  forRange ac (updateBody appID);;
  Fprint newline;;
  ret None.

(** [cronHandler] is the cron job handler to create and update
    certificates. *)
Definition cronHandler (r : http.Request) : M World unit unit :=
  isAdmin <- ask user_IsAdmin;;
  if String.eqb (http.Header_Get (http.Request_Header r) "X-Appengine-Cron") ""
     && negb isAdmin
  then
    http_Error "unauthorized" http.StatusForbidden;;
    ret tt
  else
    Header_Set "Content-Type" "text/plain";;
    err <- call createUpdate;;
    match err with
    | Some err => http_Error (Error err) http.StatusInternalServerError
    | None => pure tt
    end.

End Package.

(** ** A small executable platform

    A world in which the services behave like simple fakes: keys come
    from a counter, the certificate authority follows a per-domain
    script, memcache and the registry are association lists.  The
    examples below run the package in it. *)

Module Fake.

(** How the certificate authority answers [Authorize] for a domain. *)
Inductive Script : Type :=
| AlreadyValid
| OffersHTTP01
| OffersDNS01Only
| Refuses.

Record World : Type := mkWorld {
  now : Time;
  nextKey : Z;
  ca : string -> Script;
  cacheDown : bool;
  registryDown : bool;
  cache : list (string * bytes);
  domains : list api.DomainMapping;
  certs : list api.AuthorizedCertificate;
  nextCert : nat
}.

Definition setNextKey (w : World) (k : Z) : World :=
  mkWorld (now w) k (ca w) (cacheDown w) (registryDown w) (cache w) (domains w) (certs w)
          (nextCert w).

Definition setCache (w : World) (c : list (string * bytes)) : World :=
  mkWorld (now w) (nextKey w) (ca w) (cacheDown w) (registryDown w) c (domains w) (certs w)
          (nextCert w).

Definition setDomains (w : World) (d : list api.DomainMapping) : World :=
  mkWorld (now w) (nextKey w) (ca w) (cacheDown w) (registryDown w) (cache w) d (certs w)
          (nextCert w).

Definition setCerts (w : World) (c : list api.AuthorizedCertificate)
    (n : nat) : World :=
  mkWorld (now w) (nextKey w) (ca w) (cacheDown w) (registryDown w) (cache w) (domains w) c n.

(** A toy key, different at every call. *)
Definition GenerateKey (bits : Z) (w : World) : result PrivateKey * World :=
  (Ok (mkPrivateKey 3233 17 (2753 + nextKey w) [61; 53]),
   setNextKey w (nextKey w + 1)).

Definition CreateCertificateRequest (req : CertificateRequest)
    (key : PrivateKey) (w : World) : result bytes * World :=
  (Ok (bytes_of_string ("csr:" ++ Subject_CommonName req)%string), w).

Definition MarshalPKCS1PrivateKey (key : PrivateKey) : bytes :=
  [x30; base64.byte_of (key_D key); base64.byte_of (key_E key)].

Definition Authorize (c : acme.Client) (domain : string) (w : World)
  : result acme.Authorization * World :=
  let uri := ("authz/" ++ domain)%string in
  let dns := acme.mkChallenge "dns-01" "chal/dns" "tokD" "pending" in
  let http := acme.mkChallenge "http-01" "chal/http" "tokH" "pending" in
  (match ca w domain with
   | AlreadyValid => Ok (acme.mkAuthorization uri "valid" [])
   | OffersHTTP01 => Ok (acme.mkAuthorization uri "pending" [dns; http])
   | OffersDNS01Only => Ok (acme.mkAuthorization uri "pending" [dns])
   | Refuses => Err (ErrorString "too many certificates already issued")
   end, w).

Fixpoint lookup (key : string) (c : list (string * bytes)) : option bytes :=
  match c with
  | [] => None
  | (k, v) :: c' => if String.eqb k key then Some v else lookup key c'
  end.

Definition Get (key : string) (w : World) : result memcache.Item * World :=
  (if cacheDown w then Err (ErrorString "memcache: server error")
   else match lookup key (cache w) with
        | Some v => Ok (memcache.mkItem key v)
        | None => Err ErrCacheMiss
        end, w).

Definition Set_ (item : memcache.Item) (w : World) : option error * World :=
  if cacheDown w then (Some (ErrorString "memcache: server error"), w)
  else (None, setCache w ((memcache.Key item, memcache.Value item) :: cache w)).

Definition CreateCert (c : acme.Client) (csr : bytes) (exp : Duration)
    (bundle : bool) (w : World) : result (list bytes * string) * World :=
  (Ok ([x30 :: csr; bytes_of_string "intermediate"], "cert/1"), w).

Definition ListMappings (appID : string) (w : World)
  : result (list api.DomainMapping) * World :=
  (if registryDown w then Err (ErrorString "Operation not allowed, forbidden")
   else Ok (domains w), w).

Definition bind_ (certId : string) (domain : string) (m : api.DomainMapping)
  : api.DomainMapping :=
  if String.eqb (api.DomainMapping_Id m) domain
  then api.mkDomainMapping domain (Some (api.mkSslSettings certId))
  else m.

Definition PatchMapping (appID domain : string) (m : api.DomainMapping)
    (mask : string) (w : World) : result unit * World :=
  match api.SslSettings_ m with
  | Some s => (Ok tt, setDomains w (map (bind_ (api.CertificateId s) domain) (domains w)))
  | None => (Err (ErrorString "nothing to update"), w)
  end.

Definition CreateCertificate (appID : string) (c : api.AuthorizedCertificate)
    (w : World) : result api.AuthorizedCertificate * World :=
  let created :=
    api.mkAuthorizedCertificate (api.CertificateRawData_ c) (api.DisplayName c)
      [api.DisplayName c] "2017-09-29T00:00:00Z"
      ("cert-" ++ fmt_int (nextCert w))%string in
  (Ok created, setCerts w (certs w ++ [created]) (S (nextCert w))).

Definition replaceRaw (id : string) (raw : option api.CertificateRawData)
    (c : api.AuthorizedCertificate) : api.AuthorizedCertificate :=
  if String.eqb (api.Id c) id
  then api.mkAuthorizedCertificate raw (api.DisplayName c) (api.DomainNames c)
         "2017-09-29T00:00:00Z" id
  else c.

Definition PatchCertificate (appID id : string) (c : api.AuthorizedCertificate)
    (mask : string) (w : World) : result api.AuthorizedCertificate * World :=
  match find (fun x => String.eqb (api.Id x) id) (certs w) with
  | Some old =>
      (Ok (replaceRaw id (api.CertificateRawData_ c) old),
       setCerts w (map (replaceRaw id (api.CertificateRawData_ c)) (certs w))
                (nextCert w))
  | None => (Err (ErrorString "certificate not found"), w)
  end.

(** The timestamps the examples use. *)
Definition Parse (layout value : string) : result Time :=
  if String.eqb value "2017-07-11T00:00:00Z" then Ok (1499731200 * time.Second)
  else if String.eqb value "2017-09-01T00:00:00Z" then Ok (1504224000 * time.Second)
  else if String.eqb value "2017-09-29T00:00:00Z" then Ok (1506643200 * time.Second)
  else Err (ErrorString "parsing time: cannot parse").

Definition TimeString (t : Time) : string :=
  ("unix " ++ NilZero.string_of_int (Z.to_int (t / time.Second)))%string.

#[global] Instance platform : Platform World := {|
  rsa_GenerateKey := GenerateKey;
  x509_CreateCertificateRequest := CreateCertificateRequest;
  x509_MarshalPKCS1PrivateKey := MarshalPKCS1PrivateKey;
  acme_LetsEncryptURL := "https://acme-v01.api.letsencrypt.org/directory";
  acme_Register := fun c a prompt w => (Ok a, w);
  acme_Authorize := Authorize;
  acme_HTTP01ChallengeResponse :=
    fun c token => Ok (token ++ ".thumbprint")%string;
  acme_Accept := fun c chal w => (Ok chal, w);
  acme_WaitAuthorization :=
    fun c uri w => (Ok (acme.mkAuthorization uri "valid" []), w);
  acme_CreateCert := CreateCert;
  memcache_Get := Get;
  memcache_Set := Set_;
  appengine_AppID := fun w => "example-app";
  appengine_ServiceAccount :=
    fun w => (Ok "example-app@appspot.gserviceaccount.com", w);
  user_IsAdmin := fun w => false;
  google_DefaultClient := fun scope w => (Ok tt, w);
  api_New := fun w => (Ok tt, w);
  DomainMappings_List := ListMappings;
  DomainMappings_Patch := PatchMapping;
  AuthorizedCertificates_List := fun appID w => (Ok (certs w), w);
  AuthorizedCertificates_Create := CreateCertificate;
  AuthorizedCertificates_Patch := PatchCertificate;
  time_Now := now;
  time_Parse := Parse;
  Time_String := TimeString
|}.

(** 2017-07-01T00:00:00Z *)
Definition July1 : Time := 1498867200 * time.Second.

Definition start (script : string -> Script) (ds : list api.DomainMapping)
    (cs : list api.AuthorizedCertificate) : St World :=
  mkSt (mkWorld July1 0 script false false [] ds cs 0) http.newResponseWriter.

(** *** Data of the examples *)

Definition toyKey (n : Z) : PrivateKey := mkPrivateKey 3233 17 (2753 + n) [61; 53].

Definition unbound (domain : string) : api.DomainMapping :=
  api.mkDomainMapping domain None.

Definition bound (domain certId : string) : api.DomainMapping :=
  api.mkDomainMapping domain (Some (api.mkSslSettings certId)).

(** A certificate that expires ten days after [July1]. *)
Definition dueSoon : api.AuthorizedCertificate :=
  api.mkAuthorizedCertificate None "c.example" ["c.example"]
    "2017-07-11T00:00:00Z" "cert-9".

(** A certificate that expires sixty-two days after [July1]. *)
Definition farOff : api.AuthorizedCertificate :=
  api.mkAuthorizedCertificate None "d.example" ["d.example"]
    "2017-09-01T00:00:00Z" "cert-10".

(** A certificate without domain names. *)
Definition nameless : api.AuthorizedCertificate :=
  api.mkAuthorizedCertificate None "e.example" []
    "2017-09-01T00:00:00Z" "cert-11".

(** An authority that refuses a.example and offers http-01 for the
    other domains. *)
Definition refusesA (domain : string) : Script :=
  if String.eqb domain "a.example" then Refuses else OffersHTTP01.

(** An authority that refuses c.example. *)
Definition refusesC (domain : string) : Script :=
  if String.eqb domain "c.example" then Refuses else OffersHTTP01.

(** What [obtainCert] returns for [domain] when the authority offers
    http-01, from the start. *)
Definition issued (domain : string) : ObtainResult :=
  match obtainCert domain (start (fun _ => OffersHTTP01) [] []) with
  | (Return x, _, _) => x
  | (Val x, _, _) => x
  | (Panic _, _, _) => (""%string, ""%string, None)
  end.

(** A start in which the service account may not use the admin API. *)
Definition forbidden : St World :=
  mkSt (mkWorld July1 0 (fun _ => OffersHTTP01) false true []
          [unbound "a.example"] [] 0)
       http.newResponseWriter.

(** A run over the one certificate [dueSoon], with the authority
    [refusesC]. *)
Definition renewalRefused : St World := start refusesC [] [dueSoon].

(** A run over two domains without certificate, a.example and
    b.example, with the authority [refusesA]. *)
Definition twoDomains : St World :=
  start refusesA [unbound "a.example"; unbound "b.example"] [].

End Fake.

(** ** What the functions are observed to do

    The runs of [authorize] and [obtainCert], read off their events: one
    constructor per way out of the function, with the value returned and
    the calls made up to there. *)

Section Observations.

Context {World : Type} {P : Platform World}.

(** The first http-01 challenge of an authorization, if any. *)
Definition http01 (auth : acme.Authorization) : option acme.Challenge :=
  find (fun c => String.eqb (acme.Type_ c) "http-01") (acme.Challenges auth).

(** The memcache item [authorize] publishes for a challenge. *)
Definition published (chal : acme.Challenge) (response : string) : memcache.Item :=
  memcache.mkItem (acme.HTTP01ChallengePath (acme.Token chal))
                  (bytes_of_string response).

Inductive authorized (client : acme.Client) (domain : string)
  : AuthorizeResult -> list Event -> Prop :=
| authorized_refused e :
    authorized client domain
      (Some (fmt_Errorf ("authorize: " ++ Error e)%string))
      [EvAuthorize client domain (Err e)]
| authorized_valid auth :
    acme.Status auth = acme.StatusValid ->
    authorized client domain None [EvAuthorize client domain (Ok auth)]
| authorized_unsupported auth :
    acme.Status auth <> acme.StatusValid ->
    http01 auth = None ->
    authorized client domain
      (Some (fmt_Errorf "no http-01 challenge offered"))
      [EvAuthorize client domain (Ok auth)]
| authorized_no_response auth chal e :
    acme.Status auth <> acme.StatusValid ->
    http01 auth = Some chal ->
    acme_HTTP01ChallengeResponse client (acme.Token chal) = Err e ->
    authorized client domain
      (Some (fmt_Errorf ("challenge response: " ++ Error e)%string))
      [EvAuthorize client domain (Ok auth)]
| authorized_unpublished auth chal response e :
    acme.Status auth <> acme.StatusValid ->
    http01 auth = Some chal ->
    acme_HTTP01ChallengeResponse client (acme.Token chal) = Ok response ->
    authorized client domain
      (Some (fmt_Errorf ("memcache set: " ++ Error e)%string))
      [EvAuthorize client domain (Ok auth);
       EvMemcacheSet (published chal response) (Some e)]
| authorized_not_accepted auth chal response e :
    acme.Status auth <> acme.StatusValid ->
    http01 auth = Some chal ->
    acme_HTTP01ChallengeResponse client (acme.Token chal) = Ok response ->
    authorized client domain
      (Some (fmt_Errorf ("accept challenge: " ++ Error e)%string))
      [EvAuthorize client domain (Ok auth);
       EvMemcacheSet (published chal response) None;
       EvAccept client chal (Err e)]
| authorized_failed auth chal response accepted e :
    acme.Status auth <> acme.StatusValid ->
    http01 auth = Some chal ->
    acme_HTTP01ChallengeResponse client (acme.Token chal) = Ok response ->
    authorized client domain
      (Some (fmt_Errorf ("authorization: " ++ Error e)%string))
      [EvAuthorize client domain (Ok auth);
       EvMemcacheSet (published chal response) None;
       EvAccept client chal (Ok accepted);
       EvWaitAuthorization client (acme.URI auth) (Err e)]
| authorized_after_challenge auth chal response accepted final :
    acme.Status auth <> acme.StatusValid ->
    http01 auth = Some chal ->
    acme_HTTP01ChallengeResponse client (acme.Token chal) = Ok response ->
    authorized client domain None
      [EvAuthorize client domain (Ok auth);
       EvMemcacheSet (published chal response) None;
       EvAccept client chal (Ok accepted);
       EvWaitAuthorization client (acme.URI auth) (Ok final)].

(** The request [obtainCert] signs, its client and the arguments of its
    calls. *)
Definition requestFor (domain : string) : CertificateRequest :=
  mkCertificateRequest domain [domain].

Definition clientOf (accountKey : PrivateKey) : acme.Client :=
  acme.mkClient accountKey acme_LetsEncryptURL.

Definition newAccount : acme.Account := acme.mkAccount [] "".

Definition ninetyDays : Duration := 90 * 24 * time.Hour.

Definition keyPEM (certKey : PrivateKey) : string :=
  string_of_bytes
    (pem.EncodeToMemory
       (pem.mkBlock "RSA PRIVATE KEY" (x509_MarshalPKCS1PrivateKey certKey))).

Definition failed (msg : string) : ObtainResult :=
  (""%string, ""%string, Some (fmt_Errorf msg)).

Inductive obtained (domain : string) : ObtainResult -> list Event -> Prop :=
| obtained_no_cert_key e :
    obtained domain (failed ("cert key: " ++ Error e)%string)
      [EvGenerateKey 2048 (Err e)]
| obtained_no_csr certKey e :
    obtained domain (failed ("csr: " ++ Error e)%string)
      [EvGenerateKey 2048 (Ok certKey);
       EvCreateCertificateRequest (requestFor domain) certKey (Err e)]
| obtained_no_account_key certKey csr e :
    obtained domain (failed ("account key: " ++ Error e)%string)
      [EvGenerateKey 2048 (Ok certKey);
       EvCreateCertificateRequest (requestFor domain) certKey (Ok csr);
       EvGenerateKey 2048 (Err e)]
| obtained_not_registered certKey csr accountKey e :
    obtained domain (failed ("register: " ++ Error e)%string)
      [EvGenerateKey 2048 (Ok certKey);
       EvCreateCertificateRequest (requestFor domain) certKey (Ok csr);
       EvGenerateKey 2048 (Ok accountKey);
       EvRegister (clientOf accountKey) newAccount (Err e)]
| obtained_not_authorized certKey csr accountKey account err evsA :
    authorized (clientOf accountKey) domain (Some err) evsA ->
    obtained domain (""%string, ""%string, Some err)
      (EvGenerateKey 2048 (Ok certKey)
         :: EvCreateCertificateRequest (requestFor domain) certKey (Ok csr)
         :: EvGenerateKey 2048 (Ok accountKey)
         :: EvRegister (clientOf accountKey) newAccount (Ok account)
         :: evsA)
| obtained_not_issued certKey csr accountKey account evsA e :
    authorized (clientOf accountKey) domain None evsA ->
    obtained domain (failed ("create cert: " ++ Error e)%string)
      (EvGenerateKey 2048 (Ok certKey)
         :: EvCreateCertificateRequest (requestFor domain) certKey (Ok csr)
         :: EvGenerateKey 2048 (Ok accountKey)
         :: EvRegister (clientOf accountKey) newAccount (Ok account)
         :: evsA
         ++ [EvCreateCert (clientOf accountKey) csr ninetyDays true (Err e)])
| obtained_issued certKey csr accountKey account evsA certDER certURL :
    authorized (clientOf accountKey) domain None evsA ->
    obtained domain
      (string_of_bytes (encodeChain certDER), keyPEM certKey, None)
      (EvGenerateKey 2048 (Ok certKey)
         :: EvCreateCertificateRequest (requestFor domain) certKey (Ok csr)
         :: EvGenerateKey 2048 (Ok accountKey)
         :: EvRegister (clientOf accountKey) newAccount (Ok account)
         :: evsA
         ++ [EvCreateCert (clientOf accountKey) csr ninetyDays true
               (Ok (certDER, certURL))]).

End Observations.

(** Calls that change the registry. *)
Definition registryWrite (e : Event) : bool :=
  match e with
  | EvDomainMappingsPatch _ _ _ _ _ => true
  | EvCertificatesCreate _ _ _ => true
  | EvCertificatesPatch _ _ _ _ _ => true
  | _ => false
  end.

(** Calls of the admin API and of the AppEngine runtime. *)
Definition registryCall (e : Event) : bool :=
  match e with
  | EvDefaultClient _ _ => true
  | EvApiNew _ => true
  | EvServiceAccount _ => true
  | EvDomainMappingsList _ _ => true
  | EvCertificatesList _ _ => true
  | _ => registryWrite e
  end.

(** ** The lines [createUpdate] prints, and the state once printed *)

Section Lines.

Context {World : Type} {P : Platform World}.

(** [createBody], before it asks for a certificate. *)
Definition creating (domain : string) : string :=
  (" - " ++ domain ++ ": no certificate, creating" ++ newline)%string.


Definition updating (domain : string) (expire : Time) : string :=
  (" - " ++ domain ++ ": expires on " ++ Time_String expire
   ++ ", updating" ++ newline)%string.

(** The headings of the two lists. *)
Definition found (n : nat) (what : string) : string :=
  ("Found " ++ fmt_int n ++ what ++ newline)%string.

(** The state after [line] was written to [w]. *)
Definition logged (st : St World) (line : string) : St World :=
  mkSt (world st) (http.Write (resp st) line).

(** The response has been started, with status 200. *)
Definition started (st : St World) : Prop :=
  http.wroteHeader (resp st) = true /\ http.status (resp st) = http.StatusOK.

(** The error [createUpdate] returns when [obtainCert] failed. *)
Definition obtainFailed (domain : string) (err : error) : error :=
  fmt_Errorf ("obtain cert for " ++ domain ++ ": " ++ Error err)%string.

(** The calls with which a run lists the domains [dm]. *)
Definition listing (appID : string) (dm : list api.DomainMapping) : list Event :=
  [EvDefaultClient api.CloudPlatformScope (Ok tt); EvApiNew (Ok tt);
   EvDomainMappingsList appID (Ok dm)].

(** The certificate [updateBody] sends to replace the raw data. *)
Definition rawDataOnly (cert key : string) : api.AuthorizedCertificate :=
  api.mkAuthorizedCertificate
    (Some (api.mkCertificateRawData key cert)) "" [] "" "".

End Lines.

(** The client a call to the certificate authority is made by. *)
Definition eventClient (e : Event) : option acme.Client :=
  match e with
  | EvRegister c _ _ => Some c
  | EvAuthorize c _ _ => Some c
  | EvAccept c _ _ => Some c
  | EvWaitAuthorization c _ _ => Some c
  | EvCreateCert c _ _ _ _ => Some c
  | _ => None
  end.



(** ** Notions used by the further properties *)

(** A call that stores an item in memcache. *)
Definition memcacheSet (e : Event) : bool :=
  match e with
  | EvMemcacheSet _ _ => true
  | _ => false
  end.

(** A call that reads memcache. *)
Definition memcacheGet (e : Event) : bool :=
  match e with
  | EvMemcacheGet _ _ => true
  | _ => false
  end.

(** Ninety days, in nanoseconds. *)
Definition ninetyDaysNs : Duration := 7776000000000000.

(** The raw data a call writes to the certificates of the registry. *)
Definition writtenRaw (e : Event) : option (option api.CertificateRawData) :=
  match e with
  | EvCertificatesCreate _ cert _ => Some (api.CertificateRawData_ cert)
  | EvCertificatesPatch _ _ cert _ _ => Some (api.CertificateRawData_ cert)
  | _ => None
  end.

(** The calls of the first loop of [createUpdate] and of what leads to
    it, and the call of the second loop. *)
Definition domainCall (e : Event) : bool :=
  match e with
  | EvDefaultClient _ _ => true
  | EvApiNew _ => true
  | EvDomainMappingsList _ _ => true
  | EvCertificatesCreate _ _ _ => true
  | EvDomainMappingsPatch _ _ _ _ _ => true
  | _ => false
  end.

Definition certificateCall (e : Event) : bool :=
  match e with
  | EvCertificatesList _ _ => true
  | EvCertificatesPatch _ _ _ _ _ => true
  | _ => false
  end.

(** The certificate [createBody] sends to the registry. *)
Definition newCertificate (domain cert key : string) : api.AuthorizedCertificate :=
  api.mkAuthorizedCertificate
    (Some (api.mkCertificateRawData key cert)) domain [] "" "".

(** The mapping [createBody] sends to bind a certificate. *)
Definition bindingTo (certId : string) : api.DomainMapping :=
  api.mkDomainMapping "" (Some (api.mkSslSettings certId)).

Definition certificatesList (e : Event) : bool :=
  match e with
  | EvCertificatesList _ _ => true
  | _ => false
  end.

(** A call that writes raw data of a certificate. *)
Definition writesRaw (e : Event) : bool :=
  match writtenRaw e with
  | Some _ => true
  | None => false
  end.

Section Backing.
Context {World : Type} {P : Platform World}.

(** Every certificate written in [evs] is the result of a call of
    [obtainCert] that has just succeeded: the calls of [obtainCert]
    come right before the write. *)
Definition backed (evs : list Event) : Prop :=
  forall before ev after raw,
    evs = before ++ ev :: after ->
    writtenRaw ev = Some raw ->
    exists earlier evsI domain (s s1 : St World) cert key,
      before = earlier ++ evsI /\
      obtainCert domain s = (Return (cert, key, None), s1, evsI) /\
      raw = Some (api.mkCertificateRawData key cert).

End Backing.

(** Calls to the registry that failed. *)
Definition failedRegistryCall (e : Event) : bool :=
  match e with
  | EvDomainMappingsList _ (Err _) => true
  | EvDomainMappingsPatch _ _ _ _ (Err _) => true
  | EvCertificatesList _ (Err _) => true
  | EvCertificatesCreate _ _ (Err _) => true
  | EvCertificatesPatch _ _ _ _ (Err _) => true
  | _ => false
  end.

(** The call [addTip] makes. *)
Definition serviceAccountCall (e : Event) : bool :=
  match e with
  | EvServiceAccount _ => true
  | _ => false
  end.

(** What a body has returned, if it has. *)
Definition returned {R A : Type} (r : Res R A) : option R :=
  match r with
  | Return x => Some x
  | _ => None
  end.

(** The service account is not asked in [evs], or it is asked once, by
    the last call and right after a call to the registry that failed,
    and an error is returned. *)
Definition tipped (r : option (option error)) (evs : list Event) : Prop :=
  (forall ev, In ev evs -> serviceAccountCall ev = false)
  \/
  exists before ev sa x,
    evs = before ++ [ev; EvServiceAccount sa] /\
    failedRegistryCall ev = true /\
    (forall e, In e before -> serviceAccountCall e = false) /\
    r = Some (Some x).

(** The error [updateBody] returns for an expiry it cannot parse. *)
Definition invalidExpiry (domain : string) (err : error) : error :=
  fmt_Errorf ("invalid expiry for " ++ domain ++ ": " ++ Error err)%string.

(** A certificate whose expiry the example platform cannot parse. *)
Definition undated : api.AuthorizedCertificate :=
  api.mkAuthorizedCertificate None "f.example" ["f.example"] "soon" "cert-12".

(** A run over the one domain a.example, without certificate, with an
    authority that offers http-01. *)
Definition oneDomain : St Fake.World :=
  Fake.start (fun _ => Fake.OffersHTTP01) [Fake.unbound "a.example"] [].

(** A run in which nothing is due. *)
Definition steady : St Fake.World :=
  Fake.start (fun _ => Fake.OffersHTTP01)
             [Fake.bound "a.example" "cert-10"] [Fake.farOff].

(** A run over [undated] and, after it, a certificate that is due. *)
Definition badExpiry : St Fake.World :=
  Fake.start (fun _ => Fake.OffersHTTP01) [] [undated; Fake.dueSoon].

(** A call of the cron job by the cron service. *)
Definition cronRequest : http.Request :=
  http.mkRequest "/.well-known/letsencrypt" [("X-Appengine-Cron", "true")].

(** * Proofs *)

Local Arguments String.append : simpl never.

Ltac unfold_go :=
  unfold orReturnTip, orReturn, ifErrReturn, call, bind, ext, ask, pure, ret,
         panic, Fprint, http_Error, http_NotFound, Header_Set in *.

Ltac finished H := inversion H; subst; clear H.

(** ** Base64 and PEM: reading back what was written *)

Module base64_facts.
Import base64.

Lemma uint_range (b : byte) : 0 <= uint b < 256.
Proof.
  unfold uint. pose proof (Byte.to_N_bounded b) as H. lia.
Qed.

Lemma byte_of_uint (b : byte) : byte_of (uint b) = b.
Proof.
  unfold byte_of, uint.
  change 255 with (Z.ones 8). rewrite Z.land_ones by lia.
  pose proof (Byte.to_N_bounded b) as H.
  rewrite Z.mod_small by lia. rewrite N2Z.id, Byte.of_to_N. reflexivity.
Qed.

(** [byte(v)] is the byte whose value is [v] modulo 256. *)
Lemma byte_of_mod (v : Z) (b : byte) : v mod 256 = uint b -> byte_of v = b.
Proof.
  intros H. rewrite <- (byte_of_uint b). unfold byte_of.
  change 255 with (Z.ones 8). rewrite !Z.land_ones by lia.
  change (2 ^ 8) with 256. rewrite H.
  pose proof (uint_range b). now rewrite Z.mod_small by lia.
Qed.

(** Every index below 64 is read back from its character. *)
Lemma decodeMap_encode (i : Z) : 0 <= i < 64 -> decodeMap (encode i) = Some i.
Proof.
  intros H.
  assert (Hall : forallb (fun n => match decodeMap (encode (Z.of_nat n)) with
                                   | Some j => Z.eqb j (Z.of_nat n)
                                   | None => false
                                   end) (seq 0 64) = true) by (vm_compute; reflexivity).
  rewrite forallb_forall in Hall.
  specialize (Hall (Z.to_nat i)). rewrite Z2Nat.id in Hall by lia.
  assert (Hin : In (Z.to_nat i) (seq 0 64)) by (apply in_seq; lia).
  specialize (Hall Hin).
  destruct (decodeMap (encode i)) as [j | ]; [ | discriminate].
  apply Z.eqb_eq in Hall. now subst.
Qed.

(** Bits that do not overlap are added. *)
Lemma lor_add (k a b : Z) :
  0 <= k -> a mod 2 ^ k = 0 -> 0 <= b < 2 ^ k -> Z.lor a b = a + b.
Proof.
  intros Hk Ha Hb.
  assert (Hland : Z.land a b = 0).
  { apply Z.bits_inj'. intros n Hn. rewrite Z.land_spec, Z.bits_0.
    destruct (Z.lt_ge_cases n k) as [Hlt | Hge].
    - rewrite <- (Z.mod_pow2_bits_low a k n) by lia. rewrite Ha, Z.bits_0.
      reflexivity.
    - rewrite <- (Z.mod_small b (2 ^ k)) by lia.
      rewrite Z.mod_pow2_bits_high by lia. apply andb_false_r. }
  rewrite <- Z.lxor_lor by exact Hland.
  symmetry. now apply Z.add_nocarry_lxor.
Qed.

Ltac to_arith :=
  rewrite ?Z.shiftl_mul_pow2, ?Z.shiftr_div_pow2 by lia;
  change 63 with (Z.ones 6); rewrite ?Z.land_ones by lia;
  change (2 ^ 18) with 262144; change (2 ^ 16) with 65536;
  change (2 ^ 12) with 4096; change (2 ^ 8) with 256;
  change (2 ^ 6) with 64.

(** The value of two and three bytes, and of two, three and four
    sextets. *)
Lemma bytes2 (x0 x1 : Z) :
  0 <= x0 -> 0 <= x1 < 256 ->
  Z.lor (Z.shiftl x0 16) (Z.shiftl x1 8) = x0 * 65536 + x1 * 256.
Proof.
  intros H0 H1. to_arith.
  apply (@lor_add 16); try lia.
  change (2 ^ 16) with 65536. apply Z.mod_mul. lia.
Qed.

Lemma bytes3 (x0 x1 x2 : Z) :
  0 <= x0 -> 0 <= x1 < 256 -> 0 <= x2 < 256 ->
  Z.lor (Z.lor (Z.shiftl x0 16) (Z.shiftl x1 8)) x2
  = x0 * 65536 + x1 * 256 + x2.
Proof.
  intros H0 H1 H2. rewrite bytes2 by lia.
  apply (@lor_add 8); try lia.
  change (2 ^ 8) with 256.
  replace (x0 * 65536 + x1 * 256) with ((x0 * 256 + x1) * 256) by lia.
  apply Z.mod_mul. lia.
Qed.

Lemma sextets2 (d0 d1 : Z) :
  0 <= d0 -> 0 <= d1 < 64 ->
  Z.lor (Z.shiftl d0 18) (Z.shiftl d1 12) = d0 * 262144 + d1 * 4096.
Proof.
  intros H0 H1. to_arith.
  apply (@lor_add 18); try lia.
  change (2 ^ 18) with 262144. apply Z.mod_mul. lia.
Qed.

Lemma sextets3 (d0 d1 d2 : Z) :
  0 <= d0 -> 0 <= d1 < 64 -> 0 <= d2 < 64 ->
  Z.lor (Z.lor (Z.shiftl d0 18) (Z.shiftl d1 12)) (Z.shiftl d2 6)
  = d0 * 262144 + d1 * 4096 + d2 * 64.
Proof.
  intros H0 H1 H2. rewrite sextets2 by lia. to_arith.
  apply (@lor_add 12); try lia.
  change (2 ^ 12) with 4096.
  replace (d0 * 262144 + d1 * 4096) with ((d0 * 64 + d1) * 4096) by lia.
  apply Z.mod_mul. lia.
Qed.

Lemma sextets4 (d0 d1 d2 d3 : Z) :
  0 <= d0 -> 0 <= d1 < 64 -> 0 <= d2 < 64 -> 0 <= d3 < 64 ->
  Z.lor (Z.lor (Z.lor (Z.shiftl d0 18) (Z.shiftl d1 12)) (Z.shiftl d2 6)) d3
  = d0 * 262144 + d1 * 4096 + d2 * 64 + d3.
Proof.
  intros H0 H1 H2 H3. rewrite sextets3 by lia.
  apply (@lor_add 6); try lia.
  change (2 ^ 6) with 64.
  replace (d0 * 262144 + d1 * 4096 + d2 * 64)
    with ((d0 * 4096 + d1 * 64 + d2) * 64) by lia.
  apply Z.mod_mul. lia.
Qed.

Lemma sextet_range (v : Z) : 0 <= Z.land v 63 < 64.
Proof.
  change 63 with (Z.ones 6). rewrite Z.land_ones by lia.
  apply Z.mod_pos_bound. lia.
Qed.

Lemma decodeMap_sextet (v : Z) :
  decodeMap (encode (Z.land v 63)) = Some (Z.land v 63).
Proof. apply decodeMap_encode, sextet_range. Qed.

Lemma decodeMap_pad : decodeMap padChar = None.
Proof. reflexivity. Qed.

Ltac div_mod := to_arith; Z.div_mod_to_equations; lia.

(** Decoding undoes encoding. *)
Lemma Decode_Encode_upto (n : nat) (src : bytes) :
  (List.length src <= n)%nat -> Decode (Encode src) = Some src.
Proof.
  revert src. induction n as [ | n IH]; intros src Hlen.
  - destruct src; [reflexivity | simpl in Hlen; lia].
  - destruct src as [ | b0 [ | b1 [ | b2 rest]]].
    + reflexivity.
    + cbn [Encode Decode].
      rewrite !decodeMap_sextet, decodeMap_pad. cbn [Byte.eqb].
      change (Byte.eqb padChar padChar) with true. cbn [andb].
      f_equal. f_equal. apply byte_of_mod.
      pose proof (uint_range b0).
      rewrite sextets2 by (first [apply sextet_range | lia]).
      div_mod.
    + cbn [Encode Decode].
      rewrite !decodeMap_sextet, decodeMap_pad.
      change (Byte.eqb padChar padChar) with true. cbv iota beta.
      pose proof (uint_range b0). pose proof (uint_range b1).
      rewrite bytes2 by lia.
      rewrite sextets3 by (first [apply sextet_range | lia]).
      f_equal. f_equal; [ | f_equal]; apply byte_of_mod; div_mod.
    + cbn [Encode Decode].
      rewrite !decodeMap_sextet.
      rewrite IH by (simpl in Hlen; lia).
      pose proof (uint_range b0). pose proof (uint_range b1).
      pose proof (uint_range b2).
      rewrite bytes3 by lia.
      rewrite sextets4 by (first [apply sextet_range | lia]).
      f_equal. f_equal; [ | f_equal; [ | f_equal]]; apply byte_of_mod; div_mod.
Qed.

Lemma Decode_Encode (src : bytes) : Decode (Encode src) = Some src.
Proof. apply (@Decode_Encode_upto (List.length src)). lia. Qed.

(** The characters of an encoding are those of the alphabet and the
    padding: none is a newline or a dash. *)
Lemma encode_textual (i : Z) : textual (encode i) = true.
Proof.
  unfold encode.
  assert (Hall : forallb textual (padChar :: encodeStd) = true)
    by (vm_compute; reflexivity).
  rewrite forallb_forall in Hall. apply Hall.
  destruct (Nat.lt_ge_cases (Z.to_nat i) (List.length encodeStd)) as [Hlt | Hge].
  - right. now apply nth_In.
  - left. now rewrite nth_overflow.
Qed.

Lemma Encode_textual (src : bytes) : forallb textual (Encode src) = true.
Proof.
  assert (H : forall n src, (List.length src <= n)%nat ->
                            forallb textual (Encode src) = true).
  { induction n as [ | n IH]; intros s Hlen.
    - destruct s; [reflexivity | simpl in Hlen; lia].
    - destruct s as [ | b0 [ | b1 [ | b2 rest]]]; cbn [Encode forallb];
        rewrite ?encode_textual; try reflexivity.
      cbn [andb]. apply IH. simpl in Hlen. lia. }
  apply (H (List.length src)). lia.
Qed.
End base64_facts.

Module pem_facts.
Import pem.

Lemma bytes_of_string_app (s t : string) :
  bytes_of_string (s ++ t)%string = bytes_of_string s ++ bytes_of_string t.
Proof.
  unfold bytes_of_string. induction s as [ | a s IH]; simpl.
  - reflexivity.
  - unfold list_byte_of_string in *. simpl. now rewrite IH.
Qed.

Lemma bytes_eqb_refl (a : bytes) : bytes_eqb a a = true.
Proof.
  induction a as [ | x a IH]; simpl; [reflexivity | ].
  rewrite IH, andb_true_r. now apply Byte.byte_dec_lb.
Qed.

Lemma byte_eqb_refl (x : byte) : Byte.eqb x x = true.
Proof. now apply Byte.byte_dec_lb. Qed.

Lemma HasPrefix_app (p s : bytes) : HasPrefix (p ++ s) p = true.
Proof.
  induction p as [ | x p IH]; simpl; [now destruct s | ].
  now rewrite byte_eqb_refl, IH.
Qed.

Lemma skipn_app_exact (A : Type) (p s : list A) : skipn (List.length p) (p ++ s) = s.
Proof. induction p; simpl; auto. Qed.

(** One line is read up to its newline. *)
Lemma lines_line (l rest cur : bytes) :
  forallb notNewline l = true ->
  lines (l ++ nl :: rest) cur
  = (let (ls, last) := lines rest [] in ((rev cur ++ l) :: ls, last)).
Proof.
  revert cur. induction l as [ | c l IH]; intros cur Hl; simpl.
  - rewrite app_nil_r. reflexivity.
  - simpl in Hl. apply andb_true_iff in Hl. destruct Hl as [Hc Hl].
    unfold notNewline in Hc. apply negb_true_iff in Hc. rewrite Hc.
    rewrite (IH (c :: cur) Hl). simpl. now rewrite <- app_assoc.
Qed.

Lemma forallb_firstn (A : Type) (f : A -> bool) (n : nat) (l : list A) :
  forallb f l = true -> forallb f (firstn n l) = true.
Proof.
  revert l. induction n as [ | n IH]; intros [ | x l] H; simpl; auto.
  simpl in H. apply andb_true_iff in H. destruct H as [Hx Hl].
  now rewrite Hx, IH.
Qed.

Lemma forallb_skipn (A : Type) (f : A -> bool) (n : nat) (l : list A) :
  forallb f l = true -> forallb f (skipn n l) = true.
Proof.
  revert l. induction n as [ | n IH]; intros [ | x l] H; simpl; auto.
  simpl in H. apply andb_true_iff in H. destruct H as [Hx Hl]. now apply IH.
Qed.

(** The broken lines are read back as the chunks. *)
Lemma lines_breakLines (fuel : nat) (b rest : bytes) :
  forallb notNewline b = true ->
  lines (breakLines fuel b ++ rest) []
  = (let (ls, last) := lines rest [] in (chunks fuel b ++ ls, last)).
Proof.
  revert b. induction fuel as [ | fuel IH]; intros b Hb.
  - cbn [breakLines chunks app]. destruct (lines rest []); reflexivity.
  - destruct b as [ | x b]; cbn [breakLines chunks].
    + cbn [app]. destruct (lines rest []); reflexivity.
    + rewrite <- app_assoc, <- app_comm_cons.
      rewrite lines_line by (now apply forallb_firstn).
      rewrite IH by (now apply forallb_skipn).
      destruct (lines rest []) as [ls last]. reflexivity.
Qed.

Lemma concat_chunks (fuel : nat) (b : bytes) :
  (List.length b <= fuel)%nat -> List.concat (chunks fuel b) = b.
Proof.
  revert b. induction fuel as [ | fuel IH]; intros b Hlen.
  - destruct b; [reflexivity | simpl in Hlen; lia].
  - destruct b as [ | x b]; [reflexivity | ].
    cbn [chunks List.concat]. rewrite IH.
    + apply firstn_skipn.
    + rewrite length_skipn. simpl in *. unfold pemLineLength. lia.
Qed.

Lemma textual_notNewline (b : bytes) :
  forallb textual b = true -> forallb notNewline b = true.
Proof.
  induction b as [ | x b IH]; simpl; [reflexivity | ].
  intros H. apply andb_true_iff in H. destruct H as [Hx Hb].
  unfold textual in Hx. apply andb_true_iff in Hx.
  destruct Hx as [Hx _]. unfold notNewline at 1. rewrite Hx. now apply IH.
Qed.

(** No chunk of base64 text looks like an END line. *)
Lemma chunks_not_end (fuel : nat) (b : bytes) :
  forallb textual b = true ->
  Forall (fun c => HasPrefix c pemEnd = false) (chunks fuel b).
Proof.
  revert b. induction fuel as [ | fuel IH]; intros b Hb; cbn [chunks].
  - constructor.
  - destruct b as [ | x b]; constructor.
    + simpl in Hb. apply andb_true_iff in Hb. destruct Hb as [Hx _].
      unfold textual in Hx. apply andb_true_iff in Hx.
      destruct Hx as [_ Hx]. apply negb_true_iff in Hx.
      unfold pemLineLength. cbn [firstn]. unfold pemEnd.
      change (bytes_of_string "-----END ")
        with ("-"%byte :: bytes_of_string "----END ").
      cbn [HasPrefix]. now rewrite Hx.
    + apply IH. now apply forallb_skipn.
Qed.

Lemma decodeLines_chunks (ty acc : bytes) (cs ls : list bytes) :
  Forall (fun c => HasPrefix c pemEnd = false) cs ->
  decodeLines (cs ++ ls) (Some (ty, acc))
  = decodeLines ls (Some (ty, acc ++ List.concat cs)).
Proof.
  intros H. revert acc. induction H as [ | c cs Hc Hcs IH]; intros acc.
  - simpl. now rewrite app_nil_r.
  - cbn [app decodeLines List.concat]. rewrite Hc, IH. now rewrite <- app_assoc.
Qed.

Lemma beginType_line (ty : bytes) :
  beginType (pemStart ++ ty ++ pemEndOfLine) = Some ty.
Proof.
  unfold beginType. rewrite HasPrefix_app, skipn_app_exact, rev_app_distr.
  change (rev pemEndOfLine) with pemEndOfLine.
  rewrite HasPrefix_app, skipn_app_exact. now rewrite rev_involutive.
Qed.

Lemma EncodeToMemory_lines (b : Block) :
  EncodeToMemory b
  = (pemStart ++ bytes_of_string (Type_ b) ++ pemEndOfLine)
      ++ nl :: lineBreaker (base64.Encode (Bytes b))
      ++ (pemEnd ++ bytes_of_string (Type_ b) ++ pemEndOfLine) ++ [nl].
Proof.
  unfold EncodeToMemory. now rewrite !bytes_of_string_app.
Qed.

Lemma dashes_notNewline (p ty q : bytes) :
  forallb notNewline p = true -> forallb notNewline q = true ->
  forallb notNewline ty = true ->
  forallb notNewline (p ++ ty ++ q) = true.
Proof.
  intros Hp Hq Hty. rewrite !forallb_app. now rewrite Hp, Hq, Hty.
Qed.

(** Blocks written one after the other are read back in order. *)
Lemma decodeLines_blocks (blocks : list Block) :
  Forall oneLine blocks ->
  exists ls,
    lines (List.concat (map EncodeToMemory blocks)) [] = (ls, []) /\
    decodeLines ls None = Some blocks.
Proof.
  induction 1 as [ | b blocks Hb Hbs IH].
  - exists []. split; reflexivity.
  - destruct IH as (ls & Hls & Hdec).
    cbn [map List.concat]. rewrite EncodeToMemory_lines.
    set (ty := bytes_of_string (Type_ b)) in *.
    set (rest := List.concat (map EncodeToMemory blocks)) in *.
    set (first := pemStart ++ ty ++ pemEndOfLine).
    set (final := pemEnd ++ ty ++ pemEndOfLine).
    replace ((first ++ nl :: lineBreaker (base64.Encode (Bytes b))
                ++ final ++ [nl]) ++ rest)
      with (first ++ nl :: (lineBreaker (base64.Encode (Bytes b))
                              ++ (final ++ nl :: rest)))
      by (repeat (rewrite <- app_assoc || rewrite <- app_comm_cons);
          reflexivity).
    rewrite lines_line by (apply dashes_notNewline; auto).
    unfold lineBreaker.
    rewrite lines_breakLines
      by (apply textual_notNewline, base64_facts.Encode_textual).
    rewrite lines_line by (apply dashes_notNewline; auto).
    rewrite Hls. cbn [rev app].
    eexists. split; [reflexivity | ].
    cbn [decodeLines]. unfold first, final. rewrite beginType_line.
    rewrite decodeLines_chunks
      by (apply chunks_not_end, base64_facts.Encode_textual).
    cbn [decodeLines app]. rewrite HasPrefix_app, bytes_eqb_refl.
    rewrite concat_chunks by lia.
    rewrite base64_facts.Decode_Encode, Hdec.
    unfold string_of_bytes, ty, bytes_of_string.
    rewrite string_of_list_byte_of_string. now destruct b.
Qed.

(** The round trip: what [EncodeToMemory] wrote, block after block, is
    read back as the same blocks. *)
Lemma DecodeAll_EncodeToMemory (blocks : list Block) :
  Forall oneLine blocks ->
  DecodeAll (List.concat (map EncodeToMemory blocks)) = Some blocks.
Proof.
  intros H. destruct (decodeLines_blocks H) as (ls & Hls & Hdec).
  unfold DecodeAll. now rewrite Hls.
Qed.
End pem_facts.

(** ** The runs of [authorize] and [obtainCert] *)

Section Runs.
Context {World : Type} {P : Platform World}.

Lemma authorize_inv (client : acme.Client) (domain : string)
    (st st' : St World) (r : Res AuthorizeResult AuthorizeResult) (evs : list Event) :
  authorize client domain st = (r, st', evs) ->
  resp st' = resp st /\ exists x, r = Return x /\ authorized client domain x evs.
Proof.
  intros H. unfold authorize in H. unfold_go. fold (http01) in H.
  destruct (acme_Authorize client domain (world st)) as [[auth | e] w1] eqn:HA;
    simpl in H.
  2: { finished H. split; [reflexivity | eexists; split; [reflexivity | constructor]]. }
  destruct (String.eqb_spec (acme.Status auth) acme.StatusValid) as [HS | HS].
  { finished H. split; [reflexivity | eexists; split; [reflexivity | ]].
    now constructor. }
  change (find (fun c => String.eqb (acme.Type_ c) "http-01") (acme.Challenges auth))
    with (http01 auth) in H.
  destruct (http01 auth) as [chal | ] eqn:HC; simpl in H.
  2: { finished H. split; [reflexivity | eexists; split; [reflexivity | ]].
       now constructor. }
  destruct (acme_HTTP01ChallengeResponse client (acme.Token chal))
    as [response | e] eqn:HR; simpl in H.
  2: { finished H. split; [reflexivity | eexists; split; [reflexivity | ]].
       now apply authorized_no_response with (chal := chal). }
  fold (published chal response) in H.
  destruct (memcache_Set (published chal response) w1) as [[e | ] w2] eqn:HM;
    simpl in H.
  { finished H. split; [reflexivity | eexists; split; [reflexivity | ]].
    now apply authorized_unpublished. }
  destruct (acme_Accept client chal w2) as [[accepted | e] w3] eqn:HAc;
    simpl in H.
  2: { finished H. split; [reflexivity | eexists; split; [reflexivity | ]].
       now apply authorized_not_accepted. }
  destruct (acme_WaitAuthorization client (acme.URI auth) w3)
    as [[final | e] w4] eqn:HW; simpl in H.
  2: { finished H. split; [reflexivity | eexists; split; [reflexivity | ]].
       now apply authorized_failed. }
  finished H. split; [reflexivity | eexists; split; [reflexivity | ]].
  now apply authorized_after_challenge.
Qed.

Lemma obtainCert_inv (domain : string) (st st' : St World)
    (r : Res ObtainResult ObtainResult) (evs : list Event) :
  obtainCert domain st = (r, st', evs) ->
  resp st' = resp st /\ exists x, r = Return x /\ obtained domain x evs.
Proof.
  intros H. unfold obtainCert in H. unfold_go.
  fold (requestFor domain) in H. fold ninetyDays in H.
  destruct (rsa_GenerateKey 2048 (world st)) as [[certKey | e] w1] eqn:H1;
    simpl in H.
  2: { finished H. split; [reflexivity | eexists; split; [reflexivity | constructor]]. }
  destruct (x509_CreateCertificateRequest (requestFor domain) certKey w1)
    as [[csr | e] w2] eqn:H2; simpl in H.
  2: { finished H. split; [reflexivity | eexists; split; [reflexivity | constructor]]. }
  destruct (rsa_GenerateKey 2048 w2) as [[accountKey | e] w3] eqn:H3; simpl in H.
  2: { finished H. split; [reflexivity | eexists; split; [reflexivity | constructor]]. }
  fold (clientOf accountKey) in H. fold newAccount in H.
  destruct (acme_Register (clientOf accountKey) newAccount acme.AcceptTOS w3)
    as [[account | e] w4] eqn:H4; simpl in H.
  2: { finished H. split; [reflexivity | eexists; split; [reflexivity | constructor]]. }
  destruct (authorize (clientOf accountKey) domain (mkSt w4 (resp st)))
    as [[ra sta] evsA] eqn:HA.
  apply authorize_inv in HA. destruct HA as [HrA [x [-> HX]]]. simpl in HrA.
  destruct x as [err | ]; simpl in H.
  { finished H. split; [exact HrA | eexists; split; [reflexivity | ]].
    rewrite app_nil_r. now apply obtained_not_authorized. }
  destruct (acme_CreateCert (clientOf accountKey) csr ninetyDays true (world sta))
    as [[[certDER certURL] | e] w5] eqn:H5; simpl in H.
  2: { finished H. split; [exact HrA | eexists; split; [reflexivity | ]].
       rewrite app_nil_r. now apply obtained_not_issued. }
  finished H. split; [exact HrA | eexists; split; [reflexivity | ]].
  rewrite app_nil_r. now apply obtained_issued.
Qed.
End Runs.

Section Loops.
Context {World : Type} {R A : Type}.
Variable body : A -> M World R unit.

(** A loop that reaches [c] after [pre] goes on with the body at [c]. *)
Lemma forRange_reach (pre post : list A) (c : A) (st0 st1 : St World)
    (evs0 : list Event) :
  forRange pre body st0 = (Val tt, st1, evs0) ->
  forRange (pre ++ c :: post) body st0
  = match body c st1 with
    | (Val _, st2, evs1) =>
        match forRange post body st2 with
        | (r, st3, evs2) => (r, st3, evs0 ++ evs1 ++ evs2)
        end
    | (Return r, st2, evs1) => (Return r, st2, evs0 ++ evs1)
    | (Panic msg, st2, evs1) => (Panic msg, st2, evs0 ++ evs1)
    end.
Proof.
  revert st0 evs0. induction pre as [ | x pre IH]; intros st0 evs0 H; simpl in *.
  - unfold pure in H. finished H. unfold bind.
    destruct (body c st1) as [[[u | r | msg] st2] evs1]; try reflexivity.
  - unfold bind in *.
    destruct (body x st0) as [[[u | r | msg] sx] evsx]; try discriminate.
    destruct (forRange pre body sx) as [[rp sp] evsp] eqn:HP.
    finished H. rewrite (IH _ _ HP).
    destruct (body c st1) as [[[u' | r | msg] st2] evs1].
    + destruct (forRange post body st2) as [[r3 st3] evs2].
      now rewrite <- !app_assoc.
    + now rewrite <- !app_assoc.
    + now rewrite <- !app_assoc.
Qed.

(** A loop that runs to its end ran its body at every element. *)
Lemma forRange_completed (pre post : list A) (c : A) (st0 st' : St World)
    (evs : list Event) :
  forRange (pre ++ c :: post) body st0 = (Val tt, st', evs) ->
  exists st1 evs0 st2 evs1 evs2,
    forRange pre body st0 = (Val tt, st1, evs0) /\
    body c st1 = (Val tt, st2, evs1) /\
    forRange post body st2 = (Val tt, st', evs2) /\
    evs = evs0 ++ evs1 ++ evs2.
Proof.
  revert st0 evs. induction pre as [ | x pre IH]; intros st0 evs H; simpl in *.
  - unfold bind in H.
    destruct (body c st0) as [[[[] | r | msg] st2] evs1] eqn:HB; try discriminate.
    destruct (forRange post body st2) as [[r3 st3] evs2] eqn:HP.
    finished H. exists st0, [], st2, evs1, evs2. repeat split; auto.
  - unfold bind in H.
    destruct (body x st0) as [[[[] | r | msg] sx] evsx] eqn:HB; try discriminate.
    destruct (forRange (pre ++ c :: post) body sx) as [[rp sp] evsp] eqn:HP.
    finished H. destruct (IH _ _ HP) as (st1 & evs0 & st2 & evs1 & evs2 & H1 & H2 & H3 & ->).
    exists st1, (evsx ++ evs0), st2, evs1, evs2.
    unfold bind. rewrite HB, H1. repeat split; auto. now rewrite <- app_assoc.
Qed.

(** A loop whose body never panics does not panic. *)
Lemma forRange_no_panic (xs : list A) :
  (forall x st msg st' evs, In x xs -> body x st <> (Panic msg, st', evs)) ->
  forall st msg st' evs, forRange xs body st <> (Panic msg, st', evs).
Proof.
  induction xs as [ | x xs IH]; intros HB st msg st' evs H; simpl in H.
  - discriminate.
  - unfold bind in H.
    destruct (body x st) as [[[u | r | m] sx] evsx] eqn:E; try discriminate.
    + destruct (forRange xs body sx) as [[rp sp] evsp] eqn:HP.
      finished H. eapply IH; [ | exact HP]. intros; apply HB; now right.
    + finished H. eapply HB; [now left | exact E].
Qed.
End Loops.

Section Cron.
Context {World : Type} {P : Platform World}.

Lemma addTip_inv (err : error) (st st' : St World) (r : Res error error)
    (evs : list Event) :
  addTip err st = (r, st', evs) ->
  resp st' = resp st /\ (exists x, r = Return x) /\
  exists sa, evs = [EvServiceAccount sa].
Proof.
  intros H. unfold addTip in H. unfold_go.
  destruct (appengine_ServiceAccount (world st)) as [sa w1].
  repeat match type of H with
         | context [if ?b then _ else _] => destruct b
         end;
    finished H; (split; [reflexivity | split; eexists; reflexivity]).
Qed.

End Cron.

(** Case analysis on the result the run in [H] waits for next. *)
Ltac case_next H :=
  match type of H with
  | context [match ?x with _ => _ end] =>
      lazymatch x with
      | context [match _ with _ => _ end] => fail
      | addTip ?e ?s =>
          let E := fresh "E" in
          destruct (addTip e s) as [[? ?] ?] eqn:E;
          destruct (addTip_inv _ _ E) as (? & (? & ->) & (? & ->))
      | obtainCert ?d ?s =>
          let E := fresh "E" in
          destruct (obtainCert d s) as [[? ?] ?] eqn:E;
          destruct (obtainCert_inv _ _ E) as (? & [[? ?] ?] & -> & ?)
      | _ => first [is_var x; destruct x | destruct x eqn:?]
      end; simpl in H
  end.

Section Bodies.
Context {World : Type} {P : Platform World}.

Lemma createBody_no_panic (appID : string) (e : api.DomainMapping)
    (st st' : St World) (msg : string) (evs : list Event) :
  createBody appID e st <> (Panic msg, st', evs).
Proof.
  intros H. unfold createBody in H. unfold_go.
  repeat case_next H; discriminate.
Qed.

Lemma updateBody_panic (appID : string) (c : api.AuthorizedCertificate)
    (st st' : St World) (msg : string) (evs : list Event) :
  updateBody appID c st = (Panic msg, st', evs) -> api.DomainNames c = [].
Proof.
  intros H. unfold updateBody in H. unfold_go.
  repeat case_next H; try discriminate. reflexivity.
Qed.
End Bodies.


(** ** The challenge handler *)

Section Handler.
Context {World : Type} {P : Platform World}.

(** C3.  The handler asks memcache for the request path once.  When
    memcache has an item, the response is 200 and its body is the item's
    value, byte for byte; on [ErrCacheMiss] it is 404; on any other
    error it is 500 (and so never a 404). *)
Theorem challengeHandler_response (r : http.Request) (w : World) :
  let '(res, st', evs) := challengeHandler r (mkSt w http.newResponseWriter) in
  let got := memcache_Get (http.URL_Path r) w in
  res = Val tt /\ world st' = snd got /\
  evs = [EvMemcacheGet (http.URL_Path r) (fst got)] /\
  match fst got with
  | Ok item =>
      http.status (resp st') = http.StatusOK /\
      http.body (resp st') = string_of_bytes (memcache.Value item)
  | Err ErrCacheMiss => http.status (resp st') = http.StatusNotFound
  | Err (ErrorString _) =>
      http.status (resp st') = http.StatusInternalServerError
  end.
Proof.
  unfold challengeHandler. unfold_go. simpl.
  destruct (memcache_Get (http.URL_Path r) w) as [[item | [ | msg]] w'];
    simpl; repeat split; reflexivity.
Qed.

End Handler.

(** ** The authorization flow *)

Section Authorization.
Context {World : Type} {P : Platform World}.

Lemma http01_none (auth : acme.Authorization) :
  (forall c, In c (acme.Challenges auth) -> acme.Type_ c <> "http-01") ->
  http01 auth = None.
Proof.
  unfold http01. induction (acme.Challenges auth) as [ | c cs IH]; intros H; simpl.
  - reflexivity.
  - destruct (String.eqb_spec (acme.Type_ c) "http-01") as [E | _].
    + exfalso. apply (H c); [left; reflexivity | exact E].
    + apply IH. intros c' Hc'. apply H. right. exact Hc'.
Qed.

(** C4.  When the authority answers [Authorize] with an authorization
    whose status is already valid, [authorize] returns nil at once: the
    call to [Authorize] is the only call it makes (no response is
    published to memcache, no challenge accepted, no waiting). *)
Theorem authorize_already_valid (client : acme.Client) (domain : string)
    (st : St World) (auth : acme.Authorization) (w' : World) :
  acme_Authorize client domain (world st) = (Ok auth, w') ->
  acme.Status auth = acme.StatusValid ->
  authorize client domain st
  = (Return None, mkSt w' (resp st), [EvAuthorize client domain (Ok auth)]).
Proof.
  intros HA HS. unfold authorize. unfold_go.
  rewrite HA. simpl. rewrite HS. simpl. reflexivity.
Qed.

(** What [authorize] does with an authorization that is not valid and
    offers no http-01 challenge. *)
Lemma authorize_unsupported (client : acme.Client) (domain : string)
    (st : St World) (auth : acme.Authorization) (w' : World) :
  acme_Authorize client domain (world st) = (Ok auth, w') ->
  acme.Status auth <> acme.StatusValid ->
  (forall c, In c (acme.Challenges auth) -> acme.Type_ c <> "http-01") ->
  authorize client domain st
  = (Return (Some (fmt_Errorf "no http-01 challenge offered")),
     mkSt w' (resp st), [EvAuthorize client domain (Ok auth)]).
Proof.
  intros HA HS HC. unfold authorize. unfold_go.
  rewrite HA. simpl.
  destruct (String.eqb_spec (acme.Status auth) acme.StatusValid) as [E | _].
  - contradiction.
  - fold (http01 auth). rewrite (http01_none _ HC). reflexivity.
Qed.

(** C6.  For an authorization that is not valid and offers no challenge
    of type http-01, [authorize] returns the error "no http-01 challenge
    offered" after the call to [Authorize] alone; and a run of
    [obtainCert] that was given this authorization returns that error
    with an empty certificate and key, having published nothing to
    memcache and asked for no certificate. *)
Theorem no_http01_challenge (client : acme.Client) (domain : string)
    (auth : acme.Authorization) :
  acme.Status auth <> acme.StatusValid ->
  (forall c, In c (acme.Challenges auth) -> acme.Type_ c <> "http-01") ->
  (forall st w',
      acme_Authorize client domain (world st) = (Ok auth, w') ->
      authorize client domain st
      = (Return (Some (fmt_Errorf "no http-01 challenge offered")),
         mkSt w' (resp st), [EvAuthorize client domain (Ok auth)]))
  /\
  (forall st r st' evs,
      obtainCert domain st = (r, st', evs) ->
      In (EvAuthorize client domain (Ok auth)) evs ->
      r = Return (""%string, ""%string,
                  Some (fmt_Errorf "no http-01 challenge offered")) /\
      (forall item res, ~ In (EvMemcacheSet item res) evs) /\
      (forall c csr exp bundle res,
          ~ In (EvCreateCert c csr exp bundle res) evs)).
Proof.
  intros HS HC. split.
  - intros st w' HA. now apply authorize_unsupported.
  - intros st r st' evs H Hin.
    destruct (obtainCert_inv _ _ H) as (_ & x & -> & HO).
    pose proof (http01_none _ HC) as Hnone.
    assert (Hauth : forall cl x evsA,
               authorized cl domain x evsA ->
               In (EvAuthorize client domain (Ok auth)) evsA ->
               x = Some (fmt_Errorf "no http-01 challenge offered") /\
               exists a, evsA = [EvAuthorize cl domain (Ok a)]).
    { intros cl y evsA HA HinA.
      destruct HA; simpl in HinA;
        repeat (destruct HinA as [HinA | HinA]; [ | ]);
        try contradiction; try discriminate;
        try (injection HinA as -> ->; first [contradiction | congruence]).
      injection HinA as -> ->. split; [reflexivity | eexists; reflexivity]. }
    destruct HO; simpl in Hin;
      repeat (destruct Hin as [Hin | Hin]; [discriminate | ]);
      try contradiction.
    + destruct (Hauth _ _ _ H0 Hin) as (E & a & ->). injection E as ->.
      split; [reflexivity | split].
      * intros item res Hi. simpl in Hi.
        repeat (destruct Hi as [Hi | Hi]; [discriminate | ]). exact Hi.
      * intros c0 csr0 exp0 b0 res0 Hi. simpl in Hi.
        repeat (destruct Hi as [Hi | Hi]; [discriminate | ]). exact Hi.
    + apply in_app_or in Hin. destruct Hin as [Hin | Hin].
      * destruct (Hauth _ _ _ H0 Hin) as (E & _). discriminate.
      * simpl in Hin. destruct Hin as [Hin | []]. discriminate.
    + apply in_app_or in Hin. destruct Hin as [Hin | Hin].
      * destruct (Hauth _ _ _ H0 Hin) as (E & _). discriminate.
      * simpl in Hin. destruct Hin as [Hin | []]. discriminate.
Qed.

End Authorization.

(** ** The issuance flow *)

Section Issuance.
Context {World : Type} {P : Platform World}.

(** The calls of [authorize] go to the authority, as [client], and to
    memcache. *)
Lemma authorized_events (client : acme.Client) (domain : string)
    (x : AuthorizeResult) (evs : list Event) :
  authorized client domain x evs ->
  forall e, In e evs ->
    registryCall e = false /\
    (forall bits res, e <> EvGenerateKey bits res) /\
    (forall tmpl priv res, e <> EvCreateCertificateRequest tmpl priv res) /\
    (forall c, eventClient e = Some c -> c = client).
Proof.
  intros H e Hin.
  destruct H; simpl in Hin;
    repeat (destruct Hin as [<- | Hin]; [ | ]); try contradiction;
    (split; [reflexivity | split; [discriminate | split; [discriminate | ]]]);
    simpl; intros c0 Hc; congruence.
Qed.

(** [obtainCert] makes no call to the registry. *)
Lemma obtained_no_registry (domain : string) (x : ObtainResult)
    (evs : list Event) :
  obtained domain x evs -> forall e, In e evs -> registryCall e = false.
Proof.
  intros H e Hin.
  destruct H; simpl in Hin;
    repeat (destruct Hin as [<- | Hin]; [reflexivity | ]); try contradiction;
    try (apply in_app_or in Hin; destruct Hin as [Hin | [<- | []]];
         [ | reflexivity ]);
    exact (proj1 (authorized_events H e Hin)).
Qed.

Lemma filter_registryWrite_obtained (domain : string) (x : ObtainResult)
    (evs : list Event) :
  obtained domain x evs -> filter registryWrite evs = [].
Proof.
  intros H. pose proof (obtained_no_registry H) as Hn.
  clear H. induction evs as [ | e evs IH]; simpl.
  - reflexivity.
  - assert (He : registryCall e = false) by (apply Hn; now left).
    destruct e; simpl in He; try discriminate; simpl;
      apply IH; intros e' He'; apply Hn; now right.
Qed.

(** C10.  [obtainCert] always returns, and whenever the error it
    returns is not nil both the certificate and the key are the empty
    string. *)
Theorem obtainCert_error_is_empty (domain : string) (st : St World) :
  exists cert key err st' evs,
    obtainCert domain st = (Return (cert, key, err), st', evs) /\
    (err <> None -> cert = ""%string /\ key = ""%string).
Proof.
  destruct (obtainCert domain st) as [[r st'] evs] eqn:H.
  destruct (obtainCert_inv _ _ H) as (_ & [[cert key] err] & -> & HO).
  exists cert, key, err, st', evs. split; [reflexivity | ].
  intros Herr. inversion HO; subst; try (split; reflexivity);
    contradiction.
Qed.

(** The calls of [authorize] ask for no certificate. *)
Lemma authorized_no_CreateCert (client : acme.Client) (domain : string)
    (x : AuthorizeResult) (evs : list Event) :
  authorized client domain x evs ->
  forall c csr exp bundle res, ~ In (EvCreateCert c csr exp bundle res) evs.
Proof.
  intros H c csr exp bundle res Hin.
  destruct H; simpl in Hin;
    repeat (destruct Hin as [Hin | Hin]; [discriminate | ]); exact Hin.
Qed.

(** C7.  Every call of [obtainCert] returns, and its keys and its
    request are those of the call itself, drawn in this order whatever
    the outcome.  The first call it makes is [rsa.GenerateKey] for 2048
    bits, in the world it was called in; if that fails it stops there.
    With the key it got, the certificate key, it has
    [x509.CreateCertificateRequest] sign the request whose common name
    is the domain and whose DNS names are the domain alone; if that
    fails it stops there.  Then it calls [rsa.GenerateKey] for 2048
    bits a second time, in the world the first two calls left; if that
    fails it stops there.  The key it got is the account key: the next
    call is [Register] by the client of that key, and every later call
    to the authority is made by that client; no other key is generated
    and no other request is signed, a certificate is asked for the
    signed request only, and a call that succeeds returns the
    certificate key, PEM encoded, with the chain of a successful
    [CreateCert] for that request. *)
Theorem obtainCert_keys_and_request (domain : string) (st : St World) :
  exists x st' evs,
    obtainCert domain st = (Return x, st', evs) /\
    (forall bits res, In (EvGenerateKey bits res) evs -> bits = 2048) /\
    (forall tmpl priv res,
        In (EvCreateCertificateRequest tmpl priv res) evs ->
        Subject_CommonName tmpl = domain /\ DNSNames tmpl = [domain]) /\
    let req := mkCertificateRequest domain [domain] in
    match rsa_GenerateKey 2048 (world st) with
    | (Err e, _) =>
        evs = [EvGenerateKey 2048 (Err e)] /\
        x = failed ("cert key: " ++ Error e)%string
    | (Ok certKey, w1) =>
        match x509_CreateCertificateRequest req certKey w1 with
        | (Err e, _) =>
            evs = [EvGenerateKey 2048 (Ok certKey);
                   EvCreateCertificateRequest req certKey (Err e)] /\
            x = failed ("csr: " ++ Error e)%string
        | (Ok csr, w2) =>
            match rsa_GenerateKey 2048 w2 with
            | (Err e, _) =>
                evs = [EvGenerateKey 2048 (Ok certKey);
                       EvCreateCertificateRequest req certKey (Ok csr);
                       EvGenerateKey 2048 (Err e)] /\
                x = failed ("account key: " ++ Error e)%string
            | (Ok accountKey, w3) =>
                let client := acme.mkClient accountKey acme_LetsEncryptURL in
                exists rest,
                  evs = EvGenerateKey 2048 (Ok certKey)
                          :: EvCreateCertificateRequest req certKey (Ok csr)
                          :: EvGenerateKey 2048 (Ok accountKey)
                          :: EvRegister client (acme.mkAccount [] "")
                               (fst (acme_Register client (acme.mkAccount [] "")
                                                   acme.AcceptTOS w3))
                          :: rest /\
                  (forall bits res, ~ In (EvGenerateKey bits res) rest) /\
                  (forall tmpl priv res,
                      ~ In (EvCreateCertificateRequest tmpl priv res) rest) /\
                  (forall e c, In e rest -> eventClient e = Some c ->
                               c = client) /\
                  (forall c csr' exp bundle res,
                      In (EvCreateCert c csr' exp bundle res) rest ->
                      csr' = csr) /\
                  (forall cert key,
                      x = (cert, key, None) ->
                      key = keyPEM certKey /\
                      exists certDER certURL,
                        In (EvCreateCert client csr ninetyDays true
                              (Ok (certDER, certURL))) rest /\
                        cert = string_of_bytes (encodeChain certDER))
            end
        end
    end.
Proof.
  destruct (obtainCert domain st) as [[r st'] evs] eqn:H.
  destruct (obtainCert_inv _ _ H) as (_ & x & -> & HO).
  exists x, st', evs. split; [reflexivity | ].
  split; [ | split].
  - intros bits res Hin.
    destruct HO; simpl in Hin;
      repeat (destruct Hin as [Hin | Hin];
              [first [discriminate | now inversion Hin] | ]);
      try contradiction;
      try (apply in_app_or in Hin; destruct Hin as [Hin | [Hin | []]];
           [ | discriminate]);
      exfalso;
      exact (proj1 (proj2 (authorized_events H0 _ Hin)) _ _ eq_refl).
  - intros tmpl priv res Hin.
    destruct HO; simpl in Hin;
      repeat (destruct Hin as [Hin | Hin];
              [first [discriminate | now inversion Hin] | ]);
      try contradiction;
      try (apply in_app_or in Hin; destruct Hin as [Hin | [Hin | []]];
           [ | discriminate]);
      exfalso;
      exact (proj1 (proj2 (proj2 (authorized_events H0 _ Hin))) _ _ _ eq_refl).
  - clear HO. cbv zeta. unfold obtainCert in H. unfold_go.
    fold ninetyDays in H.
    destruct (rsa_GenerateKey 2048 (world st)) as [[certKey | e] w1];
      simpl in H; [ | finished H; split; reflexivity].
    destruct (x509_CreateCertificateRequest
                (mkCertificateRequest domain [domain]) certKey w1)
      as [[csr | e] w2]; simpl in H; [ | finished H; split; reflexivity].
    destruct (rsa_GenerateKey 2048 w2) as [[accountKey | e] w3];
      simpl in H; [ | finished H; split; reflexivity].
    destruct (acme_Register (acme.mkClient accountKey acme_LetsEncryptURL)
                            (acme.mkAccount [] "") acme.AcceptTOS w3)
      as [[account | e] w4]; simpl in H; cbn [fst].
    2: { finished H. exists []. split; [reflexivity | ].
         repeat split; try (intros; intro Hin; exact Hin);
           try (intros; contradiction); discriminate. }
    match type of H with
    | context [authorize ?c domain ?s] =>
        destruct (authorize c domain s) as [[ra sa] evsA] eqn:HA;
        destruct (authorize_inv _ _ _ HA) as (_ & y & -> & Hauth)
    end.
    simpl in H.
    assert (Hquiet : forall tail,
               (forall e, In e tail ->
                  exists res,
                    e = EvCreateCert (acme.mkClient accountKey acme_LetsEncryptURL)
                          csr ninetyDays true res) ->
               (forall bits res, ~ In (EvGenerateKey bits res) (evsA ++ tail)) /\
               (forall tmpl priv res,
                   ~ In (EvCreateCertificateRequest tmpl priv res) (evsA ++ tail)) /\
               (forall e c, In e (evsA ++ tail) -> eventClient e = Some c ->
                            c = acme.mkClient accountKey acme_LetsEncryptURL) /\
               (forall c csr' exp bundle res,
                   In (EvCreateCert c csr' exp bundle res) (evsA ++ tail) ->
                   csr' = csr)).
    { intros tail Htail. repeat split.
      - intros bits res Hin. apply in_app_or in Hin. destruct Hin as [Hin | Hin].
        + exact (proj1 (proj2 (authorized_events Hauth _ Hin)) _ _ eq_refl).
        + destruct (Htail _ Hin) as (res' & Heq). discriminate.
      - intros tmpl priv res Hin. apply in_app_or in Hin.
        destruct Hin as [Hin | Hin].
        + exact (proj1 (proj2 (proj2 (authorized_events Hauth _ Hin))) _ _ _ eq_refl).
        + destruct (Htail _ Hin) as (res' & Heq). discriminate.
      - intros e c Hin Hc. apply in_app_or in Hin. destruct Hin as [Hin | Hin].
        + exact (proj2 (proj2 (proj2 (authorized_events Hauth _ Hin))) c Hc).
        + destruct (Htail _ Hin) as (res' & ->). simpl in Hc. congruence.
      - intros c csr' exp bundle res Hin. apply in_app_or in Hin.
        destruct Hin as [Hin | Hin].
        + destruct (authorized_no_CreateCert Hauth _ _ _ _ _ Hin).
        + destruct (Htail _ Hin) as (res' & Heq). congruence. }
    destruct y as [err | ]; simpl in H.
    + finished H. exists (evsA ++ []). split; [reflexivity | ].
      destruct (Hquiet []) as (H1 & H2 & H3 & H4); [intros e [] | ].
      repeat (split; [assumption | ]). intros cert key Hx. discriminate.
    + destruct (acme_CreateCert (acme.mkClient accountKey acme_LetsEncryptURL)
                                csr ninetyDays true (world sa))
        as [[[certDER certURL] | e] w5]; simpl in H; finished H.
      * exists (evsA ++ [EvCreateCert (acme.mkClient accountKey acme_LetsEncryptURL)
                             csr ninetyDays true (Ok (certDER, certURL))]).
        split; [simpl; now rewrite ?app_nil_r | ].
        destruct (Hquiet [EvCreateCert (acme.mkClient accountKey acme_LetsEncryptURL)
                            csr ninetyDays true (Ok (certDER, certURL))])
          as (H1 & H2 & H3 & H4);
          [intros e [<- | []]; eexists; reflexivity | ].
        repeat (split; [assumption | ]). intros cert key Hx.
        injection Hx as <- <-. split; [reflexivity | ].
        exists certDER, certURL. split; [ | reflexivity].
        apply in_or_app. right. now left.
      * exists (evsA ++ [EvCreateCert (acme.mkClient accountKey acme_LetsEncryptURL)
                             csr ninetyDays true (Err e)]).
        split; [simpl; now rewrite ?app_nil_r | ].
        destruct (Hquiet [EvCreateCert (acme.mkClient accountKey acme_LetsEncryptURL)
                            csr ninetyDays true (Err e)])
          as (H1 & H2 & H3 & H4);
          [intros e0 [<- | []]; eexists; reflexivity | ].
        repeat (split; [assumption | ]). intros cert key Hx. discriminate.
Qed.

End Issuance.

(** ** The reconciliation run *)

Section Reconciliation.
Context {World : Type} {P : Platform World}.

Lemma updateLoop_panic (appID : string) (ac : list api.AuthorizedCertificate)
    (st st' : St World) (msg : string) (evs : list Event) :
  forRange ac (updateBody appID) st = (Panic msg, st', evs) ->
  exists c, In c ac /\ api.DomainNames c = [].
Proof.
  revert st evs. induction ac as [ | c ac IH]; intros st evs H; simpl in H.
  - discriminate.
  - unfold bind in H.
    destruct (updateBody appID c st) as [[[u | r | m] sx] evsx] eqn:E;
      try discriminate.
    + destruct (forRange ac (updateBody appID) sx) as [[rp sp] evsp] eqn:HP.
      finished H. destruct (IH _ _ HP) as (c' & Hin & Hc').
      exists c'. split; [now right | exact Hc'].
    + finished H. exists c. split; [now left | ].
      exact (updateBody_panic _ _ _ E).
Qed.

(** C9.  [updateBody] reads [c.DomainNames[0]] before anything else: on
    a certificate whose list of domain names is empty it panics with an
    index out of range, having done nothing, and so does the loop over
    the certificates when it reaches one.  This is the only panic of a
    run: a run that panics was given, by the registry, a list of
    certificates one of which has no domain name. *)
Theorem empty_domain_names_panics (appID : string) :
  (forall c st,
      api.DomainNames c = [] ->
      updateBody appID c st
      = (Panic "runtime error: index out of range", st, []))
  /\
  (forall pre c post st0 st evs0,
      api.DomainNames c = [] ->
      forRange pre (updateBody appID) st0 = (Val tt, st, evs0) ->
      forRange (pre ++ c :: post) (updateBody appID) st0
      = (Panic "runtime error: index out of range", st, evs0))
  /\
  (forall st0 msg st' evs,
      createUpdate st0 = (Panic msg, st', evs) ->
      exists ac c,
        In (EvCertificatesList (appengine_AppID (world st0)) (Ok ac)) evs /\
        In c ac /\ api.DomainNames c = []).
Proof.
  assert (Hbody : forall c st,
             api.DomainNames c = [] ->
             updateBody appID c st
             = (Panic "runtime error: index out of range", st, [])).
  { intros c st Hc. unfold updateBody. unfold_go. rewrite Hc. reflexivity. }
  split; [exact Hbody | split].
  - intros pre c post st0 st evs0 Hc Hpre.
    rewrite (forRange_reach _ _ post c _ Hpre), (Hbody c st Hc).
    now rewrite app_nil_r.
  - intros st0 msg st' evs H. unfold createUpdate in H. unfold_go.
    repeat case_next H; try discriminate;
      try (match goal with
           | E : forRange _ (createBody _) _ = (Panic _, _, _) |- _ =>
               exfalso; revert E; apply forRange_no_panic;
               intros; apply createBody_no_panic
           end).
    match goal with
    | E : forRange ?l (updateBody _) _ = (Panic _, _, _) |- _ =>
        destruct (updateLoop_panic _ _ _ E) as (c & Hin & Hc);
        exists l, c
    end.
    finished H. split; [ | split; assumption].
    simpl. do 3 right. apply in_or_app. right. now left.
Qed.

(** Thirty days, in nanoseconds. *)
Lemma updateBefore_thirty_days : updateBefore = 30 * 86400 * 1000000000.
Proof. reflexivity. Qed.


End Reconciliation.

Section Outcomes.
Context {World : Type} {P : Platform World}.

(** C1, as the code has it.  A failed issuance ends the run.  Let a run
    list the domains [dm].  If the first loop has handled [pre] and
    [obtainCert] fails with [err] for the next domain [e], which has no
    certificate, then [createUpdate] returns the error "obtain cert for
    e: err" in the state [obtainCert] left, its last calls being those
    of [obtainCert], none of which goes to the registry: nothing is
    written to the registry for [e], and neither the domains [post]
    after it nor the certificates are looked at.  Likewise, if the first loop has completed and [obtainCert]
    fails for a certificate [c] the second loop has reached and found
    due, [createUpdate] returns the error naming its domain, and the
    certificates after [c] are not looked at. *)
Theorem failed_issuance_ends_run (st0 : St World) (w1 w2 w3 : World)
    (dm : list api.DomainMapping) :
  google_DefaultClient api.CloudPlatformScope (world st0) = (Ok tt, w1) ->
  api_New w1 = (Ok tt, w2) ->
  DomainMappings_List (appengine_AppID (world st0)) w2 = (Ok dm, w3) ->
  (forall pre e post st evs0 cert key err st1 evs1,
      dm = pre ++ e :: post ->
      forRange pre (createBody (appengine_AppID (world st0)))
               (logged (mkSt w3 (resp st0))
                       (found (List.length dm) " custom domains:"))
      = (Val tt, st, evs0) ->
      api.SslSettings_ e = None ->
      obtainCert (api.DomainMapping_Id e)
                 (logged st (creating (api.DomainMapping_Id e)))
      = (Return (cert, key, Some err), st1, evs1) ->
      createUpdate st0
      = (Return (Some (obtainFailed (api.DomainMapping_Id e) err)), st1,
         listing (appengine_AppID (world st0)) dm ++ evs0 ++ evs1) /\
      (forall ev, In ev evs1 -> registryCall ev = false))
  /\
  (forall s evsD w4 ac pre c post st evs0 domain names expire
          cert key err st1 evs1,
      forRange dm (createBody (appengine_AppID (world st0)))
               (logged (mkSt w3 (resp st0))
                       (found (List.length dm) " custom domains:"))
      = (Val tt, s, evsD) ->
      AuthorizedCertificates_List (appengine_AppID (world st0)) (world s)
      = (Ok ac, w4) ->
      ac = pre ++ c :: post ->
      forRange pre (updateBody (appengine_AppID (world st0)))
               (logged (mkSt w4 (resp (logged s newline)))
                       (found (List.length ac) " certificates:"))
      = (Val tt, st, evs0) ->
      api.DomainNames c = domain :: names ->
      time_Parse time.RFC3339 (api.ExpireTime c) = Ok expire ->
      expire <= time_Now (world st) + 30 * 86400 * 1000000000 ->
      obtainCert domain (logged st (updating domain expire))
      = (Return (cert, key, Some err), st1, evs1) ->
      createUpdate st0
      = (Return (Some (obtainFailed domain err)), st1,
         listing (appengine_AppID (world st0)) dm ++ evsD
           ++ EvCertificatesList (appengine_AppID (world st0)) (Ok ac)
           :: evs0 ++ evs1) /\
      (forall ev, In ev evs1 -> registryCall ev = false)).
Proof.
  intros H1 H2 H3.
  assert (Hquiet : forall d s cert key err s1 evs1,
             obtainCert d s = (Return (cert, key, Some err), s1, evs1) ->
             forall ev, In ev evs1 -> registryCall ev = false).
  { intros d s cert key err s1 evs1 HO.
    destruct (obtainCert_inv _ _ HO) as (_ & x & _ & Hob).
    exact (obtained_no_registry Hob). }
  split.
  - intros pre e post st evs0 cert key err st1 evs1 -> Hpre He HO.
    split; [ | exact (Hquiet _ _ _ _ _ _ _ HO)].
    assert (Hb : createBody (appengine_AppID (world st0)) e st
                 = (Return (Some (obtainFailed (api.DomainMapping_Id e) err)),
                    st1, evs1)).
    { unfold createBody. rewrite He. unfold_go.
      fold (creating (api.DomainMapping_Id e)).
      fold (logged st (creating (api.DomainMapping_Id e))).
      rewrite HO. simpl. now rewrite app_nil_r. }
    unfold createUpdate. unfold_go. rewrite H1. simpl. rewrite H2. simpl.
    rewrite H3. simpl.
    unfold logged, found in Hpre. simpl in Hpre.
    rewrite (forRange_reach _ _ post e _ Hpre), Hb. reflexivity.
  - intros s evsD w4 ac pre c post st evs0 domain names expire
           cert key err st1 evs1 HD HL -> Hpre Hd Hp Hge HO.
    split; [ | exact (Hquiet _ _ _ _ _ _ _ HO)].
    assert (Hb : updateBody (appengine_AppID (world st0)) c st
                 = (Return (Some (obtainFailed domain err)), st1, evs1)).
    { unfold updateBody. unfold_go. rewrite Hd, Hp. simpl.
      unfold time.Before, time.Add. rewrite updateBefore_thirty_days.
      destruct (Z.ltb_spec (time_Now (world st) + 30 * 86400 * 1000000000) expire);
        [lia | ].
      fold (updating domain expire). fold (logged st (updating domain expire)).
      rewrite HO. simpl. now rewrite app_nil_r. }
    unfold createUpdate. unfold_go. rewrite H1. simpl. rewrite H2. simpl.
    rewrite H3. simpl.
    unfold logged, found in HD. simpl in HD. rewrite HD. simpl.
    rewrite HL. simpl.
    unfold logged, found in Hpre. simpl in Hpre.
    rewrite (forRange_reach _ _ post c _ Hpre), Hb. simpl.
    reflexivity.
Qed.

(** A loop whose body returns errors only never returns nil. *)
Lemma forRange_returns_error (A : Type) (body : A -> M World (option error) unit)
    (xs : list A) :
  (forall x st st' evs, body x st <> (Return None, st', evs)) ->
  forall st st' evs, forRange xs body st <> (Return None, st', evs).
Proof.
  intros HB. induction xs as [ | x xs IH]; intros st st' evs H; simpl in H.
  - discriminate.
  - unfold bind in H.
    destruct (body x st) as [[[u | r | m] sx] evsx] eqn:E; try discriminate.
    + destruct (forRange xs body sx) as [[rp sp] evsp] eqn:HP.
      finished H. exact (IH _ _ _ HP).
    + finished H. exact (HB _ _ _ _ E).
Qed.

Lemma createBody_returns_error (appID : string) (e : api.DomainMapping)
    (st st' : St World) (evs : list Event) :
  createBody appID e st <> (Return None, st', evs).
Proof.
  intros H. unfold createBody in H. unfold_go.
  repeat case_next H; discriminate.
Qed.

Lemma updateBody_returns_error (appID : string) (c : api.AuthorizedCertificate)
    (st st' : St World) (evs : list Event) :
  updateBody appID c st <> (Return None, st', evs).
Proof.
  intros H. unfold updateBody in H. unfold_go.
  repeat case_next H; discriminate.
Qed.

(** A run that returns nil has run both loops to their end. *)
Lemma createUpdate_succeeded (st0 st' : St World) (evs : list Event) :
  createUpdate st0 = (Return None, st', evs) ->
  exists dm s evsD ac s' sEnd evsC,
    forRange dm (createBody (appengine_AppID (world st0))) s = (Val tt, s', evsD) /\
    forRange ac (updateBody (appengine_AppID (world st0)))
             (logged (mkSt (snd (AuthorizedCertificates_List
                                   (appengine_AppID (world st0)) (world s')))
                           (resp (logged s' newline)))
                     (found (List.length ac) " certificates:"))
    = (Val tt, sEnd, evsC) /\
    evs = listing (appengine_AppID (world st0)) dm ++ evsD
            ++ EvCertificatesList (appengine_AppID (world st0)) (Ok ac) :: evsC.
Proof.
  intros H. unfold createUpdate in H. unfold_go.
  repeat case_next H; try discriminate;
    finished H;
    try (match goal with
         | E : forRange _ (createBody _) _ = (Return None, _, _) |- _ =>
             exfalso; revert E; apply forRange_returns_error;
             intros; apply createBody_returns_error
         | E : forRange _ (updateBody _) _ = (Return None, _, _) |- _ =>
             exfalso; revert E; apply forRange_returns_error;
             intros; apply updateBody_returns_error
         end).
  repeat match goal with u : unit |- _ => destruct u end.
  match goal with
  | E1 : forRange ?dm (createBody _) ?s = (Val tt, ?s', ?evsD),
    E2 : forRange ?ac (updateBody _) _ = (Val tt, ?sEnd, ?evsC),
    E3 : AuthorizedCertificates_List _ _ = _ |- _ =>
      exists dm, s, evsD, ac, s', sEnd, evsC; rewrite E3; simpl;
      split; [exact E1 | split; [exact E2 | ]]
  end.
  unfold listing. simpl. now rewrite app_nil_r.
Qed.

(** C5.  In a run that returns nil, let [c] be any of the certificates
    the registry listed.  The second loop reached [c], in a state [st],
    and its body ended normally there.  If the expiry of [c] was then
    within thirty days, [obtainCert] was called for the first domain
    name of [c] and succeeded, and the body made one more call, the last
    one: a patch of the certificate with the identifier of [c], whose
    body holds the new key and certificate as raw data and nothing else
    (no display name, no domain names), under the update mask
    "certificate_raw_data".  It is the only call of the body that writes
    to the registry. *)
Theorem renewal_patches_raw_data (st0 st' : St World) (evs : list Event) :
  createUpdate st0 = (Return None, st', evs) ->
  exists ac s evsBefore evsC,
    evs = evsBefore
            ++ EvCertificatesList (appengine_AppID (world st0)) (Ok ac) :: evsC /\
    (exists sEnd,
        forRange ac (updateBody (appengine_AppID (world st0))) s
        = (Val tt, sEnd, evsC)) /\
    forall pre c post,
      ac = pre ++ c :: post ->
      exists st evs0 stc evsc evs2 domain names expire,
        forRange pre (updateBody (appengine_AppID (world st0))) s
        = (Val tt, st, evs0) /\
        updateBody (appengine_AppID (world st0)) c st = (Val tt, stc, evsc) /\
        evsC = evs0 ++ evsc ++ evs2 /\
        api.DomainNames c = domain :: names /\
        time_Parse time.RFC3339 (api.ExpireTime c) = Ok expire /\
        (expire <= time_Now (world st) + 30 * 86400 * 1000000000 ->
         exists cert key st1 evs1 patched,
           obtainCert domain (logged st (updating domain expire))
           = (Return (cert, key, None), st1, evs1) /\
           evsc = evs1
                    ++ [EvCertificatesPatch (appengine_AppID (world st0))
                          (api.Id c) (rawDataOnly cert key)
                          "certificate_raw_data" (Ok patched)] /\
           filter registryWrite evsc
           = [EvCertificatesPatch (appengine_AppID (world st0))
                (api.Id c) (rawDataOnly cert key)
                "certificate_raw_data" (Ok patched)]).
Proof.
  intros H.
  destruct (createUpdate_succeeded _ H)
    as (dm & s & evsD & ac & s' & sEnd & evsC & HD & HC & ->).
  eexists ac, _, (listing (appengine_AppID (world st0)) dm ++ evsD), evsC.
  split; [now rewrite <- app_assoc | ].
  split; [exists sEnd; exact HC | ].
  intros pre c post ->.
  destruct (forRange_completed _ _ _ _ _ HC)
    as (st & evs0 & stc & evsc & evs2 & Hpre & Hb & Hpost & ->).
  assert (Hshape : exists domain names expire,
             api.DomainNames c = domain :: names /\
             time_Parse time.RFC3339 (api.ExpireTime c) = Ok expire).
  { unfold updateBody in Hb. unfold_go.
    destruct (api.DomainNames c) as [ | d ns]; [discriminate | ].
    simpl in Hb.
    destruct (time_Parse time.RFC3339 (api.ExpireTime c)) as [t | e];
      [ | discriminate].
    exists d, ns, t. split; reflexivity. }
  destruct Hshape as (domain & names & expire & Hd & Hp).
  exists st, evs0, stc, evsc, evs2, domain, names, expire.
  repeat (split; [first [assumption | reflexivity] | ]).
  intros Hge.
  unfold updateBody in Hb. unfold_go. rewrite Hd, Hp in Hb. simpl in Hb.
  unfold time.Before, time.Add in Hb. rewrite updateBefore_thirty_days in Hb.
  destruct (Z.ltb_spec (time_Now (world st) + 30 * 86400 * 1000000000) expire);
    [lia | ].
  fold (updating domain expire) in Hb.
  fold (logged st (updating domain expire)) in Hb.
  destruct (obtainCert domain (logged st (updating domain expire)))
    as [[ro so] evo] eqn:HO.
  destruct (obtainCert_inv _ _ HO) as (_ & [[cert key] err] & -> & Hob).
  simpl in Hb. destruct err as [err | ]; [discriminate | ].
  fold (rawDataOnly cert key) in Hb.
  repeat case_next Hb; try discriminate.
  finished Hb.
  match goal with
  | |- context [EvCertificatesPatch _ _ _ _ (Ok ?p)] =>
      exists cert, key, so, evo, p
  end.
  split; [reflexivity | ]. rewrite ?app_nil_r. split; [reflexivity | ].
  rewrite filter_app, (filter_registryWrite_obtained Hob). reflexivity.
Qed.

End Outcomes.


(** ** The PEM output of [obtainCert] *)

Section Transport.
Context {World : Type} {P : Platform World}.

Lemma fold_left_app_concat (A : Type) (f : A -> bytes) (l : list A) (init : bytes) :
  fold_left (fun acc x => acc ++ f x) l init = init ++ List.concat (map f l).
Proof.
  revert init. induction l as [ | x l IH]; intros init; simpl.
  - now rewrite app_nil_r.
  - rewrite IH. now rewrite <- app_assoc.
Qed.

Lemma encodeChain_concat (certDER : list bytes) :
  encodeChain certDER
  = List.concat (map pem.EncodeToMemory (map (pem.mkBlock "CERTIFICATE") certDER)).
Proof.
  unfold encodeChain.
  rewrite (fold_left_app_concat
             (fun b => pem.EncodeToMemory (pem.mkBlock "CERTIFICATE" b))).
  now rewrite map_map.
Qed.

(** C8.  A call of [obtainCert] that succeeds returns, as certificate,
    the PEM "CERTIFICATE" blocks of the DER certificates [CreateCert]
    answered, one block each, one after the other in the order of the
    chain, and, as key, the PEM "RSA PRIVATE KEY" block of the PKCS#1
    encoding of the certificate key it generated.  Read back, the
    certificate text gives blocks whose bytes are the DER certificates
    of the authority, in order, and the key text gives the one block
    with the bytes of the key. *)
Theorem obtainCert_pem_round_trip (domain : string) (st st' : St World)
    (cert key : string) (evs : list Event) :
  obtainCert domain st = (Return (cert, key, None), st', evs) ->
  exists certKey calls client csr exp certDER certURL,
    evs = EvGenerateKey 2048 (Ok certKey)
            :: calls
            ++ [EvCreateCert client csr exp true (Ok (certDER, certURL))] /\
    bytes_of_string cert
    = List.concat
        (map (fun der => pem.EncodeToMemory (pem.mkBlock "CERTIFICATE" der))
             certDER) /\
    bytes_of_string key
    = pem.EncodeToMemory
        (pem.mkBlock "RSA PRIVATE KEY" (x509_MarshalPKCS1PrivateKey certKey)) /\
    pem.DecodeAll (bytes_of_string cert)
    = Some (map (pem.mkBlock "CERTIFICATE") certDER) /\
    pem.DecodeAll (bytes_of_string key)
    = Some [pem.mkBlock "RSA PRIVATE KEY" (x509_MarshalPKCS1PrivateKey certKey)].
Proof.
  intros H. destruct (obtainCert_inv _ _ H) as (_ & x & Hx & HO).
  injection Hx as <-. inversion HO; subst.
  exists certKey,
    (EvCreateCertificateRequest (requestFor domain) certKey (Ok csr)
       :: EvGenerateKey 2048 (Ok accountKey)
       :: EvRegister (clientOf accountKey) newAccount (Ok account)
       :: evsA),
    (clientOf accountKey), csr, ninetyDays, certDER, certURL.
  split; [reflexivity | ].
  unfold keyPEM, string_of_bytes, bytes_of_string.
  rewrite !list_byte_of_string_of_list_byte.
  split; [ | split; [reflexivity | split]].
  - rewrite encodeChain_concat. now rewrite map_map.
  - rewrite encodeChain_concat. apply pem_facts.DecodeAll_EncodeToMemory.
    apply Forall_forall. intros b Hb. apply in_map_iff in Hb.
    destruct Hb as (der & <- & _). reflexivity.
  - rewrite <- (app_nil_r (pem.EncodeToMemory _)).
    apply (pem_facts.DecodeAll_EncodeToMemory
             (blocks := [pem.mkBlock "RSA PRIVATE KEY"
                           (x509_MarshalPKCS1PrivateKey certKey)])).
    repeat constructor.
Qed.

End Transport.

(** ** Further properties of the handlers and of the run *)

Section Further.
Context {World : Type} {P : Platform World}.

(** X1.  A request that carries no X-Appengine-Cron header and does not
    come from an administrator is answered 403 "unauthorized";
    [createUpdate] is not run and no service is called. *)
Theorem cronHandler_forbidden (r : http.Request) (st : St World) :
  http.Header_Get (http.Request_Header r) "X-Appengine-Cron" = ""%string ->
  user_IsAdmin (world st) = false ->
  cronHandler r st
  = (Return tt,
     mkSt (world st) (http.Error_ (resp st) "unauthorized" http.StatusForbidden),
     []).
Proof.
  intros Hh Ha. unfold cronHandler. unfold_go. rewrite Hh, Ha. reflexivity.
Qed.

(** X2.  A domain mapping that has SSL settings needs no action: the
    loop body prints one line and calls nothing. *)
Theorem bound_domain_needs_nothing (appID : string) (e : api.DomainMapping)
    (ssl : api.SslSettings) (st : St World) :
  api.SslSettings_ e = Some ssl ->
  createBody appID e st
  = (Val tt,
     logged st (" - " ++ api.DomainMapping_Id e
                ++ ": has certificate, nothing to do" ++ newline)%string,
     []).
Proof.
  intros H. unfold createBody. rewrite H. reflexivity.
Qed.

(** X3.  An authorization that [authorize] completes through the
    challenge goes through these calls, in this order: [Authorize]; the
    response of the first http-01 challenge stored in memcache under
    the challenge path of its token; [Accept] of that challenge;
    [WaitAuthorization] on the URI of the authorization.  The only
    other way to succeed is the authorization that is valid already. *)
Theorem authorize_publishes_before_accept (client : acme.Client)
    (domain : string) (st st' : St World) (evs : list Event) :
  authorize client domain st = (Return None, st', evs) ->
  (exists auth,
      acme.Status auth = acme.StatusValid /\
      evs = [EvAuthorize client domain (Ok auth)])
  \/
  (exists auth chal response accepted final,
      acme.Status auth <> acme.StatusValid /\
      http01 auth = Some chal /\
      acme.Type_ chal = "http-01"%string /\
      acme_HTTP01ChallengeResponse client (acme.Token chal) = Ok response /\
      evs = [EvAuthorize client domain (Ok auth);
             EvMemcacheSet
               (memcache.mkItem
                  ("/.well-known/acme-challenge/" ++ acme.Token chal)%string
                  (bytes_of_string response)) None;
             EvAccept client chal (Ok accepted);
             EvWaitAuthorization client (acme.URI auth) (Ok final)]).
Proof.
  intros H. destruct (authorize_inv _ _ _ H) as (_ & x & Hx & HA).
  injection Hx as <-. inversion HA; subst.
  - left. exists auth. split; [assumption | reflexivity].
  - right. exists auth, chal, response, accepted, final.
    repeat (split; [first [assumption | reflexivity] | ]);
      try reflexivity.
    match goal with
    | Hf : http01 auth = Some chal |- _ =>
        unfold http01 in Hf; apply find_some in Hf; destruct Hf as [_ Hf];
        now apply String.eqb_eq in Hf
    end.
Qed.

Lemma prefix_append (s t : string) : String.prefix s (s ++ t) = true.
Proof.
  induction s as [ | a s IH]; simpl.
  - now destruct t.
  - destruct (ascii_dec a a) as [_ | Hne]; [exact IH | contradiction].
Qed.

Lemma prefix_refl (s : string) : String.prefix s s = true.
Proof.
  induction s as [ | a s IH]; simpl.
  - reflexivity.
  - destruct (ascii_dec a a) as [_ | Hne]; [exact IH | contradiction].
Qed.

(** The error [addTip] returns starts with the error it was given. *)
Lemma addTip_keeps_message (err : error) (st st' : St World) (x : error)
    (evs : list Event) :
  addTip err st = (Return x, st', evs) ->
  String.prefix (Error err) (Error x) = true.
Proof.
  intros H. unfold addTip in H. unfold_go.
  destruct (appengine_ServiceAccount (world st)) as [sa w1].
  repeat match type of H with
         | context [if ?b then _ else _] => destruct b
         end;
    finished H; simpl; first [apply prefix_append | apply prefix_refl].
Qed.

(** X4.  When the registry fails to list the domain mappings, the run
    ends there: [createUpdate] returns an error whose message starts
    with "list domains: " and the registry's message, and its calls are
    the three of the listing and the one [addTip] makes; no certificate
    is asked for. *)
Theorem list_domains_failure_ends_run (st0 : St World) (w1 w2 w3 : World)
    (e : error) :
  google_DefaultClient api.CloudPlatformScope (world st0) = (Ok tt, w1) ->
  api_New w1 = (Ok tt, w2) ->
  DomainMappings_List (appengine_AppID (world st0)) w2 = (Err e, w3) ->
  exists x st' sa,
    createUpdate st0
    = (Return (Some x), st',
       [EvDefaultClient api.CloudPlatformScope (Ok tt); EvApiNew (Ok tt);
        EvDomainMappingsList (appengine_AppID (world st0)) (Err e);
        EvServiceAccount sa]) /\
    String.prefix ("list domains: " ++ Error e) (Error x) = true /\
    resp st' = resp st0.
Proof.
  intros H1 H2 H3. unfold createUpdate. unfold_go.
  rewrite H1. simpl. rewrite H2. simpl. rewrite H3. simpl.
  match goal with
  | |- context [addTip ?err ?s] =>
      destruct (addTip err s) as [[rt stt] evt] eqn:E;
      destruct (addTip_inv _ _ E) as (Hresp & (x & ->) & (sa & ->));
      pose proof (addTip_keeps_message _ _ E) as Hpre
  end.
  exists x, stt, sa. simpl. split; [reflexivity | split; [exact Hpre | exact Hresp]].
Qed.

Lemma started_logged (st : St World) (line : string) :
  http.wroteHeader (resp st) = false \/ started st -> started (logged st line).
Proof.
  unfold started, logged, http.Write, http.WriteHeader. simpl.
  intros [H | [H1 H2]].
  - rewrite H. simpl. split; reflexivity.
  - rewrite H1. simpl. split; assumption.
Qed.

Lemma started_resp (st st' : St World) :
  resp st' = resp st -> started st -> started st'.
Proof. unfold started. now intros ->. Qed.

Lemma forRange_started (A : Type) (body : A -> M World (option error) unit)
    (xs : list A) :
  (forall x st r st' evs, body x st = (r, st', evs) -> started st -> started st') ->
  forall st r st' evs,
    forRange xs body st = (r, st', evs) -> started st -> started st'.
Proof.
  intros HB. induction xs as [ | x xs IH]; intros st r st' evs H Hs; simpl in H.
  - unfold pure in H. now finished H.
  - unfold bind in H.
    destruct (body x st) as [[[u | r0 | m] sx] evsx] eqn:E.
    + destruct (forRange xs body sx) as [[rp sp] evsp] eqn:HP.
      finished H. exact (IH _ _ _ _ HP (HB _ _ _ _ _ E Hs)).
    + finished H. exact (HB _ _ _ _ _ E Hs).
    + finished H. exact (HB _ _ _ _ _ E Hs).
Qed.

Lemma createBody_started (appID : string) (e : api.DomainMapping)
    (st : St World) (r : Res (option error) unit) (st' : St World)
    (evs : list Event) :
  createBody appID e st = (r, st', evs) -> started st -> started st'.
Proof.
  intros H Hs. unfold createBody in H. unfold_go.
  assert (Hl : forall line, started (logged st line))
    by (intros; apply started_logged; now right).
  unfold logged in Hl.
  repeat case_next H; finished H; simpl in *;
    try (apply Hl);
    try (match goal with
         | E : resp ?s = http.Write (resp st) ?line |- started _ =>
             apply (started_resp (st := mkSt (world st) (http.Write (resp st) line)));
             [simpl; congruence | apply Hl]
         end).
Qed.

Lemma updateBody_started (appID : string) (c : api.AuthorizedCertificate)
    (st : St World) (r : Res (option error) unit) (st' : St World)
    (evs : list Event) :
  updateBody appID c st = (r, st', evs) -> started st -> started st'.
Proof.
  intros H Hs. unfold updateBody in H. unfold_go.
  assert (Hl : forall line, started (logged st line))
    by (intros; apply started_logged; now right).
  unfold logged in Hl.
  repeat case_next H; finished H; simpl in *;
    try assumption;
    try (apply Hl);
    try (match goal with
         | E : resp ?s = http.Write (resp st) ?line |- started _ =>
             apply (started_resp (st := mkSt (world st) (http.Write (resp st) line)));
             [simpl; congruence | apply Hl]
         end).
Qed.

Lemma Error_started (w : http.ResponseWriter) (msg : string) (code : Z) :
  http.wroteHeader w = true ->
  http.status (http.Error_ w msg code) = http.status w.
Proof.
  intros H. unfold http.Error_, http.Write, http.WriteHeader, http.SetHeader.
  simpl. rewrite H. simpl. rewrite ?H. reflexivity.
Qed.

(** Once the domains are listed, the response is started. *)
Lemma createUpdate_started (st st' : St World)
    (r : Res (option error) (option error)) (evs : list Event)
    (dm : list api.DomainMapping) :
  http.wroteHeader (resp st) = false ->
  createUpdate st = (r, st', evs) ->
  In (EvDomainMappingsList (appengine_AppID (world st)) (Ok dm)) evs ->
  started st'.
Proof.
  intros Hw H Hin. unfold createUpdate in H. unfold_go.
  destruct (google_DefaultClient api.CloudPlatformScope (world st))
    as [[[] | e] w1]; simpl in H.
  2: { finished H. simpl in Hin. destruct Hin as [Hin | []]. discriminate. }
  destruct (api_New w1) as [[[] | e] w2]; simpl in H.
  2: { finished H. simpl in Hin. destruct Hin as [Hin | [Hin | []]]; discriminate. }
  destruct (DomainMappings_List (appengine_AppID (world st)) w2)
    as [[dm' | e] w3]; simpl in H.
  2: { case_next H. finished H. simpl in Hin.
       destruct Hin as [Hin | [Hin | [Hin | [Hin | []]]]]; discriminate. }
  clear Hin.
  assert (Hs0 : started (logged (mkSt w3 (resp st))
                                (found (List.length dm') " custom domains:")))
    by (apply started_logged; now left).
  unfold logged, found in Hs0. simpl in Hs0.
  match type of H with
  | context [forRange dm' ?b ?s] =>
      destruct (forRange dm' b s) as [[r1 s1] evs1] eqn:E1
  end.
  assert (Hs1 : started s1).
  { eapply forRange_started; [ | exact E1 | exact Hs0].
    intros; eapply createBody_started; eassumption. }
  destruct r1 as [[] | x | m]; simpl in H; try (now finished H).
  assert (Hs2 : started (logged s1 newline))
    by (apply started_logged; now right).
  unfold logged in Hs2.
  destruct (AuthorizedCertificates_List (appengine_AppID (world st)) (world s1))
    as [[ac | e] w4]; simpl in H.
  2: { case_next H. finished H.
       match goal with
       | Hr : resp _ = _ |- _ => exact (started_resp _ Hr Hs2)
       end. }
  assert (Hs3 : started (logged (mkSt w4 (http.Write (resp s1) newline))
                                (found (List.length ac) " certificates:")))
    by (apply started_logged; right; exact Hs2).
  unfold logged, found in Hs3. simpl in Hs3.
  match type of H with
  | context [forRange ac ?b ?s] =>
      destruct (forRange ac b s) as [[r2 s2] evs2] eqn:E2
  end.
  assert (Hs4 : started s2).
  { eapply forRange_started; [ | exact E2 | exact Hs3].
    intros; eapply updateBody_started; eassumption. }
  destruct r2 as [[] | x | m]; simpl in H; finished H; try assumption.
  apply (started_logged (st := s2) newline). now right.
Qed.

(** X5.  The status of the response of [cronHandler] is fixed by its
    first write.  Once the run has listed the domains it has printed
    its first line, so the response is 200 whatever happens next: an
    error that [createUpdate] returns later is written to the body, and
    the status stays 200. *)
Theorem cronHandler_status_after_listing (r : http.Request) (st st' : St World)
    (res : Res unit unit) (evs : list Event) (dm : list api.DomainMapping) :
  resp st = http.newResponseWriter ->
  cronHandler r st = (res, st', evs) ->
  In (EvDomainMappingsList (appengine_AppID (world st)) (Ok dm)) evs ->
  http.status (resp st') = http.StatusOK.
Proof.
  intros Hresp H Hin. unfold cronHandler in H. unfold_go.
  destruct (String.eqb (http.Header_Get (http.Request_Header r) "X-Appengine-Cron") ""
            && negb (user_IsAdmin (world st))); simpl in H.
  - finished H. destruct Hin.
  - match type of H with
    | context [createUpdate ?s] =>
        destruct (createUpdate s) as [[rc sc] evc] eqn:E;
        assert (Hs : forall l, In (EvDomainMappingsList (appengine_AppID (world st)) (Ok dm)) l ->
                               l = evc -> started sc)
    end.
    { intros l Hl ->. eapply createUpdate_started; [ | exact E | exact Hl].
      simpl. now rewrite Hresp. }
    destruct rc as [[err | ] | [err | ] | m]; simpl in H; finished H;
      rewrite ?app_nil_r in Hin;
      destruct (Hs _ Hin eq_refl) as [Hw H200];
      cbn [resp world]; rewrite ?Error_started by exact Hw; exact H200.
Qed.

End Further.

(** ** More on the authorization and issuance flows *)

Section MoreIssuance.
Context {World : Type} {P : Platform World}.

(** X6.  Whatever the outcome of [authorize], a challenge is accepted
    only after its response was stored in memcache: if [Accept] is
    among the calls, the calls start with [Authorize], then the
    successful [memcache.Set] of the response of that very challenge
    under its challenge path, then this [Accept]; and
    [WaitAuthorization] follows only when [Accept] succeeded. *)
Theorem accept_only_after_publish (client : acme.Client) (domain : string)
    (st st' : St World) (r : Res AuthorizeResult AuthorizeResult)
    (evs : list Event) (c : acme.Client) (chal : acme.Challenge)
    (res : result acme.Challenge) :
  authorize client domain st = (r, st', evs) ->
  In (EvAccept c chal res) evs ->
  exists auth response rest,
    c = client /\
    acme_HTTP01ChallengeResponse client (acme.Token chal) = Ok response /\
    evs = EvAuthorize client domain (Ok auth)
            :: EvMemcacheSet
                 (memcache.mkItem
                    ("/.well-known/acme-challenge/" ++ acme.Token chal)%string
                    (bytes_of_string response)) None
            :: EvAccept client chal res :: rest /\
    (rest = [] \/
     exists accepted final,
       res = Ok accepted /\
       rest = [EvWaitAuthorization client (acme.URI auth) final]).
Proof.
  intros H Hin. destruct (authorize_inv _ _ _ H) as (_ & x & _ & HA).
  destruct HA; simpl in Hin;
    repeat (destruct Hin as [Hin | Hin]; [try discriminate | ]);
    try contradiction;
    injection Hin as <- <- <-;
    exists auth, response; eexists;
    (split; [reflexivity | split; [assumption | split; [reflexivity | ]]]).
  - now left.
  - right. eexists; eexists; split; reflexivity.
  - right. eexists; eexists; split; reflexivity.
Qed.

Lemma find_first (A : Type) (f : A -> bool) (l : list A) (x : A) :
  find f l = Some x ->
  f x = true /\
  exists pre post, l = pre ++ x :: post /\ forall y, In y pre -> f y = false.
Proof.
  induction l as [ | a l IH]; simpl; [discriminate | ].
  destruct (f a) eqn:Ha.
  - intros E. injection E as <-. split; [exact Ha | ].
    exists [], l. split; [reflexivity | intros y []].
  - intros E. destruct (IH E) as (Hx & pre & post & -> & Hpre).
    split; [exact Hx | ].
    exists (a :: pre), post. split; [reflexivity | ].
    intros y [<- | Hy]; [exact Ha | now apply Hpre].
Qed.

(** X7.  The challenge [authorize] answers is the first one of type
    http-01 in the order the authority offered them: every challenge
    offered before it has another type. *)
Theorem first_http01_is_answered (client : acme.Client) (domain : string)
    (st st' : St World) (r : Res AuthorizeResult AuthorizeResult)
    (evs : list Event) (item : memcache.Item) (res : option error) :
  authorize client domain st = (r, st', evs) ->
  In (EvMemcacheSet item res) evs ->
  exists auth pre chal post,
    In (EvAuthorize client domain (Ok auth)) evs /\
    acme.Challenges auth = pre ++ chal :: post /\
    (forall c, In c pre -> acme.Type_ c <> "http-01"%string) /\
    acme.Type_ chal = "http-01"%string /\
    memcache.Key item = acme.HTTP01ChallengePath (acme.Token chal).
Proof.
  intros H Hin. destruct (authorize_inv _ _ _ H) as (_ & x & _ & HA).
  assert (Hsel : forall auth chal,
             http01 auth = Some chal ->
             exists pre post,
               acme.Challenges auth = pre ++ chal :: post /\
               (forall c, In c pre -> acme.Type_ c <> "http-01"%string) /\
               acme.Type_ chal = "http-01"%string).
  { intros auth chal Hf. unfold http01 in Hf.
    destruct (find_first _ _ Hf) as (Hx & pre & post & Hl & Hpre).
    exists pre, post. split; [exact Hl | split].
    - intros c Hc. specialize (Hpre c Hc). now apply String.eqb_neq.
    - now apply String.eqb_eq. }
  destruct HA; simpl in Hin;
    repeat (destruct Hin as [Hin | Hin]; [try discriminate | ]);
    try contradiction;
    injection Hin as <- <-;
    match goal with
    | Hf : http01 ?a = Some ?ch |- _ =>
        destruct (Hsel _ _ Hf) as (pre & post & Hl & Hpre & Hty);
        exists a, pre, ch, post
    end;
    (split; [now left | repeat (split; [assumption | ])]); reflexivity.
Qed.

(** X8.  A call of [obtainCert] leaves the response writer alone and
    talks to the key and request generators, the authority and memcache
    only: it makes no call to the admin API and never reads memcache.
    It stores at most one item in memcache, under the challenge path
    "/.well-known/acme-challenge/" followed by a token. *)
Theorem obtainCert_keeps_to_the_authority (domain : string)
    (st st' : St World) (r : Res ObtainResult ObtainResult)
    (evs : list Event) :
  obtainCert domain st = (r, st', evs) ->
  resp st' = resp st /\
  (forall ev, In ev evs -> registryCall ev = false /\ memcacheGet ev = false) /\
  (List.length (filter memcacheSet evs) <= 1)%nat /\
  (forall item res,
      In (EvMemcacheSet item res) evs ->
      exists token,
        memcache.Key item = ("/.well-known/acme-challenge/" ++ token)%string).
Proof.
  intros H. destruct (obtainCert_inv _ _ H) as (Hresp & x & _ & HO).
  split; [exact Hresp | ].
  assert (HA : forall cl y evsA,
             authorized cl domain y evsA ->
             (forall ev, In ev evsA -> memcacheGet ev = false) /\
             (List.length (filter memcacheSet evsA) <= 1)%nat /\
             (forall item res,
                 In (EvMemcacheSet item res) evsA ->
                 exists token,
                   memcache.Key item
                   = ("/.well-known/acme-challenge/" ++ token)%string)).
  { intros cl y evsA Ha. destruct Ha; (split; [ | split]);
      try (simpl; lia);
      try (intros ev Hin; simpl in Hin;
           repeat (destruct Hin as [<- | Hin]; [reflexivity | ]);
           contradiction);
      intros item res Hin; simpl in Hin;
      repeat (destruct Hin as [Hin | Hin]; [try discriminate | ]);
      try contradiction;
      injection Hin as <- _; eexists; reflexivity. }
  split; [ | split].
  - intros ev Hin. split; [exact (obtained_no_registry HO _ Hin) | ].
    destruct HO; simpl in Hin;
      repeat (destruct Hin as [<- | Hin]; [reflexivity | ]);
      try contradiction;
      try (apply in_app_or in Hin; destruct Hin as [Hin | [<- | []]];
           [ | reflexivity]);
      match goal with
      | Ha : authorized _ _ _ _ |- _ => exact (proj1 (HA _ _ _ Ha) _ Hin)
      end.
  - destruct HO; simpl; try lia;
      rewrite ?filter_app; simpl; rewrite ?app_nil_r;
      match goal with
      | Ha : authorized _ _ _ _ |- _ => exact (proj1 (proj2 (HA _ _ _ Ha)))
      end.
  - intros item res Hin.
    destruct HO; simpl in Hin;
      repeat (destruct Hin as [Hin | Hin]; [discriminate | ]);
      try contradiction;
      try (apply in_app_or in Hin; destruct Hin as [Hin | [Hin | []]];
           [ | discriminate]);
      match goal with
      | Ha : authorized _ _ _ _ |- _ =>
          exact (proj2 (proj2 (HA _ _ _ Ha)) _ _ Hin)
      end.
Qed.

(** X9.  [obtainCert] asks the authority for a certificate only once
    the domain is authorized, and only for the request it has signed:
    whenever [CreateCert] is among its calls, it is the last one, made
    by the client of the account key for ninety days and with the chain
    bundled, with the request [CreateCertificateRequest] returned for
    the certificate key; before it the account was registered and the
    authorization either was valid at once or went through the
    challenge to the end. *)
Theorem certificate_requested_once_authorized (domain : string)
    (st st' : St World) (r : Res ObtainResult ObtainResult)
    (evs : list Event) (c : acme.Client) (csr : bytes) (exp : Duration)
    (bundle : bool) (res : result (list bytes * string)) :
  obtainCert domain st = (r, st', evs) ->
  In (EvCreateCert c csr exp bundle res) evs ->
  exp = ninetyDaysNs /\ bundle = true /\
  exists certKey accountKey account auth evsC,
    c = acme.mkClient accountKey acme_LetsEncryptURL /\
    evs = EvGenerateKey 2048 (Ok certKey)
            :: EvCreateCertificateRequest
                 (mkCertificateRequest domain [domain]) certKey (Ok csr)
            :: EvGenerateKey 2048 (Ok accountKey)
            :: EvRegister c (acme.mkAccount [] "") (Ok account)
            :: EvAuthorize c domain (Ok auth)
            :: evsC ++ [EvCreateCert c csr exp bundle res] /\
    ((acme.Status auth = acme.StatusValid /\ evsC = [])
     \/
     (exists chal response accepted final,
         acme.Status auth <> acme.StatusValid /\
         evsC = [EvMemcacheSet
                   (memcache.mkItem (acme.HTTP01ChallengePath (acme.Token chal))
                                    (bytes_of_string response)) None;
                 EvAccept c chal (Ok accepted);
                 EvWaitAuthorization c (acme.URI auth) (Ok final)])).
Proof.
  intros H Hin. destruct (obtainCert_inv _ _ H) as (_ & x & _ & HO).
  assert (HnoA : forall cl y evsA,
             authorized cl domain y evsA ->
             ~ In (EvCreateCert c csr exp bundle res) evsA).
  { intros cl y evsA Ha Hi.
    destruct (proj2 (proj2 (proj2 (authorized_events Ha _ Hi))) _ eq_refl).
    destruct Ha; simpl in Hi;
      repeat (destruct Hi as [Hi | Hi]; [discriminate | ]); exact Hi. }
  assert (Hok : forall cl evsA,
             authorized cl domain None evsA ->
             exists auth evsC,
               evsA = EvAuthorize cl domain (Ok auth) :: evsC /\
               ((acme.Status auth = acme.StatusValid /\ evsC = [])
                \/
                (exists chal response accepted final,
                    acme.Status auth <> acme.StatusValid /\
                    evsC = [EvMemcacheSet
                              (memcache.mkItem
                                 (acme.HTTP01ChallengePath (acme.Token chal))
                                 (bytes_of_string response)) None;
                            EvAccept cl chal (Ok accepted);
                            EvWaitAuthorization cl (acme.URI auth) (Ok final)]))).
  { intros cl evsA Ha. inversion Ha; subst.
    - exists auth, []. split; [reflexivity | now left].
    - eexists auth, _. split; [reflexivity | right].
      exists chal, response, accepted, final. split; [assumption | reflexivity]. }
  destruct HO; simpl in Hin;
    repeat (destruct Hin as [Hin | Hin]; [discriminate | ]);
    try contradiction;
    try (now destruct (HnoA _ _ _ H0 Hin));
    (apply in_app_or in Hin; destruct Hin as [Hin | [Hin | []]];
     [now destruct (HnoA _ _ _ H0 Hin) | ]);
    injection Hin as <- <- <- <- <-;
    (split; [reflexivity | split; [reflexivity | ]]);
    destruct (Hok _ _ H0) as (auth & evsC & -> & Hcase);
    exists certKey, accountKey, account, auth, evsC;
    (split; [reflexivity | split; [reflexivity | exact Hcase]]).
Qed.

End MoreIssuance.

(** ** More on the reconciliation run *)

Section MoreRun.
Context {World : Type} {P : Platform World}.

(** An element that is the only one of its kind is found at one place. *)
Lemma split_unique (A : Type) (p : A -> bool) (a b before after : list A)
    (x ev : A) :
  a ++ x :: b = before ++ ev :: after ->
  p ev = true ->
  (forall y, In y a -> p y = false) ->
  (forall y, In y b -> p y = false) ->
  before = a /\ ev = x /\ after = b.
Proof.
  revert before. induction a as [ | y a IH]; intros before E Hev Ha Hb.
  - destruct before as [ | z before]; simpl in E.
    + injection E as -> ->. repeat split.
    + injection E as -> E. exfalso.
      assert (Hin : In ev b) by (rewrite E; apply in_or_app; right; now left).
      rewrite (Hb _ Hin) in Hev. discriminate.
  - destruct before as [ | z before]; simpl in E.
    + injection E as -> E. exfalso.
      rewrite (Ha ev (or_introl eq_refl)) in Hev. discriminate.
    + injection E as -> E.
      destruct (IH before E Hev) as (-> & -> & ->); auto.
      intros y' Hy'. apply Ha. now right.
Qed.

(** The calls of a loop satisfy what the calls of its body satisfy, when
    it holds of no call and of calls put one after the other. *)
Lemma forRange_calls (A R : Type) (body : A -> M World R unit)
    (Q : list Event -> Prop) (xs : list A) :
  Q [] ->
  (forall a b, Q a -> Q b -> Q (a ++ b)) ->
  (forall x st r st' evs, In x xs -> body x st = (r, st', evs) -> Q evs) ->
  forall st r st' evs, forRange xs body st = (r, st', evs) -> Q evs.
Proof.
  intros Hnil Happ. induction xs as [ | x xs IH]; intros HB st r st' evs H;
    simpl in H.
  - unfold pure in H. now finished H.
  - unfold bind in H.
    destruct (body x st) as [[[u | r0 | m] sx] evsx] eqn:E.
    + destruct (forRange xs body sx) as [[rp sp] evsp] eqn:HP.
      finished H. apply Happ.
      * exact (HB _ _ _ _ _ (or_introl eq_refl) E).
      * apply (IH (fun y s r s' l Hy => HB y s r s' l (or_intror Hy)) _ _ _ _ HP).
    + finished H. exact (HB _ _ _ _ _ (or_introl eq_refl) E).
    + finished H. exact (HB _ _ _ _ _ (or_introl eq_refl) E).
Qed.

(** What [createBody] calls: nothing, or what [obtainCert] calls and,
    when it succeeded, the creation of the certificate and what
    follows. *)
Lemma createBody_calls (appID : string) (e : api.DomainMapping)
    (st st' : St World) (r : Res (option error) unit) (evs : list Event) :
  createBody appID e st = (r, st', evs) ->
  evs = [] \/
  exists cert key err s1 evsI,
    obtainCert (api.DomainMapping_Id e)
               (logged st (creating (api.DomainMapping_Id e)))
    = (Return (cert, key, err), s1, evsI) /\
    ((err <> None /\ evs = evsI)
     \/
     (err = None /\
      exists resC tail,
        evs = evsI
                ++ EvCertificatesCreate appID
                     (newCertificate (api.DomainMapping_Id e) cert key) resC
                :: tail /\
        forall ev, In ev tail ->
          (exists m res, ev = EvDomainMappingsPatch appID (api.DomainMapping_Id e)
                                m "ssl_settings.certificate_id" res)
          \/ (exists sa, ev = EvServiceAccount sa))).
Proof.
  intros H. unfold createBody in H. unfold_go.
  destruct (api.SslSettings_ e); [finished H; now left | ].
  right.
  fold (creating (api.DomainMapping_Id e)) in H.
  fold (logged st (creating (api.DomainMapping_Id e))) in H.
  destruct (obtainCert (api.DomainMapping_Id e)
                       (logged st (creating (api.DomainMapping_Id e))))
    as [[ro so] evo] eqn:HO.
  destruct (obtainCert_inv _ _ HO) as (_ & [[cert key] err] & -> & _).
  exists cert, key, err, so, evo. split; [reflexivity | ].
  simpl in H. destruct err as [err | ].
  - left. finished H. split; [discriminate | now rewrite app_nil_r].
  - right. split; [reflexivity | ].
    fold (newCertificate (api.DomainMapping_Id e) cert key) in H.
    repeat case_next H; finished H; rewrite ?app_nil_r;
      eexists; eexists; (split; [reflexivity | ]);
      intros ev Hin; simpl in Hin;
      repeat (destruct Hin as [<- | Hin];
              [first [left; eexists; eexists; reflexivity
                     | right; eexists; reflexivity] | ]);
      contradiction.
Qed.

(** What [updateBody] calls: nothing, or what [obtainCert] calls and,
    when it succeeded, the patch of the certificate and, when that
    failed, the question [addTip] asks. *)
Lemma updateBody_calls (appID : string) (c : api.AuthorizedCertificate)
    (st st' : St World) (r : Res (option error) unit) (evs : list Event) :
  updateBody appID c st = (r, st', evs) ->
  evs = [] \/
  exists domain s cert key err s1 evsI,
    obtainCert domain s = (Return (cert, key, err), s1, evsI) /\
    ((err <> None /\ evs = evsI)
     \/
     (err = None /\
      exists resP tail,
        evs = evsI
                ++ EvCertificatesPatch appID (api.Id c) (rawDataOnly cert key)
                     "certificate_raw_data" resP
                :: tail /\
        forall ev, In ev tail -> exists sa, ev = EvServiceAccount sa)).
Proof.
  intros H. unfold updateBody in H. unfold_go.
  destruct (api.DomainNames c) as [ | domain names]; [finished H; now left | ].
  simpl in H.
  destruct (time_Parse time.RFC3339 (api.ExpireTime c)) as [expire | e];
    simpl in H; [ | finished H; now left].
  destruct (time.Before (time.Add (time_Now (world st)) updateBefore) expire);
    [finished H; now left | ].
  right.
  match type of H with
  | context [obtainCert domain ?s] =>
      destruct (obtainCert domain s) as [[ro so] evo] eqn:HO;
      exists domain, s
  end.
  destruct (obtainCert_inv _ _ HO) as (_ & [[cert key] err] & -> & _).
  exists cert, key, err, so, evo. split; [exact HO | ].
  simpl in H. destruct err as [err | ].
  - left. finished H. split; [discriminate | now rewrite app_nil_r].
  - right. split; [reflexivity | ].
    fold (rawDataOnly cert key) in H.
    repeat case_next H; finished H; rewrite ?app_nil_r;
      eexists; eexists; (split; [reflexivity | ]);
      intros ev Hin; simpl in Hin;
      repeat (destruct Hin as [<- | Hin]; [eexists; reflexivity | ]);
      contradiction.
Qed.

(** The calls of a run of [createUpdate], by phase: the calls up to the
    list of the domains, the calls of the first loop, then the list of
    the certificates and the calls of the second loop.  [QD] and [QC]
    are what is known of the calls of the two loop bodies. *)
Lemma createUpdate_phases (QD QC : list Event -> Prop)
    (st st' : St World) (r : Res (option error) (option error))
    (evs : list Event) :
  QD [] -> (forall a b, QD a -> QD b -> QD (a ++ b)) ->
  QC [] -> (forall a b, QC a -> QC b -> QC (a ++ b)) ->
  (forall e s r s' l,
     createBody (appengine_AppID (world st)) e s = (r, s', l) -> QD l) ->
  (forall c s r s' l,
     updateBody (appengine_AppID (world st)) c s = (r, s', l) -> QC l) ->
  (forall sa, QC [EvServiceAccount sa]) ->
  createUpdate st = (r, st', evs) ->
  exists head evsD rest,
    evs = head ++ evsD ++ rest /\
    (forall ev, In ev head ->
       (domainCall ev = true /\ writtenRaw ev = None)
       \/ exists sa, ev = EvServiceAccount sa) /\
    QD evsD /\
    (rest = [] \/
     exists res evsC,
       rest = EvCertificatesList (appengine_AppID (world st)) res :: evsC /\
       QC evsC).
Proof.
  intros HD0 HDapp HC0 HCapp HD HC Hsa H.
  unfold createUpdate in H. unfold_go.
  assert (Hhead : forall l : list Event,
            Forall (fun ev => (domainCall ev = true /\ writtenRaw ev = None)
                              \/ exists sa, ev = EvServiceAccount sa) l ->
            exists head evsD rest,
              l = head ++ evsD ++ rest /\
              (forall ev, In ev head ->
                 (domainCall ev = true /\ writtenRaw ev = None)
                 \/ exists sa, ev = EvServiceAccount sa) /\
              QD evsD /\
              (rest = [] \/
               exists res evsC,
                 rest = EvCertificatesList (appengine_AppID (world st)) res
                          :: evsC /\ QC evsC)).
  { intros l Hl. exists l, [], []. rewrite app_nil_r.
    split; [reflexivity | split; [ | split; [exact HD0 | now left]]].
    now apply Forall_forall. }
  destruct (google_DefaultClient api.CloudPlatformScope (world st))
    as [[[] | e] w1]; simpl in H.
  2: { finished H. apply Hhead. repeat constructor. }
  destruct (api_New w1) as [[[] | e] w2]; simpl in H.
  2: { finished H. apply Hhead. repeat constructor. }
  destruct (DomainMappings_List (appengine_AppID (world st)) w2)
    as [[dm | e] w3]; simpl in H.
  2: { case_next H. finished H. apply Hhead.
       repeat (constructor; [first [left; split; reflexivity
                                  | right; eexists; reflexivity] | ]).
       constructor. }
  clear Hhead.
  match type of H with
  | context [forRange dm ?b ?s] =>
      destruct (forRange dm b s) as [[r1 s1] evs1] eqn:E1
  end.
  assert (HQD : QD evs1).
  { eapply forRange_calls; [exact HD0 | exact HDapp | | exact E1].
    intros x s r0 s0 l _ Hb. exact (HD _ _ _ _ _ Hb). }
  exists (listing (appengine_AppID (world st)) dm), evs1.
  assert (Hlisting : forall ev,
            In ev (listing (appengine_AppID (world st)) dm) ->
            (domainCall ev = true /\ writtenRaw ev = None)
            \/ exists sa, ev = EvServiceAccount sa).
  { intros ev Hin. simpl in Hin.
    repeat (destruct Hin as [<- | Hin]; [left; split; reflexivity | ]).
    contradiction. }
  destruct r1 as [[] | x | m]; simpl in H.
  2, 3: finished H; exists []; rewrite ?app_nil_r;
        (split; [reflexivity | split; [exact Hlisting | split; [exact HQD | now left]]]).
  destruct (AuthorizedCertificates_List (appengine_AppID (world st)) (world s1))
    as [[ac | e] w4]; simpl in H.
  2: { case_next H. finished H. eexists.
       split; [reflexivity | split; [exact Hlisting | split; [exact HQD | ]]].
       right. eexists. eexists. split; [reflexivity | apply Hsa]. }
  match type of H with
  | context [forRange ac ?b ?s] =>
      destruct (forRange ac b s) as [[r2 s2] evs2] eqn:E2
  end.
  assert (HQC : QC evs2).
  { eapply forRange_calls; [exact HC0 | exact HCapp | | exact E2].
    intros x s r0 s0 l _ Hb. exact (HC _ _ _ _ _ Hb). }
  exists (EvCertificatesList (appengine_AppID (world st)) (Ok ac) :: evs2).
  destruct r2 as [[] | x | m]; simpl in H; finished H; rewrite ?app_nil_r;
    (split; [reflexivity | split; [exact Hlisting | split; [exact HQD | ]]]);
    right; eexists; eexists; (split; [reflexivity | exact HQC]).
Qed.

End MoreRun.

Section MoreRun2.
Context {World : Type} {P : Platform World}.

Lemma quiet_call (ev : Event) :
  registryCall ev = false ->
  writtenRaw ev = None /\ domainCall ev = false /\ certificateCall ev = false.
Proof. destruct ev; simpl; intros H; try discriminate; repeat split. Qed.

Lemma obtainCert_quiet (domain : string) (st st' : St World)
    (r : Res ObtainResult ObtainResult) (evs : list Event) :
  obtainCert domain st = (r, st', evs) ->
  forall ev, In ev evs -> registryCall ev = false.
Proof.
  intros H. destruct (obtainCert_inv _ _ H) as (_ & x & _ & Hob).
  exact (obtained_no_registry Hob).
Qed.

Lemma backed_plain (l : list Event) :
  (forall ev, In ev l -> writtenRaw ev = None) -> backed (P := P) l.
Proof.
  intros Hl before ev after raw -> Hw.
  rewrite Hl in Hw; [discriminate | ].
  apply in_or_app. right. now left.
Qed.

Lemma backed_app (a b : list Event) :
  backed (P := P) a -> backed (P := P) b -> backed (P := P) (a ++ b).
Proof.
  intros Ha Hb before ev after raw E Hw.
  apply app_eq_app in E. destruct E as (l & [[-> E] | [-> E]]).
  - destruct l as [ | x l]; simpl in E.
    + subst b.
      destruct (Hb [] ev after raw eq_refl Hw)
        as (earlier & evsI & d & s & s1 & cert & key & E & HO & ->).
      symmetry in E. apply app_eq_nil in E. destruct E as [-> ->].
      exists before, [], d, s, s1, cert, key.
      rewrite app_nil_r. repeat split. exact HO.
    + injection E as <- ->.
      exact (Ha before ev l raw eq_refl Hw).
  - destruct (Hb l ev after raw E Hw)
      as (earlier & evsI & d & s & s1 & cert & key & -> & HO & ->).
    exists (a ++ earlier), evsI, d, s, s1, cert, key.
    rewrite app_assoc. repeat split. exact HO.
Qed.

Lemma backed_write (evsI tail : list Event) (ev : Event) (domain : string)
    (s s1 : St World) (cert key : string) :
  obtainCert domain s = (Return (cert, key, None), s1, evsI) ->
  writtenRaw ev = Some (Some (api.mkCertificateRawData key cert)) ->
  (forall e, In e tail -> writtenRaw e = None) ->
  backed (P := P) (evsI ++ ev :: tail).
Proof.
  intros HO Hev Htail before ev' after raw E Hw.
  destruct (split_unique writesRaw evsI tail before after ev ev' E)
    as (-> & -> & ->).
  - unfold writesRaw. now rewrite Hw.
  - intros y Hy. unfold writesRaw.
    now rewrite (proj1 (quiet_call _ (obtainCert_quiet _ _ HO y Hy))).
  - intros y Hy. unfold writesRaw. now rewrite (Htail y Hy).
  - exists [], evsI, domain, s, s1, cert, key.
    repeat split; [exact HO | congruence].
Qed.

Lemma createBody_backed (appID : string) (e : api.DomainMapping)
    (st st' : St World) (r : Res (option error) unit) (evs : list Event) :
  createBody appID e st = (r, st', evs) -> backed (P := P) evs.
Proof.
  intros H.
  destruct (createBody_calls _ _ _ H)
    as [-> | (cert & key & err & s1 & evsI & HO
              & [[_ ->] | [-> (resC & tail & -> & Htail)]])].
  - apply backed_plain. intros ev [].
  - apply backed_plain. intros ev Hin.
    exact (proj1 (quiet_call _ (obtainCert_quiet _ _ HO ev Hin))).
  - eapply backed_write; [exact HO | reflexivity | ].
    intros ev Hin.
    destruct (Htail ev Hin) as [(m & res & ->) | (sa & ->)]; reflexivity.
Qed.

Lemma updateBody_backed (appID : string) (c : api.AuthorizedCertificate)
    (st st' : St World) (r : Res (option error) unit) (evs : list Event) :
  updateBody appID c st = (r, st', evs) -> backed (P := P) evs.
Proof.
  intros H.
  destruct (updateBody_calls _ _ _ H)
    as [-> | (domain & s & cert & key & err & s1 & evsI & HO
              & [[_ ->] | [-> (resC & tail & -> & Htail)]])].
  - apply backed_plain. intros ev [].
  - apply backed_plain. intros ev Hin.
    exact (proj1 (quiet_call _ (obtainCert_quiet _ _ HO ev Hin))).
  - eapply backed_write; [exact HO | reflexivity | ].
    intros ev Hin. destruct (Htail ev Hin) as (sa & ->). reflexivity.
Qed.

(** X10.  In a run that returns nil, let [e] be any of the domains the
    registry listed.  The first loop reached [e], in a state [st], and
    its body ended normally there.  If [e] was bound to a certificate
    the body made no call.  Otherwise [obtainCert] was called for the
    domain and succeeded, and the body made two more calls, both
    successful: the creation of a certificate that holds the new key
    and chain as raw data and the domain as display name, then a patch
    of the mapping of the domain, under the update mask
    "ssl_settings.certificate_id", that binds it to the identifier the
    registry gave to the certificate just created. *)
Theorem creation_binds_certificate (st0 st' : St World) (evs : list Event) :
  createUpdate st0 = (Return None, st', evs) ->
  exists dm s evsD evsAfter,
    evs = listing (appengine_AppID (world st0)) dm ++ evsD ++ evsAfter /\
    (exists sEnd,
        forRange dm (createBody (appengine_AppID (world st0))) s
        = (Val tt, sEnd, evsD)) /\
    forall pre e post,
      dm = pre ++ e :: post ->
      exists st evs0 ste evse evs2,
        forRange pre (createBody (appengine_AppID (world st0))) s
        = (Val tt, st, evs0) /\
        createBody (appengine_AppID (world st0)) e st = (Val tt, ste, evse) /\
        evsD = evs0 ++ evse ++ evs2 /\
        match api.SslSettings_ e with
        | Some _ => evse = []
        | None =>
            exists cert key st1 evs1 created patched,
              obtainCert (api.DomainMapping_Id e)
                         (logged st (creating (api.DomainMapping_Id e)))
              = (Return (cert, key, None), st1, evs1) /\
              evse = evs1
                       ++ [EvCertificatesCreate (appengine_AppID (world st0))
                             (newCertificate (api.DomainMapping_Id e) cert key)
                             (Ok created);
                           EvDomainMappingsPatch (appengine_AppID (world st0))
                             (api.DomainMapping_Id e)
                             (bindingTo (api.Id created))
                             "ssl_settings.certificate_id" (Ok patched)]
        end.
Proof.
  intros H.
  destruct (createUpdate_succeeded _ H)
    as (dm & s & evsD & ac & s' & sEnd & evsC & HD & HC & ->).
  exists dm, s, evsD,
    (EvCertificatesList (appengine_AppID (world st0)) (Ok ac) :: evsC).
  split; [reflexivity | ].
  split; [exists s'; exact HD | ].
  intros pre e post ->.
  destruct (forRange_completed _ _ _ _ _ HD)
    as (st & evs0 & ste & evse & evs2 & Hpre & Hb & Hpost & ->).
  exists st, evs0, ste, evse, evs2.
  repeat (split; [first [assumption | reflexivity] | ]).
  unfold createBody in Hb. unfold_go.
  destruct (api.SslSettings_ e) as [ssl | ]; [now finished Hb | ].
  fold (creating (api.DomainMapping_Id e)) in Hb.
  fold (logged st (creating (api.DomainMapping_Id e))) in Hb.
  destruct (obtainCert (api.DomainMapping_Id e)
                       (logged st (creating (api.DomainMapping_Id e))))
    as [[ro so] evo] eqn:HO.
  destruct (obtainCert_inv _ _ HO) as (_ & [[cert key] err] & -> & Hob).
  simpl in Hb. destruct err as [err | ]; [discriminate | ].
  fold (newCertificate (api.DomainMapping_Id e) cert key) in Hb.
  repeat case_next Hb; try discriminate.
  finished Hb.
  match goal with
  | |- context [EvCertificatesCreate _ _ (Ok ?c)
                  :: EvDomainMappingsPatch _ _ _ _ (Ok ?p) :: _] =>
      exists cert, key, so, evo, c, p
  end.
  split; [reflexivity | ]. now rewrite ?app_nil_r.
Qed.

(** X11.  Whatever a run of [createUpdate] does and however it ends,
    every certificate it writes to the registry, created or patched,
    holds the key and the chain that a call of [obtainCert] has just
    returned without error: the calls of that [obtainCert] are the
    calls that come right before the write. *)
Theorem written_certificate_was_just_issued (st st' : St World)
    (r : Res (option error) (option error)) (evs before after : list Event)
    (ev : Event) (raw : option api.CertificateRawData) :
  createUpdate st = (r, st', evs) ->
  evs = before ++ ev :: after ->
  writtenRaw ev = Some raw ->
  exists earlier evsI domain s s1 cert key,
    before = earlier ++ evsI /\
    obtainCert domain s = (Return (cert, key, None), s1, evsI) /\
    raw = Some (api.mkCertificateRawData key cert).
Proof.
  intros H.
  assert (Hb : backed (P := P) evs).
  { assert (Hnil : backed (P := P) [])
      by (apply backed_plain; intros e []).
    assert (Hsa : forall sa, backed (P := P) [EvServiceAccount sa])
      by (intros sa; apply backed_plain; intros e [<- | []]; reflexivity).
    assert (HDb : forall e s r s' l,
               createBody (appengine_AppID (world st)) e s = (r, s', l) ->
               backed (P := P) l)
      by (intros; eapply createBody_backed; eassumption).
    assert (HCb : forall c s r s' l,
               updateBody (appengine_AppID (world st)) c s = (r, s', l) ->
               backed (P := P) l)
      by (intros; eapply updateBody_backed; eassumption).
    destruct (createUpdate_phases (backed (P := P)) (backed (P := P)) st
                Hnil backed_app Hnil backed_app HDb HCb Hsa H)
      as (head & evsD & rest & -> & Hhead & HD & Hrest).
    apply backed_app; [ | apply backed_app; [exact HD | ]].
    - apply backed_plain. intros e He.
      destruct (Hhead e He) as [[_ Hn] | (sa & ->)]; [exact Hn | reflexivity].
    - destruct Hrest as [-> | (res & evsC & -> & HC)].
      + apply backed_plain. intros e [].
      + apply (backed_app (a := [EvCertificatesList (appengine_AppID (world st)) res]));
          [ | exact HC].
        apply backed_plain. intros e [<- | []]. reflexivity. }
  exact (Hb before ev after raw).
Qed.

(** X12.  A run of [createUpdate] lists the certificates at most once,
    and the list separates its two phases: no certificate is patched
    before it, and after it no domain is listed, no certificate is
    created and no mapping is patched. *)
Theorem domains_before_certificates (st st' : St World)
    (r : Res (option error) (option error)) (evs before after : list Event)
    (appID : string) (res : result (list api.AuthorizedCertificate)) :
  createUpdate st = (r, st', evs) ->
  evs = before ++ EvCertificatesList appID res :: after ->
  (forall ev, In ev before -> certificateCall ev = false) /\
  (forall ev, In ev after ->
     domainCall ev = false /\ certificatesList ev = false).
Proof.
  intros H E.
  pose (QD := fun l : list Event =>
                forall ev, In ev l -> certificateCall ev = false).
  pose (QC := fun l : list Event =>
                forall ev, In ev l ->
                  domainCall ev = false /\ certificatesList ev = false).
  assert (Happ : forall (Q : Event -> Prop) (a b : list Event),
             (forall ev, In ev a -> Q ev) -> (forall ev, In ev b -> Q ev) ->
             forall ev, In ev (a ++ b) -> Q ev).
  { intros Q a b Ha Hb ev Hin. apply in_app_or in Hin.
    destruct Hin; [now apply Ha | now apply Hb]. }
  assert (HD : forall e s r s' l,
             createBody (appengine_AppID (world st)) e s = (r, s', l) -> QD l).
  { intros e s r0 s0 l Hb.
    destruct (createBody_calls _ _ _ Hb)
      as [-> | (cert & key & err & s1 & evsI & HO
                & [[_ ->] | [-> (resC & tail & -> & Htail)]])].
    - intros ev [].
    - intros ev Hin.
      exact (proj2 (proj2 (quiet_call _ (obtainCert_quiet _ _ HO ev Hin)))).
    - intros ev Hin. apply in_app_or in Hin. destruct Hin as [Hin | Hin].
      + exact (proj2 (proj2 (quiet_call _ (obtainCert_quiet _ _ HO ev Hin)))).
      + destruct Hin as [<- | Hin]; [reflexivity | ].
        destruct (Htail ev Hin) as [(m & rs & ->) | (sa & ->)]; reflexivity. }
  assert (HC : forall c s r s' l,
             updateBody (appengine_AppID (world st)) c s = (r, s', l) -> QC l).
  { intros c s r0 s0 l Hb.
    destruct (updateBody_calls _ _ _ Hb)
      as [-> | (domain & s2 & cert & key & err & s1 & evsI & HO
                & [[_ ->] | [-> (resC & tail & -> & Htail)]])].
    - intros ev [].
    - intros ev Hin.
      pose proof (obtainCert_quiet _ _ HO ev Hin) as Hq.
      split; [exact (proj1 (proj2 (quiet_call _ Hq))) | ].
      destruct ev; simpl in Hq; try discriminate; reflexivity.
    - intros ev Hin. apply in_app_or in Hin. destruct Hin as [Hin | Hin].
      + pose proof (obtainCert_quiet _ _ HO ev Hin) as Hq.
        split; [exact (proj1 (proj2 (quiet_call _ Hq))) | ].
        destruct ev; simpl in Hq; try discriminate; reflexivity.
      + destruct Hin as [<- | Hin]; [split; reflexivity | ].
        destruct (Htail ev Hin) as (sa & ->). split; reflexivity. }
  assert (HD0 : QD []) by (intros ev []).
  assert (HC0 : QC []) by (intros ev []).
  assert (Hsa : forall sa, QC [EvServiceAccount sa])
    by (intros sa ev [<- | []]; split; reflexivity).
  destruct (createUpdate_phases QD QC st HD0 (Happ _) HC0 (Happ _) HD HC Hsa H)
    as (head & evsD & rest & Hevs & Hhead & HQD & Hrest).
  assert (Hfront : forall ev, In ev (head ++ evsD) -> certificateCall ev = false).
  { intros ev Hin. apply in_app_or in Hin. destruct Hin as [Hin | Hin];
      [ | exact (HQD ev Hin)].
    destruct (Hhead ev Hin) as [[Hd _] | (sa & ->)]; [ | reflexivity].
    destruct ev; simpl in Hd; try discriminate; reflexivity. }
  assert (Hlist : forall ev, certificateCall ev = false ->
                             certificatesList ev = false).
  { intros ev. destruct ev; simpl; congruence. }
  destruct Hrest as [-> | (res' & evsC & -> & HQC)].
  - exfalso. rewrite app_nil_r in Hevs. rewrite Hevs in E.
    assert (Hin : In (EvCertificatesList appID res) (head ++ evsD))
      by (rewrite E; apply in_or_app; right; now left).
    specialize (Hfront _ Hin). discriminate.
  - rewrite app_assoc in Hevs. rewrite Hevs in E.
    destruct (split_unique certificatesList (head ++ evsD) evsC before after
                (EvCertificatesList (appengine_AppID (world st)) res')
                (EvCertificatesList appID res) E eq_refl)
      as (-> & _ & ->).
    + intros y Hy. apply Hlist, Hfront, Hy.
    + intros y Hy. exact (proj2 (HQC y Hy)).
    + split; [exact Hfront | exact HQC].
Qed.

End MoreRun2.

Section MoreRun3.
Context {World : Type} {P : Platform World}.

(** A loop over domains that all have a certificate makes no call. *)
Lemma createLoop_bound (appID : string) (dm : list api.DomainMapping) :
  (forall e, In e dm -> api.SslSettings_ e <> None) ->
  forall st, exists st',
    forRange dm (createBody appID) st = (Val tt, st', []) /\
    world st' = world st.
Proof.
  induction dm as [ | e dm IH]; intros Hb st; simpl.
  - exists st. split; reflexivity.
  - unfold bind. unfold createBody at 1.
    destruct (api.SslSettings_ e) eqn:He;
      [ | exfalso; exact (Hb e (or_introl eq_refl) He)].
    unfold Fprint.
    match goal with
    | |- context [forRange dm ?b ?s] =>
        destruct (IH (fun x Hx => Hb x (or_intror Hx)) s) as (st' & E & Hw);
        rewrite E
    end.
    exists st'. split; [reflexivity | exact Hw].
Qed.

(** A loop over certificates none of which is due makes no call. *)
Lemma updateLoop_far (appID : string) (ac : list api.AuthorizedCertificate)
    (w : World) :
  (forall c, In c ac ->
     exists domain names expire,
       api.DomainNames c = domain :: names /\
       time_Parse time.RFC3339 (api.ExpireTime c) = Ok expire /\
       time_Now w + 30 * 86400 * 1000000000 < expire) ->
  forall st, world st = w -> exists st',
    forRange ac (updateBody appID) st = (Val tt, st', []) /\
    world st' = w.
Proof.
  induction ac as [ | c ac IH]; intros Hb st Hst; simpl.
  - exists st. split; [reflexivity | exact Hst].
  - unfold bind. unfold updateBody at 1. unfold_go.
    destruct (Hb c (or_introl eq_refl)) as (domain & names & expire & Hd & Hp & Hlt).
    rewrite Hd, Hp. simpl. rewrite Hst.
    unfold time.Before, time.Add. rewrite updateBefore_thirty_days.
    destruct (Z.ltb_spec (time_Now w + 30 * 86400 * 1000000000) expire);
      [ | lia].
    match goal with
    | |- context [forRange ac ?b ?s] =>
        destruct (IH (fun x Hx => Hb x (or_intror Hx)) s Hst) as (st' & E & Hw);
        rewrite E
    end.
    exists st'. split; [reflexivity | exact Hw].
Qed.

(** X13.  When every listed domain has a certificate and every listed
    certificate parses and expires more than thirty days from now, the
    run returns nil and has only read: its calls are the three of the
    listing of the domains and the list of the certificates, no key is
    generated, the authority is not called and nothing is written; the
    world is as the last list left it. *)
Theorem nothing_due_only_reads (st0 : St World) (w1 w2 w3 w4 : World)
    (dm : list api.DomainMapping) (ac : list api.AuthorizedCertificate) :
  google_DefaultClient api.CloudPlatformScope (world st0) = (Ok tt, w1) ->
  api_New w1 = (Ok tt, w2) ->
  DomainMappings_List (appengine_AppID (world st0)) w2 = (Ok dm, w3) ->
  (forall e, In e dm -> api.SslSettings_ e <> None) ->
  AuthorizedCertificates_List (appengine_AppID (world st0)) w3 = (Ok ac, w4) ->
  (forall c, In c ac ->
     exists domain names expire,
       api.DomainNames c = domain :: names /\
       time_Parse time.RFC3339 (api.ExpireTime c) = Ok expire /\
       time_Now w4 + 30 * 86400 * 1000000000 < expire) ->
  exists st',
    createUpdate st0
    = (Return None, st',
       listing (appengine_AppID (world st0)) dm
         ++ [EvCertificatesList (appengine_AppID (world st0)) (Ok ac)]) /\
    world st' = w4.
Proof.
  intros H1 H2 H3 Hdm H4 Hac. unfold createUpdate. unfold_go.
  rewrite H1. simpl. rewrite H2. simpl. rewrite H3. simpl.
  match goal with
  | |- context [forRange dm ?b ?s] =>
      destruct (createLoop_bound (appengine_AppID (world st0)) dm Hdm s)
        as (s1 & E1 & Hw1);
      rewrite E1
  end.
  simpl in Hw1. simpl. rewrite Hw1, H4. simpl.
  match goal with
  | |- context [forRange ac ?b ?s] =>
      destruct (updateLoop_far (appengine_AppID (world st0)) ac Hac s eq_refl)
        as (s2 & E2 & Hw2);
      rewrite E2
  end.
  simpl. eexists. split; [reflexivity | exact Hw2].
Qed.

(** X14.  An expiry that does not parse ends the run.  If both lists
    succeed, the first loop completes and the second loop has handled
    [pre] when it reaches a certificate [c] whose expiry [time.Parse]
    rejects with [err], then [createUpdate] returns the error "invalid
    expiry for d: err", [d] being the first domain name of [c], as it
    is, without a tip and without any call for [c]: the certificates
    [post] listed after [c] are not looked at, due or not. *)
Theorem invalid_expiry_ends_run (st0 : St World) (w1 w2 w3 : World)
    (dm : list api.DomainMapping) :
  google_DefaultClient api.CloudPlatformScope (world st0) = (Ok tt, w1) ->
  api_New w1 = (Ok tt, w2) ->
  DomainMappings_List (appengine_AppID (world st0)) w2 = (Ok dm, w3) ->
  forall s evsD w4 ac pre c post st evs0 domain names err,
    forRange dm (createBody (appengine_AppID (world st0)))
             (logged (mkSt w3 (resp st0))
                     (found (List.length dm) " custom domains:"))
    = (Val tt, s, evsD) ->
    AuthorizedCertificates_List (appengine_AppID (world st0)) (world s)
    = (Ok ac, w4) ->
    ac = pre ++ c :: post ->
    forRange pre (updateBody (appengine_AppID (world st0)))
             (logged (mkSt w4 (resp (logged s newline)))
                     (found (List.length ac) " certificates:"))
    = (Val tt, st, evs0) ->
    api.DomainNames c = domain :: names ->
    time_Parse time.RFC3339 (api.ExpireTime c) = Err err ->
    createUpdate st0
    = (Return (Some (invalidExpiry domain err)), st,
       listing (appengine_AppID (world st0)) dm ++ evsD
         ++ EvCertificatesList (appengine_AppID (world st0)) (Ok ac)
         :: evs0).
Proof.
  intros H1 H2 H3 s evsD w4 ac pre c post st evs0 domain names err
         HD HL -> Hpre Hd Hp.
  assert (Hb : updateBody (appengine_AppID (world st0)) c st
               = (Return (Some (invalidExpiry domain err)), st, [])).
  { unfold updateBody. unfold_go. rewrite Hd, Hp. reflexivity. }
  unfold createUpdate. unfold_go. rewrite H1. simpl. rewrite H2. simpl.
  rewrite H3. simpl.
  unfold logged, found in HD. simpl in HD. rewrite HD. simpl.
  rewrite HL. simpl.
  unfold logged, found in Hpre. simpl in Hpre.
  rewrite (forRange_reach _ _ post c _ Hpre), Hb. simpl.
  now rewrite app_nil_r.
Qed.

(** X16.  What [authorize] publishes is what [challengeHandler]
    serves.  If [authorize] has stored an item in memcache, its key is
    the challenge path of a token, which starts with
    "/.well-known/acme-challenge/", and whenever memcache gives the
    item back for that path the handler answers a request for the path
    with status 200 and, as body, the very response the client
    computes for the token. *)
Theorem published_response_is_served (client : acme.Client) (domain : string)
    (st st' : St World) (r : Res AuthorizeResult AuthorizeResult)
    (evs : list Event) (item : memcache.Item) (w w' : World)
    (header : list (string * string)) :
  authorize client domain st = (r, st', evs) ->
  In (EvMemcacheSet item None) evs ->
  memcache_Get (memcache.Key item) w = (Ok item, w') ->
  exists token response st'',
    memcache.Key item = acme.HTTP01ChallengePath token /\
    String.prefix "/.well-known/acme-challenge/" (memcache.Key item) = true /\
    acme_HTTP01ChallengeResponse client token = Ok response /\
    challengeHandler (http.mkRequest (memcache.Key item) header)
                     (mkSt w http.newResponseWriter)
    = (Val tt, st'', [EvMemcacheGet (memcache.Key item) (Ok item)]) /\
    http.status (resp st'') = http.StatusOK /\
    http.body (resp st'') = response.
Proof.
  intros H Hin Hget. destruct (authorize_inv _ _ _ H) as (_ & x & _ & HA).
  assert (Hserve : forall chal response,
             item = published chal response ->
             acme_HTTP01ChallengeResponse client (acme.Token chal) = Ok response ->
             exists token response st'',
               memcache.Key item = acme.HTTP01ChallengePath token /\
               String.prefix "/.well-known/acme-challenge/" (memcache.Key item)
               = true /\
               acme_HTTP01ChallengeResponse client token = Ok response /\
               challengeHandler (http.mkRequest (memcache.Key item) header)
                                (mkSt w http.newResponseWriter)
               = (Val tt, st'', [EvMemcacheGet (memcache.Key item) (Ok item)]) /\
               http.status (resp st'') = http.StatusOK /\
               http.body (resp st'') = response).
  { intros chal response Hitem Hresp.
    exists (acme.Token chal), response.
    unfold challengeHandler. unfold_go. simpl. rewrite Hget. simpl.
    eexists. rewrite Hitem. simpl.
    split; [reflexivity | split; [apply prefix_append | split; [exact Hresp | ]]].
    split; [reflexivity | split; [reflexivity | ]].
    unfold string_of_bytes, bytes_of_string.
    apply string_of_list_byte_of_string. }
  destruct HA; simpl in Hin;
    repeat (destruct Hin as [Hin | Hin]; [try discriminate | ]);
    try contradiction;
    injection Hin as <-; eapply Hserve; try reflexivity; assumption.
Qed.

(** X17.  When [createUpdate] fails before the domains are listed, the
    response of an authorized call of [cronHandler] is an error page:
    status 500, the message of the error and a newline as body, and
    the content type [http.Error] sets in place of "text/plain". *)
Theorem cronHandler_error_before_listing (r : http.Request) (st st' : St World)
    (res : Res unit unit) (evs : list Event) :
  resp st = http.newResponseWriter ->
  String.eqb (http.Header_Get (http.Request_Header r) "X-Appengine-Cron") ""
  && negb (user_IsAdmin (world st)) = false ->
  cronHandler r st = (res, st', evs) ->
  (forall dm,
     ~ In (EvDomainMappingsList (appengine_AppID (world st)) (Ok dm)) evs) ->
  http.status (resp st') = http.StatusInternalServerError /\
  http.Header_Get (http.Header (resp st')) "Content-Type"
  = "text/plain; charset=utf-8"%string /\
  exists x sc,
    createUpdate (mkSt (world st)
                       (http.SetHeader (resp st) "Content-Type" "text/plain"))
    = (Return (Some x), sc, evs) /\
    http.body (resp st') = (Error x ++ newline)%string.
Proof.
  intros Hresp Hauth H Hno. unfold cronHandler in H. unfold_go.
  rewrite Hauth in H. simpl in H.
  unfold createUpdate in *. unfold_go. simpl in *.
  destruct (google_DefaultClient api.CloudPlatformScope (world st))
    as [[[] | e] w1]; simpl in *.
  2: { finished H. rewrite Hresp. simpl.
       split; [reflexivity | split; [reflexivity | ]].
       eexists. eexists. split; reflexivity. }
  destruct (api_New w1) as [[[] | e] w2]; simpl in *.
  2: { finished H. rewrite Hresp. simpl.
       split; [reflexivity | split; [reflexivity | ]].
       eexists. eexists. split; reflexivity. }
  destruct (DomainMappings_List (appengine_AppID (world st)) w2)
    as [[dm | e] w3]; simpl in *.
  - exfalso. apply (Hno dm).
    repeat case_next H; finished H; simpl; do 2 right; left; reflexivity.
  - case_next H. finished H.
    match goal with
    | Hr : resp _ = _ |- _ => simpl in Hr; rewrite Hr, Hresp
    end.
    simpl. split; [reflexivity | split; [reflexivity | ]].
    eexists. eexists. split; reflexivity.
Qed.

End MoreRun3.

Section MoreRun4.
Context {World : Type} {P : Platform World}.

(** What holds of the outcome of every body holds of the outcome of the
    loop, when it is kept by a body that ends normally. *)
Lemma forRange_outcome (A R : Type) (body : A -> M World R unit)
    (Q : Res R unit -> list Event -> Prop) (xs : list A) :
  Q (Val tt) [] ->
  (forall a b r, Q (Val tt) a -> Q r b -> Q r (a ++ b)) ->
  (forall x st r st' evs, body x st = (r, st', evs) -> Q r evs) ->
  forall st r st' evs, forRange xs body st = (r, st', evs) -> Q r evs.
Proof.
  intros Hnil Happ HB. induction xs as [ | x xs IH]; intros st r st' evs H;
    simpl in H.
  - unfold pure in H. now finished H.
  - unfold bind in H.
    destruct (body x st) as [[[[] | r0 | m] sx] evsx] eqn:E.
    + destruct (forRange xs body sx) as [[rp sp] evsp] eqn:HP.
      finished H. apply Happ; [exact (HB _ _ _ _ _ E) | exact (IH _ _ _ _ HP)].
    + finished H. exact (HB _ _ _ _ _ E).
    + finished H. exact (HB _ _ _ _ _ E).
Qed.

Lemma quiet_list (l : list Event) :
  forallb (fun ev => negb (serviceAccountCall ev)) l = true ->
  forall ev, In ev l -> serviceAccountCall ev = false.
Proof.
  intros H ev Hin. rewrite forallb_forall in H.
  apply negb_true_iff. exact (H ev Hin).
Qed.

Lemma quiet_app (l t : list Event) :
  (forall ev, In ev l -> serviceAccountCall ev = false) ->
  forallb (fun ev => negb (serviceAccountCall ev)) t = true ->
  forall ev, In ev (l ++ t) -> serviceAccountCall ev = false.
Proof.
  intros Hl Ht ev Hin. apply in_app_or in Hin.
  destruct Hin as [Hin | Hin]; [exact (Hl ev Hin) | exact (quiet_list _ Ht ev Hin)].
Qed.

Lemma obtained_not_asked (domain : string) (x : ObtainResult)
    (evs : list Event) :
  obtained domain x evs ->
  forall ev, In ev evs -> serviceAccountCall ev = false.
Proof.
  intros H ev Hin. pose proof (obtained_no_registry H ev Hin) as Hq.
  destruct ev; simpl in Hq; try discriminate; reflexivity.
Qed.

Lemma tipped_app (r : option (option error)) (a b : list Event) :
  (forall ev, In ev a -> serviceAccountCall ev = false) ->
  tipped r b -> tipped r (a ++ b).
Proof.
  intros Ha [Hb | (before & ev & sa & x & -> & Hev & Hbefore & ->)].
  - left. intros ev Hin. apply in_app_or in Hin.
    destruct Hin as [Hin | Hin]; [exact (Ha ev Hin) | exact (Hb ev Hin)].
  - right. exists (a ++ before), ev, sa, x.
    split; [now rewrite app_assoc | split; [exact Hev | split; [ | reflexivity]]].
    intros e Hin. apply in_app_or in Hin.
    destruct Hin as [Hin | Hin]; [exact (Ha e Hin) | exact (Hbefore e Hin)].
Qed.

Lemma tipped_none (evs : list Event) :
  tipped None evs -> forall ev, In ev evs -> serviceAccountCall ev = false.
Proof.
  intros [H | (before & ev & sa & x & _ & _ & _ & Hx)];
    [exact H | discriminate].
Qed.

Ltac tipped_case :=
  match goal with
  | |- tipped _ [] => left; intros ? []
  | Ho : obtained _ _ ?l |- tipped _ ?l =>
      left; exact (obtained_not_asked Ho)
  | Ho : obtained _ _ ?l |- tipped None (?l ++ ?t) =>
      left; apply quiet_app; [exact (obtained_not_asked Ho) | reflexivity]
  | Ho : obtained _ _ ?l
    |- tipped (Some (Some ?x)) (?l ++ [?a; EvServiceAccount ?sa]) =>
      right; exists l, a, sa, x;
      split; [reflexivity
             | split; [reflexivity
                      | split; [exact (obtained_not_asked Ho) | reflexivity]]]
  | Ho : obtained _ _ ?l
    |- tipped (Some (Some ?x)) (?l ++ [?a; ?b; EvServiceAccount ?sa]) =>
      right; exists (l ++ [a]), b, sa, x;
      split; [now rewrite <- app_assoc
             | split; [reflexivity
                      | split; [apply quiet_app;
                                [exact (obtained_not_asked Ho) | reflexivity]
                               | reflexivity]]]
  end.

Lemma createBody_tipped (appID : string) (e : api.DomainMapping)
    (st st' : St World) (r : Res (option error) unit) (evs : list Event) :
  createBody appID e st = (r, st', evs) -> tipped (returned r) evs.
Proof.
  intros H. unfold createBody in H. unfold_go.
  repeat case_next H; finished H; simpl; rewrite ?app_nil_r; tipped_case.
Qed.

Lemma updateBody_tipped (appID : string) (c : api.AuthorizedCertificate)
    (st st' : St World) (r : Res (option error) unit) (evs : list Event) :
  updateBody appID c st = (r, st', evs) -> tipped (returned r) evs.
Proof.
  intros H. unfold updateBody in H. unfold_go.
  repeat case_next H; finished H; simpl; rewrite ?app_nil_r; tipped_case.
Qed.

Lemma loop_tipped (A : Type) (body : A -> M World (option error) unit)
    (xs : list A) :
  (forall x st r st' evs, body x st = (r, st', evs) -> tipped (returned r) evs) ->
  forall st r st' evs,
    forRange xs body st = (r, st', evs) -> tipped (returned r) evs.
Proof.
  intros HB st r st' evs H.
  refine (forRange_outcome body (fun r evs => tipped (returned r) evs) xs
            _ _ HB st H).
  - left. intros ev [].
  - intros a b r0 Ha Hb. apply tipped_app; [ | exact Hb].
    exact (tipped_none Ha).
Qed.

Lemma createUpdate_tipped (st st' : St World)
    (r : Res (option error) (option error)) (evs : list Event) :
  createUpdate st = (r, st', evs) -> tipped (returned r) evs.
Proof.
  intros H. unfold createUpdate in H. unfold_go.
  destruct (google_DefaultClient api.CloudPlatformScope (world st))
    as [[[] | e] w1]; simpl in H.
  2: { finished H. left. apply quiet_list. reflexivity. }
  destruct (api_New w1) as [[[] | e] w2]; simpl in H.
  2: { finished H. left. apply quiet_list. reflexivity. }
  destruct (DomainMappings_List (appengine_AppID (world st)) w2)
    as [[dm | e] w3]; simpl in H.
  2: { case_next H. finished H. simpl. right.
       match goal with
       | |- context [EvServiceAccount ?sa] =>
           exists [EvDefaultClient api.CloudPlatformScope (Ok tt); EvApiNew (Ok tt)],
                  (EvDomainMappingsList (appengine_AppID (world st)) (Err e)), sa
       end.
       eexists. split; [reflexivity | split; [reflexivity | split; [ | reflexivity]]].
       apply quiet_list. reflexivity. }
  match type of H with
  | context [forRange dm ?b ?s] =>
      destruct (forRange dm b s) as [[r1 s1] evs1] eqn:E1
  end.
  assert (H1 : tipped (returned r1) evs1).
  { eapply loop_tipped; [ | exact E1]. intros; eapply createBody_tipped; eassumption. }
  assert (Hlisting : forall ev,
            In ev (listing (appengine_AppID (world st)) dm) ->
            serviceAccountCall ev = false)
    by (apply quiet_list; reflexivity).
  destruct r1 as [[] | x | m]; simpl in H, H1.
  2, 3: finished H; simpl; rewrite ?app_nil_r;
        exact (tipped_app (listing (appengine_AppID (world st)) dm)
                          Hlisting H1).
  pose proof (tipped_none H1) as Hq1.
  assert (Hfront : forall ev,
            In ev (listing (appengine_AppID (world st)) dm ++ evs1) ->
            serviceAccountCall ev = false).
  { intros ev Hin. apply in_app_or in Hin.
    destruct Hin as [Hin | Hin]; [exact (Hlisting ev Hin) | exact (Hq1 ev Hin)]. }
  destruct (AuthorizedCertificates_List (appengine_AppID (world st)) (world s1))
    as [[ac | e] w4]; simpl in H.
  2: { case_next H. finished H. simpl. right.
       match goal with
       | |- context [EvServiceAccount ?sa] =>
           exists (listing (appengine_AppID (world st)) dm ++ evs1),
                  (EvCertificatesList (appengine_AppID (world st)) (Err e)), sa
       end.
       eexists.
       split; [ | split; [reflexivity | split; [exact Hfront | reflexivity]]].
       unfold listing. simpl. now rewrite <- ?app_assoc. }
  match type of H with
  | context [forRange ac ?b ?s] =>
      destruct (forRange ac b s) as [[r2 s2] evs2] eqn:E2
  end.
  assert (H2 : tipped (returned r2) evs2).
  { eapply loop_tipped; [ | exact E2]. intros; eapply updateBody_tipped; eassumption. }
  assert (Hgoal : forall r0,
             tipped r0 evs2 ->
             tipped r0 (listing (appengine_AppID (world st)) dm ++ evs1
                          ++ EvCertificatesList (appengine_AppID (world st)) (Ok ac)
                          :: evs2)).
  { intros r0 Ht. rewrite app_assoc.
    apply tipped_app; [exact Hfront | ].
    apply (tipped_app [EvCertificatesList (appengine_AppID (world st)) (Ok ac)]);
      [apply quiet_list; reflexivity | exact Ht]. }
  destruct r2 as [[] | x | m]; simpl in H, H2; finished H; simpl;
    rewrite ?app_nil_r.
  - left. apply tipped_none. apply Hgoal. exact H2.
  - apply Hgoal. exact H2.
  - apply Hgoal. exact H2.
Qed.

(** X15.  The package asks for the service account only to give a tip
    on a call to the registry that failed.  In any run of
    [createUpdate] the question is asked at most once, by the last
    call of the run, right after a call to the registry that returned
    an error, and the run returns an error: errors of [obtainCert] and
    of [time.Parse] are returned without a tip. *)
Theorem service_account_asked_last (st st' : St World)
    (r : Res (option error) (option error)) (evs before after : list Event)
    (sa : result string) :
  createUpdate st = (r, st', evs) ->
  evs = before ++ EvServiceAccount sa :: after ->
  after = [] /\
  (forall ev, In ev before -> serviceAccountCall ev = false) /\
  (exists x, r = Return (Some x)) /\
  exists earlier ev,
    before = earlier ++ [ev] /\ failedRegistryCall ev = true.
Proof.
  intros H E.
  destruct (createUpdate_tipped _ H)
    as [Hq | (b & ev & sa' & x & Hevs & Hev & Hb & Hr)].
  - exfalso.
    assert (Hin : In (EvServiceAccount sa) evs)
      by (rewrite E; apply in_or_app; right; now left).
    specialize (Hq _ Hin). discriminate.
  - assert (Hfront : forall y, In y (b ++ [ev]) -> serviceAccountCall y = false).
    { intros y Hy. apply in_app_or in Hy.
      destruct Hy as [Hy | [Hy | []]]; [exact (Hb y Hy) | ].
      subst y. destruct ev; simpl in Hev; try discriminate; reflexivity. }
    assert (E' : (b ++ [ev]) ++ EvServiceAccount sa' :: []
                 = before ++ EvServiceAccount sa :: after)
      by (rewrite <- E, Hevs, <- app_assoc; reflexivity).
    destruct (split_unique serviceAccountCall (b ++ [ev]) [] before after
                (EvServiceAccount sa') (EvServiceAccount sa) E' eq_refl Hfront)
      as (-> & _ & ->).
    + intros y [].
    + split; [reflexivity | split; [exact Hfront | split]].
      * destruct r as [v | [y | ] | m]; simpl in Hr; try discriminate.
        exists y. reflexivity.
      * exists b, ev. split; [reflexivity | exact Hev].
Qed.

End MoreRun4.

(** ** The theorems at work on the example platform *)

(** C4 at work: an authority that answers "valid" for a.example. *)
Lemma authorize_already_valid_witness :
  authorize (clientOf (Fake.toyKey 1)) "a.example"
            (Fake.start (fun _ => Fake.AlreadyValid) [] [])
  = (Return None, Fake.start (fun _ => Fake.AlreadyValid) [] [],
     [EvAuthorize (clientOf (Fake.toyKey 1)) "a.example"
        (Ok (acme.mkAuthorization "authz/a.example" "valid" []))]).
Proof.
  apply (authorize_already_valid (P := Fake.platform)); reflexivity.
Defined.

(** C6 at work: an authority that offers dns-01 only. *)
Lemma no_http01_challenge_witness :
  authorize (clientOf (Fake.toyKey 1)) "a.example"
            (Fake.start (fun _ => Fake.OffersDNS01Only) [] [])
  = (Return (Some (fmt_Errorf "no http-01 challenge offered")),
     Fake.start (fun _ => Fake.OffersDNS01Only) [] [],
     [EvAuthorize (clientOf (Fake.toyKey 1)) "a.example"
        (Ok (acme.mkAuthorization "authz/a.example" "pending"
               [acme.mkChallenge "dns-01" "chal/dns" "tokD" "pending"]))])
  /\
  fst (fst (obtainCert "a.example"
              (Fake.start (fun _ => Fake.OffersDNS01Only) [] [])))
  = Return (""%string, ""%string,
            Some (fmt_Errorf "no http-01 challenge offered")).
Proof.
  assert (Hstatus : acme.Status
                      (acme.mkAuthorization "authz/a.example" "pending"
                         [acme.mkChallenge "dns-01" "chal/dns" "tokD" "pending"])
                    <> acme.StatusValid) by discriminate.
  assert (Hnone : forall c,
             In c (acme.Challenges
                     (acme.mkAuthorization "authz/a.example" "pending"
                        [acme.mkChallenge "dns-01" "chal/dns" "tokD" "pending"])) ->
             acme.Type_ c <> "http-01").
  { intros c [<- | []]. discriminate. }
  destruct (no_http01_challenge (P := Fake.platform)
              (clientOf (Fake.toyKey 1)) "a.example" _ Hstatus Hnone)
    as [HA HO].
  split.
  - apply HA. reflexivity.
  - destruct (obtainCert "a.example"
                (Fake.start (fun _ => Fake.OffersDNS01Only) [] []))
      as [[r st'] evs] eqn:E.
    refine (proj1 (HO _ _ _ _ E _)).
    vm_compute in E. injection E as <- <- <-.
    do 4 right. left. reflexivity.
Defined.


(** C5 at work: the certificate of c.example, ten days from its expiry,
    is the one certificate of the registry; the run makes one write to
    the registry, the patch of "cert-9" with the key and the chain just
    issued. *)
Lemma renewal_patches_raw_data_witness :
  (exists ac s evsBefore evsC sEnd,
      snd (createUpdate (Fake.start (fun _ => Fake.OffersHTTP01) [] [Fake.dueSoon]))
      = evsBefore ++ EvCertificatesList "example-app" (Ok ac) :: evsC /\
      forRange ac (updateBody "example-app") s = (Val tt, sEnd, evsC))
  /\
  filter registryWrite
    (snd (createUpdate (Fake.start (fun _ => Fake.OffersHTTP01) [] [Fake.dueSoon])))
  = [EvCertificatesPatch "example-app" "cert-9"
       (rawDataOnly (fst (fst (Fake.issued "c.example")))
                    (snd (fst (Fake.issued "c.example"))))
       "certificate_raw_data"
       (Ok (api.mkAuthorizedCertificate
              (Some (api.mkCertificateRawData
                       (snd (fst (Fake.issued "c.example")))
                       (fst (fst (Fake.issued "c.example")))))
              "c.example" ["c.example"] "2017-09-29T00:00:00Z" "cert-9"))].
Proof.
  split; [ | vm_compute; reflexivity].
  destruct (createUpdate (Fake.start (fun _ => Fake.OffersHTTP01) [] [Fake.dueSoon]))
    as [[r st'] evs] eqn:E.
  assert (Hr : r = Return None).
  { vm_compute in E. now injection E as <- _ _. }
  subst r.
  destruct (renewal_patches_raw_data _ E)
    as (ac & s & evsBefore & evsC & Hevs & (sEnd & Hend) & _).
  exists ac, s, evsBefore, evsC, sEnd. split; [exact Hevs | exact Hend].
Defined.

(** C8 at work: the chain of two certificates the example authority
    issues for b.example. *)
Lemma obtainCert_pem_round_trip_witness :
  exists certKey certDER,
    pem.DecodeAll
      (bytes_of_string
         (fst (fst (Fake.issued "b.example"))))
    = Some (map (pem.mkBlock "CERTIFICATE") certDER) /\
    pem.DecodeAll
      (bytes_of_string
         (snd (fst (Fake.issued "b.example"))))
    = Some [pem.mkBlock "RSA PRIVATE KEY" (Fake.MarshalPKCS1PrivateKey certKey)].
Proof.
  destruct (obtainCert "b.example" (Fake.start (fun _ => Fake.OffersHTTP01) [] []))
    as [[r st'] evs] eqn:E.
  assert (Hr : r = Return (Fake.issued "b.example")).
  { vm_compute in E. vm_compute. now injection E as <- _ _. }
  subst r.
  destruct (Fake.issued "b.example") as [[cert key] err] eqn:HI.
  assert (Herr : err = None).
  { vm_compute in HI. now injection HI as _ _ <-. }
  subst err.
  destruct (obtainCert_pem_round_trip _ _ E)
    as (certKey & calls & client & csr & exp & certDER & certURL
        & Hevs & _ & _ & Hcert & Hkey).
  exists certKey, certDER. split; [exact Hcert | exact Hkey].
Defined.

(** C9 at work: a certificate without domain names. *)
Lemma empty_domain_names_panics_witness :
  updateBody "example-app" Fake.nameless
             (Fake.start (fun _ => Fake.AlreadyValid) [] [Fake.nameless])
  = (Panic "runtime error: index out of range",
     Fake.start (fun _ => Fake.AlreadyValid) [] [Fake.nameless], []).
Proof.
  apply (proj1 (empty_domain_names_panics (P := Fake.platform) "example-app")).
  reflexivity.
Defined.

(** C1 at work: the authority refuses a.example, the first of two
    domains without certificate; and the authority refuses c.example,
    whose certificate is due. *)
Lemma failed_issuance_ends_run_witness :
  (exists st1 evs,
      createUpdate Fake.twoDomains
      = (Return (Some (obtainFailed "a.example"
                         (ErrorString "authorize: too many certificates already issued"))),
         st1, evs))
  /\
  (exists st1 evs,
      createUpdate Fake.renewalRefused
      = (Return (Some (obtainFailed "c.example"
                         (ErrorString "authorize: too many certificates already issued"))),
         st1, evs)).
Proof.
  split.
  - pose proof (proj1 (failed_issuance_ends_run (P := Fake.platform)
                         Fake.twoDomains eq_refl eq_refl eq_refl)) as H.
    specialize (H [] (Fake.unbound "a.example") [Fake.unbound "b.example"]
                  _ _ _ _ _ _ _ eq_refl eq_refl eq_refl eq_refl).
    eexists. eexists. exact (proj1 H).
  - pose proof (proj2 (failed_issuance_ends_run (P := Fake.platform)
                         Fake.renewalRefused eq_refl eq_refl eq_refl)) as H.
    eexists. eexists. eapply proj1.
    eapply (H _ _ _ _ [] Fake.dueSoon []);
      try reflexivity.
    vm_compute. discriminate.
Defined.

(** C1 as stated fails.  In the run over a.example and b.example, both
    without certificate, the authority refuses a.example.  The run
    returns the error of a.example; its calls are the listing of the
    domains and the failed issuance for a.example, and nothing else: no
    key, request or certificate for b.example, although the authority
    would have issued it, and no listing of the certificates.  The
    registry is left as it was. *)
Lemma createUpdate_stops_at_first_failure :
  createUpdate Fake.twoDomains
  = (Return (Some (ErrorString
                     "obtain cert for a.example: authorize: too many certificates already issued")),
     mkSt (Fake.mkWorld Fake.July1 2 Fake.refusesA false false []
             [Fake.unbound "a.example"; Fake.unbound "b.example"] [] 0)
          (http.Write
             (http.Write http.newResponseWriter
                         (found 2 " custom domains:"))
             (creating "a.example")),
     [EvDefaultClient api.CloudPlatformScope (Ok tt);
      EvApiNew (Ok tt);
      EvDomainMappingsList "example-app"
        (Ok [Fake.unbound "a.example"; Fake.unbound "b.example"]);
      EvGenerateKey 2048 (Ok (Fake.toyKey 0));
      EvCreateCertificateRequest (requestFor "a.example") (Fake.toyKey 0)
        (Ok (bytes_of_string "csr:a.example"));
      EvGenerateKey 2048 (Ok (Fake.toyKey 1));
      EvRegister (clientOf (Fake.toyKey 1)) newAccount (Ok newAccount);
      EvAuthorize (clientOf (Fake.toyKey 1)) "a.example"
        (Err (ErrorString "too many certificates already issued"))])
  /\
  snd (Fake.issued "b.example") = None.
Proof.
  split; vm_compute; reflexivity.
Qed.

(** C7 at work: two calls of [obtainCert] in a row, for b.example and
    then for c.example in the state the first call left.  Both
    succeed; the first draws the keys 0 and 1 of the example
    generator, the second the keys 2 and 3, and each returns the first
    key it drew. *)
Lemma obtainCert_keys_and_request_witness :
  exists cert st' rest cert2 st2 rest2,
    obtainCert "b.example" (Fake.start (fun _ => Fake.OffersHTTP01) [] [])
    = (Return (cert, keyPEM (Fake.toyKey 0), None), st',
       EvGenerateKey 2048 (Ok (Fake.toyKey 0))
         :: EvCreateCertificateRequest
              (mkCertificateRequest "b.example" ["b.example"%string])
              (Fake.toyKey 0) (Ok (bytes_of_string "csr:b.example"))
         :: EvGenerateKey 2048 (Ok (Fake.toyKey 1))
         :: EvRegister (clientOf (Fake.toyKey 1)) newAccount (Ok newAccount)
         :: rest) /\
    obtainCert "c.example" st'
    = (Return (cert2, keyPEM (Fake.toyKey 2), None), st2,
       EvGenerateKey 2048 (Ok (Fake.toyKey 2))
         :: EvCreateCertificateRequest
              (mkCertificateRequest "c.example" ["c.example"%string])
              (Fake.toyKey 2) (Ok (bytes_of_string "csr:c.example"))
         :: EvGenerateKey 2048 (Ok (Fake.toyKey 3))
         :: EvRegister (clientOf (Fake.toyKey 3)) newAccount (Ok newAccount)
         :: rest2) /\
    Fake.toyKey 0 <> Fake.toyKey 1 /\ Fake.toyKey 1 <> Fake.toyKey 2 /\
    Fake.toyKey 2 <> Fake.toyKey 3 /\ Fake.toyKey 0 <> Fake.toyKey 2.
Proof.
  destruct (obtainCert_keys_and_request (P := Fake.platform) "b.example"
              (Fake.start (fun _ => Fake.OffersHTTP01) [] []))
    as (x & st' & evs & Hrun & _ & _ & Hshape).
  pose proof Hrun as E. vm_compute in E. injection E as Hx Hst _.
  simpl in Hshape. destruct Hshape as (rest & -> & _ & _ & _ & _ & Hkey).
  destruct x as [[cert key] err].
  assert (Herr : err = None) by (now injection Hx).
  subst err. destruct (Hkey cert key eq_refl) as (-> & _).
  destruct (obtainCert_keys_and_request (P := Fake.platform) "c.example" st')
    as (x2 & st2 & evs2 & Hrun2 & _ & _ & Hshape2).
  pose proof Hrun2 as E2. rewrite <- Hst in E2. vm_compute in E2.
  injection E2 as Hx2 _ _.
  rewrite <- Hst in Hshape2. simpl in Hshape2.
  destruct Hshape2 as (rest2 & -> & _ & _ & _ & _ & Hkey2).
  destruct x2 as [[cert2 key2] err2].
  assert (Herr2 : err2 = None) by (now injection Hx2).
  subst err2. destruct (Hkey2 cert2 key2 eq_refl) as (-> & _).
  exists cert, st', rest, cert2, st2, rest2.
  split; [exact Hrun | split; [exact Hrun2 | ]].
  repeat split; discriminate.
Defined.

(** X1 at work: a request without the cron header. *)
Lemma cronHandler_forbidden_witness :
  cronHandler (http.mkRequest "/.well-known/letsencrypt" []) Fake.twoDomains
  = (Return tt,
     mkSt (world Fake.twoDomains)
          (http.mkResponseWriter
             [("Content-Type", "text/plain; charset=utf-8");
              ("X-Content-Type-Options", "nosniff")]
             true 403 ("unauthorized" ++ newline)),
     []).
Proof.
  apply (cronHandler_forbidden (P := Fake.platform)); reflexivity.
Defined.

(** X2 at work: a.example is bound to a certificate. *)
Lemma bound_domain_needs_nothing_witness :
  snd (createBody "example-app" (Fake.bound "a.example" "cert-1") Fake.twoDomains)
  = [].
Proof.
  rewrite (bound_domain_needs_nothing (P := Fake.platform) "example-app"
             (Fake.bound "a.example" "cert-1") Fake.twoDomains eq_refl).
  reflexivity.
Defined.

(** X3 at work: the authority offers dns-01 and http-01 for b.example. *)
Lemma authorize_publishes_before_accept_witness :
  exists auth chal response accepted final,
    snd (authorize (clientOf (Fake.toyKey 1)) "b.example" Fake.twoDomains)
    = [EvAuthorize (clientOf (Fake.toyKey 1)) "b.example" (Ok auth);
       EvMemcacheSet
         (memcache.mkItem
            ("/.well-known/acme-challenge/" ++ acme.Token chal)%string
            (bytes_of_string response)) None;
       EvAccept (clientOf (Fake.toyKey 1)) chal (Ok accepted);
       EvWaitAuthorization (clientOf (Fake.toyKey 1)) (acme.URI auth) (Ok final)].
Proof.
  destruct (authorize (clientOf (Fake.toyKey 1)) "b.example" Fake.twoDomains)
    as [[r st'] evs] eqn:E.
  assert (Hr : r = Return None).
  { vm_compute in E. now injection E as <- _ _. }
  subst r.
  destruct (authorize_publishes_before_accept _ _ _ E)
    as [(auth & Hs & Hevs) | (auth & chal & response & accepted & final
                              & _ & _ & _ & _ & Hevs)].
  - exfalso. vm_compute in E. injection E as _ <-.
    injection Hevs as <-. discriminate Hs.
  - exists auth, chal, response, accepted, final. exact Hevs.
Defined.

(** X4 at work: the registry answers "forbidden", and [addTip] adds
    its advice to the message. *)
Lemma list_domains_failure_ends_run_witness :
  exists x,
    fst (fst (createUpdate Fake.forbidden)) = Return (Some x) /\
    String.prefix "list domains: Operation not allowed, forbidden" (Error x)
    = true /\
    strings_Contains (Error x) "Tip: add AppEngine default service account"
    = true.
Proof.
  destruct (list_domains_failure_ends_run (P := Fake.platform) Fake.forbidden
              eq_refl eq_refl eq_refl)
    as (x & st' & sa & Hrun & Hprefix & _).
  exists x. rewrite Hrun. split; [reflexivity | split; [exact Hprefix | ]].
  vm_compute in Hrun. injection Hrun as <- _ _. vm_compute. reflexivity.
Defined.

(** X5 at work: the cron job runs over a.example and b.example, the
    authority refuses a.example; the response is 200 and ends with the
    error. *)
Lemma cronHandler_status_after_listing_witness :
  http.status
    (resp (snd (fst (cronHandler
                       (http.mkRequest "/.well-known/letsencrypt"
                                       [("X-Appengine-Cron", "true")])
                       Fake.twoDomains))))
  = 200
  /\
  http.body
    (resp (snd (fst (cronHandler
                       (http.mkRequest "/.well-known/letsencrypt"
                                       [("X-Appengine-Cron", "true")])
                       Fake.twoDomains))))
  = (found 2 " custom domains:" ++ creating "a.example"
     ++ "obtain cert for a.example: authorize: too many certificates already issued"
     ++ newline)%string.
Proof.
  split; [ | vm_compute; reflexivity].
  destruct (cronHandler (http.mkRequest "/.well-known/letsencrypt"
                                        [("X-Appengine-Cron", "true")])
                        Fake.twoDomains) as [[res st'] evs] eqn:E.
  refine (cronHandler_status_after_listing _ Fake.twoDomains
            [Fake.unbound "a.example"; Fake.unbound "b.example"]
            eq_refl E _).
  vm_compute in E. injection E as _ _ <-.
  do 2 right. left. reflexivity.
Defined.

(** X6 at work: the authority offers dns-01 and http-01 for b.example
    and accepts the challenge. *)
Lemma accept_only_after_publish_witness :
  exists auth chal response rest,
    acme_HTTP01ChallengeResponse (clientOf (Fake.toyKey 1)) (acme.Token chal)
    = Ok response /\
    snd (authorize (clientOf (Fake.toyKey 1)) "b.example" Fake.twoDomains)
    = EvAuthorize (clientOf (Fake.toyKey 1)) "b.example" (Ok auth)
        :: EvMemcacheSet
             (memcache.mkItem
                ("/.well-known/acme-challenge/" ++ acme.Token chal)%string
                (bytes_of_string response)) None
        :: EvAccept (clientOf (Fake.toyKey 1)) chal (Ok chal) :: rest.
Proof.
  destruct (authorize (clientOf (Fake.toyKey 1)) "b.example" Fake.twoDomains)
    as [[r st'] evs] eqn:E.
  pose proof E as E'. vm_compute in E'. injection E' as _ _ Hevs.
  match type of Hevs with
  | context [EvAccept ?c ?chal ?res] =>
      assert (Hin : In (EvAccept c chal res) evs)
        by (rewrite <- Hevs; do 2 right; left; reflexivity);
      destruct (accept_only_after_publish _ _ _ _ _ _ E Hin)
        as (auth & response & rest & _ & Hresp & Hrun & _);
      exists auth, chal, response, rest
  end.
  split; [exact Hresp | exact Hrun].
Defined.

(** X7 at work: for b.example the authority offers dns-01 first, and
    the http-01 challenge is the one answered. *)
Lemma first_http01_is_answered_witness :
  exists auth pre chal post,
    In (EvAuthorize (clientOf (Fake.toyKey 1)) "b.example" (Ok auth))
       (snd (authorize (clientOf (Fake.toyKey 1)) "b.example" Fake.twoDomains)) /\
    acme.Challenges auth = pre ++ chal :: post /\
    (forall c, In c pre -> acme.Type_ c <> "http-01"%string) /\
    acme.Type_ chal = "http-01"%string.
Proof.
  destruct (authorize (clientOf (Fake.toyKey 1)) "b.example" Fake.twoDomains)
    as [[r st'] evs] eqn:E.
  pose proof E as E'. vm_compute in E'. injection E' as _ _ Hevs.
  match type of Hevs with
  | context [EvMemcacheSet ?item ?res] =>
      assert (Hin : In (EvMemcacheSet item res) evs)
        by (rewrite <- Hevs; right; left; reflexivity);
      destruct (first_http01_is_answered _ _ _ _ _ E Hin)
        as (auth & pre & chal & post & Hauth & Hl & Hpre & Hty & _)
  end.
  exists auth, pre, chal, post. repeat split; assumption.
Defined.

(** X8 at work: the issuance for b.example stores one item in
    memcache. *)
Lemma obtainCert_keeps_to_the_authority_witness :
  resp (snd (fst (obtainCert "b.example"
                             (Fake.start (fun _ => Fake.OffersHTTP01) [] []))))
  = http.newResponseWriter /\
  List.length
    (filter memcacheSet
       (snd (obtainCert "b.example"
                        (Fake.start (fun _ => Fake.OffersHTTP01) [] []))))
  = 1%nat /\
  forall ev,
    In ev (snd (obtainCert "b.example"
                           (Fake.start (fun _ => Fake.OffersHTTP01) [] []))) ->
    registryCall ev = false /\ memcacheGet ev = false.
Proof.
  destruct (obtainCert "b.example" (Fake.start (fun _ => Fake.OffersHTTP01) [] []))
    as [[r st'] evs] eqn:E.
  destruct (obtainCert_keeps_to_the_authority _ _ E) as (Hresp & Hq & _ & _).
  split; [exact Hresp | split; [ | exact Hq]].
  vm_compute in E. injection E as _ _ <-. reflexivity.
Defined.

(** X9 at work: the issuance for b.example ends with the request to
    the authority, after the challenge. *)
Lemma certificate_requested_once_authorized_witness :
  exists c csr res certKey accountKey account auth evsC,
    snd (obtainCert "b.example" (Fake.start (fun _ => Fake.OffersHTTP01) [] []))
    = EvGenerateKey 2048 (Ok certKey)
        :: EvCreateCertificateRequest
             (mkCertificateRequest "b.example" ["b.example"%string]) certKey (Ok csr)
        :: EvGenerateKey 2048 (Ok accountKey)
        :: EvRegister c (acme.mkAccount [] "") (Ok account)
        :: EvAuthorize c "b.example" (Ok auth)
        :: evsC ++ [EvCreateCert c csr 7776000000000000 true res].
Proof.
  destruct (obtainCert "b.example" (Fake.start (fun _ => Fake.OffersHTTP01) [] []))
    as [[r st'] evs] eqn:E.
  pose proof E as E'. vm_compute in E'. injection E' as _ _ Hevs.
  match type of Hevs with
  | context [EvCreateCert ?c ?csr ?exp ?b ?res] =>
      assert (Hin : In (EvCreateCert c csr exp b res) evs)
        by (rewrite <- Hevs; do 8 right; left; reflexivity);
      destruct (certificate_requested_once_authorized _ _ _ _ _ _ _ E Hin)
        as (_ & _ & certKey & accountKey & account & auth & evsC & _ & Hrun & _);
      exists c, csr, res, certKey, accountKey, account, auth, evsC
  end.
  exact Hrun.
Defined.

(** X10 at work: a.example has no certificate; the run creates one
    and binds the domain to it. *)
Lemma creation_binds_certificate_witness :
  (exists dm s evsD evsAfter sEnd,
      snd (createUpdate oneDomain)
      = listing "example-app" dm ++ evsD ++ evsAfter /\
      forRange dm (createBody "example-app") s = (Val tt, sEnd, evsD))
  /\
  filter registryWrite (snd (createUpdate oneDomain))
  = [EvCertificatesCreate "example-app"
       (newCertificate "a.example"
          (fst (fst (Fake.issued "a.example")))
          (snd (fst (Fake.issued "a.example"))))
       (Ok (api.mkAuthorizedCertificate
              (Some (api.mkCertificateRawData
                       (snd (fst (Fake.issued "a.example")))
                       (fst (fst (Fake.issued "a.example")))))
              "a.example" ["a.example"%string] "2017-09-29T00:00:00Z" "cert-0"));
     EvDomainMappingsPatch "example-app" "a.example" (bindingTo "cert-0")
       "ssl_settings.certificate_id" (Ok tt)].
Proof.
  split; [ | vm_compute; reflexivity].
  destruct (createUpdate oneDomain) as [[r st'] evs] eqn:E.
  assert (Hr : r = Return None).
  { vm_compute in E. now injection E as <- _ _. }
  subst r.
  destruct (creation_binds_certificate _ E)
    as (dm & s & evsD & evsAfter & Hevs & (sEnd & Hend) & _).
  exists dm, s, evsD, evsAfter, sEnd. split; [exact Hevs | exact Hend].
Defined.

(** X11 at work: the certificate created for a.example is the
    thirteenth call of the run; the calls before it end with those of a
    successful [obtainCert]. *)
Lemma written_certificate_was_just_issued_witness :
  exists earlier evsI domain s s1 cert key,
    firstn 12 (snd (createUpdate oneDomain)) = earlier ++ evsI /\
    obtainCert domain s = (Return (cert, key, None), s1, evsI) /\
    api.mkCertificateRawData
      (snd (fst (Fake.issued "a.example"))) (fst (fst (Fake.issued "a.example")))
    = api.mkCertificateRawData key cert.
Proof.
  destruct (createUpdate oneDomain) as [[r st'] evs] eqn:E.
  pose proof E as E'. vm_compute in E'. injection E' as _ _ Hevs.
  assert (Hsplit : evs = firstn 12 evs ++ nth 12 evs (EvApiNew (Ok tt))
                           :: skipn 13 evs)
    by (rewrite <- Hevs; reflexivity).
  assert (Hw : writtenRaw (nth 12 evs (EvApiNew (Ok tt)))
               = Some (Some (api.mkCertificateRawData
                               (snd (fst (Fake.issued "a.example")))
                               (fst (fst (Fake.issued "a.example"))))))
    by (rewrite <- Hevs; vm_compute; reflexivity).
  destruct (written_certificate_was_just_issued _ _ _ _ E Hsplit Hw)
    as (earlier & evsI & domain & s & s1 & cert & key & Hb & HO & Hraw).
  exists earlier, evsI, domain, s, s1, cert, key.
  split; [exact Hb | split; [exact HO | ]].
  congruence.
Defined.

(** X12 at work: in the run over a.example the list of the
    certificates is the fifteenth call. *)
Lemma domains_before_certificates_witness :
  (forall ev, In ev (firstn 14 (snd (createUpdate oneDomain))) ->
     certificateCall ev = false) /\
  (forall ev, In ev (skipn 15 (snd (createUpdate oneDomain))) ->
     domainCall ev = false /\ certificatesList ev = false).
Proof.
  destruct (createUpdate oneDomain) as [[r st'] evs] eqn:E.
  pose proof E as E'. vm_compute in E'. injection E' as _ _ Hevs.
  match type of Hevs with
  | context [EvCertificatesList ?a ?res] =>
      assert (Hsplit : evs = firstn 14 evs ++ EvCertificatesList a res
                               :: skipn 15 evs)
        by (rewrite <- Hevs; reflexivity)
  end.
  exact (domains_before_certificates _ _ _ _ _ E Hsplit).
Defined.

(** X13 at work: a.example is bound and the certificate of d.example
    expires in sixty-two days. *)
Lemma nothing_due_only_reads_witness :
  exists st',
    createUpdate steady
    = (Return None, st',
       listing "example-app" [Fake.bound "a.example" "cert-10"]
         ++ [EvCertificatesList "example-app" (Ok [Fake.farOff])]) /\
    world st' = world steady.
Proof.
  refine (nothing_due_only_reads (P := Fake.platform) steady
            (dm := [Fake.bound "a.example" "cert-10"]) (ac := [Fake.farOff])
            eq_refl eq_refl eq_refl _ eq_refl _).
  - intros e [<- | []]. discriminate.
  - intros c [<- | []].
    exists "d.example"%string, [], (1504224000 * time.Second).
    split; [reflexivity | split; [reflexivity | ]].
    vm_compute. reflexivity.
Defined.

(** X14 at work: the expiry of the first certificate does not parse;
    the second one, which is due, is not renewed. *)
Lemma invalid_expiry_ends_run_witness :
  exists st,
    createUpdate badExpiry
    = (Return (Some (invalidExpiry "f.example"
                       (ErrorString "parsing time: cannot parse"))), st,
       listing "example-app" []
         ++ [EvCertificatesList "example-app" (Ok [undated; Fake.dueSoon])]).
Proof.
  eexists.
  refine (invalid_expiry_ends_run (P := Fake.platform) badExpiry (dm := [])
            eq_refl eq_refl eq_refl [] undated [Fake.dueSoon]
            eq_refl eq_refl eq_refl eq_refl eq_refl eq_refl).
Defined.

(** X15 at work: the registry refuses to list the domains; the
    service account is asked by the fourth and last call. *)
Lemma service_account_asked_last_witness :
  skipn 4 (snd (createUpdate Fake.forbidden)) = [] /\
  (exists x, fst (fst (createUpdate Fake.forbidden)) = Return (Some x)) /\
  exists earlier ev,
    firstn 3 (snd (createUpdate Fake.forbidden)) = earlier ++ [ev] /\
    failedRegistryCall ev = true.
Proof.
  destruct (createUpdate Fake.forbidden) as [[r st'] evs] eqn:E.
  pose proof E as E'. vm_compute in E'. injection E' as _ _ Hevs.
  match type of Hevs with
  | context [EvServiceAccount ?sa] =>
      assert (Hsplit : evs = firstn 3 evs ++ EvServiceAccount sa :: skipn 4 evs)
        by (rewrite <- Hevs; reflexivity)
  end.
  destruct (service_account_asked_last _ _ _ _ E Hsplit) as (Hafter & _ & Hr & Hlast).
  split; [exact Hafter | split; [exact Hr | exact Hlast]].
Defined.

(** X16 at work: the response published for b.example is served from
    the world [authorize] leaves. *)
Lemma published_response_is_served_witness :
  exists token response st'' evs,
    acme_HTTP01ChallengeResponse (clientOf (Fake.toyKey 1)) token = Ok response /\
    challengeHandler
      (http.mkRequest "/.well-known/acme-challenge/tokH" [])
      (mkSt (world (snd (fst (authorize (clientOf (Fake.toyKey 1)) "b.example"
                                        Fake.twoDomains))))
            http.newResponseWriter)
    = (Val tt, st'', evs) /\
    http.status (resp st'') = 200 /\
    http.body (resp st'') = response.
Proof.
  destruct (authorize (clientOf (Fake.toyKey 1)) "b.example" Fake.twoDomains)
    as [[r st'] evs] eqn:E.
  pose proof E as E'. vm_compute in E'. injection E' as _ Hst Hevs.
  match type of Hevs with
  | context [EvMemcacheSet ?item None] =>
      assert (Hin : In (EvMemcacheSet item None) evs)
        by (rewrite <- Hevs; right; left; reflexivity);
      assert (Hget : memcache_Get (memcache.Key item) (world st')
                     = (Ok item, world st'))
        by (rewrite <- Hst; vm_compute; reflexivity);
      destruct (published_response_is_served _ _ _ _ [] E Hin Hget)
        as (token & response & st'' & _ & _ & Hresp & Hrun & H200 & Hbody)
  end.
  exists token, response, st''. eexists.
  split; [exact Hresp | split; [exact Hrun | split; [exact H200 | exact Hbody]]].
Defined.

(** X17 at work: the registry refuses to list the domains; the cron
    job answers 500. *)
Lemma cronHandler_error_before_listing_witness :
  http.status (resp (snd (fst (cronHandler cronRequest Fake.forbidden)))) = 500 /\
  http.Header_Get
    (http.Header (resp (snd (fst (cronHandler cronRequest Fake.forbidden)))))
    "Content-Type"
  = "text/plain; charset=utf-8"%string.
Proof.
  destruct (cronHandler cronRequest Fake.forbidden) as [[res st'] evs] eqn:E.
  assert (Hno : forall dm,
             ~ In (EvDomainMappingsList
                     (appengine_AppID (world Fake.forbidden)) (Ok dm)) evs).
  { intros dm Hin. vm_compute in E. injection E as _ _ <-.
    simpl in Hin. destruct Hin as [Hin | [Hin | [Hin | [Hin | []]]]];
      discriminate. }
  destruct (cronHandler_error_before_listing cronRequest Fake.forbidden
              eq_refl eq_refl E Hno) as (H500 & Hct & _).
  split; [exact H500 | exact Hct].
Defined.
